(** * TaskFlow Pro backend: models, authorization gate and task controller

    A shallow embedding of the server side of TaskFlow Pro
    (backend/models/User.js, backend/models/Task.js,
    backend/middleware/auth.js, backend/controllers/taskController.js)
    and the properties of its specification that can be decided on it.

    Conventions of the embedding.
    - A MongoDB collection is a [list] of documents in natural order.
    - A [Date] is its number of milliseconds since the epoch, in [Z];
      an optional or nullable field is an [option].
    - [Date.now()] and [new Date()] read the clock; every operation takes
      the reading [now] as an argument, one reading per call.
    - A JavaScript [Number] that holds hours is kept abstract behind the
      class [Number], with two instances: IEEE 754 binary64 (what node
      computes with) and exact rationals.
    - bcrypt, jsonwebtoken and mongoose's cast of a string to an ObjectId
      are library code outside the repository; they are parameters of the
      model (classes [Bcrypt], [Jwt] and [Mongoose]).
    - [save()] validates the whole document before any hook runs,
      unless it is called with [validateBeforeSave: false] (as every
      save of a user is); a document that fails is not written and the
      call throws.
    - A lost connection to the database is outside the model. *)

From Stdlib Require Import ZArith QArith Qround PrimFloat String List Lia.
From stdpp Require Import base option list gmap strings sorting.
Import ListNotations.

Set Warnings "-register-all".
Local Open Scope Z_scope.

(** ** JavaScript numbers *)

Module Js.

(** The operations the repository applies to its [Number]s. *)
Class Number (N : Type) := {
  of_Z : Z -> N;
  add : N -> N -> N;
  mul : N -> N -> N;
  div : N -> N -> N;
  (** [a > b], [a <= b] and [a === b] *)
  gt : N -> N -> bool;
  le : N -> N -> bool;
  eqb : N -> N -> bool;
  (** [Math.round]: nearest integer, ties towards +infinity *)
  Math_round : N -> N;
  (** [Math.min] *)
  Math_min : N -> N -> N;
}.

(** *** Exact rationals *)

Definition Qround_half_up (q : Q) : Q := inject_Z (Qfloor (q + (1 # 2))%Q).

Definition Qmin_js (a b : Q) : Q := if Qle_bool a b then a else b.

#[export] Instance Number_Q : Number Q := {
  of_Z := inject_Z;
  add := Qplus;
  mul := Qmult;
  div := Qdiv;
  gt a b := negb (Qle_bool a b);
  le := Qle_bool;
  eqb := Qeq_bool;
  Math_round := Qround_half_up;
  Math_min := Qmin_js;
}.

(** *** IEEE 754 binary64, the representation of a JavaScript Number *)

Definition two52 : float := 4503599627370496%float.

Definition is_integral_range (x : float) : bool :=
  PrimFloat.ltb (PrimFloat.abs x) two52.

(** [Math.floor] on doubles: below 2^52 in magnitude, adding and
    removing 2^52 rounds to an integer (to nearest); one is taken off
    when that went up.  From 2^52 on every double is an integer, and
    NaN and the infinities are returned as they are. *)
Definition float_floor (x : float) : float :=
  if is_integral_range x then
    let r := if PrimFloat.ltb x 0%float
             then PrimFloat.add (PrimFloat.sub x two52) two52
             else PrimFloat.sub (PrimFloat.add x two52) two52 in
    if PrimFloat.ltb x r then PrimFloat.sub r 1%float else r
  else x.

Definition float_round (x : float) : float :=
  if is_integral_range x then
    let f := float_floor x in
    if PrimFloat.leb 0.5%float (PrimFloat.sub x f)
    then PrimFloat.add f 1%float else f
  else x.

Definition float_min (a b : float) : float :=
  if PrimFloat.is_nan a then a
  else if PrimFloat.is_nan b then b
  else if PrimFloat.leb a b then a else b.

(** Integer literals and counts as doubles (exact below 2^53). *)
Fixpoint float_of_pos (p : positive) : float :=
  match p with
  | xH => 1%float
  | xO p' => PrimFloat.mul 2%float (float_of_pos p')
  | xI p' => PrimFloat.add (PrimFloat.mul 2%float (float_of_pos p')) 1%float
  end.

Definition float_of_Z (z : Z) : float :=
  match z with
  | Z0 => 0%float
  | Zpos p => float_of_pos p
  | Zneg p => PrimFloat.opp (float_of_pos p)
  end.

#[export] Instance Number_float : Number float := {
  of_Z := float_of_Z;
  add := PrimFloat.add;
  mul := PrimFloat.mul;
  div := PrimFloat.div;
  gt a b := PrimFloat.ltb b a;
  le := PrimFloat.leb;
  eqb := PrimFloat.eqb;
  Math_round := float_round;
  Math_min := float_min;
}.

End Js.

Import Js.

(** ** Shared vocabulary *)

(** A MongoDB ObjectId, by its 24 hexadecimal digits. *)
Abbreviation ObjectId := string.

(** A JSON value, as [res.json] and [toJSON] produce it.  The fields of a
    top-level document are kept in a [gmap], so that [delete ret.key] is
    the map's [delete]; a nested object keeps its fields in order. *)
Inductive Json : Type :=
  | JNull
  | JBool (b : bool)
  | JNum (n : Z)
  | JStr (s : string)
  | JObj (fields : list (string * Json)).

Definition json_opt {A} (f : A -> Json) (o : option A) : Json :=
  match o with Some a => f a | None => JNull end.

(** A field that is [undefined] is left out of the object. *)
Definition json_field {A} (k : string) (f : A -> Json) (o : option A)
  : list (string * Json) :=
  match o with Some a => [(k, f a)] | None => [] end.

(** bcryptjs.  [bcrypt_hash p cost] is [bcrypt.hash(p, cost)], with the
    salt the library draws; [bcrypt_compare candidate stored] is
    [bcrypt.compare(candidate, stored)]. *)
Class Bcrypt := {
  bcrypt_hash : string -> nat -> string;
  bcrypt_compare : string -> string -> bool;
}.

(** mongoose's cast of a string to an ObjectId, which a query by [_id]
    and a path of that type apply to the string they are given.
    [castObjectId s] is the ObjectId, by its digits in lower case, or
    [None] when the cast throws a CastError.  A string of 24 hexadecimal
    digits casts in every version of the driver; what else does depends
    on the version. *)
Class Mongoose := { castObjectId : string -> option ObjectId }.

(** ** models/User.js *)

Module User.

Inductive Role := user | admin | manager.

Definition role_str (r : Role) : string :=
  match r with user => "user" | admin => "admin" | manager => "manager" end.

Inductive Theme := light | dark | auto.

Definition theme_str (x : Theme) : string :=
  match x with light => "light" | dark => "dark" | auto => "auto" end.

Record Notifications := {
  n_email : bool; n_push : bool; n_sms : bool;
}.

Record Preferences := {
  notifications : Notifications;
  theme : Theme;
  language : string;
  timezone : string;
}.

Record Location := {
  city : option string; country : option string; loc_timezone : option string;
}.

Record SocialLinks := {
  website : option string; github : option string;
  linkedin : option string; twitter : option string;
}.

Record Profile := {
  bio : string;
  phone : option string;
  location : Location;
  socialLinks : SocialLinks;
}.

Record Statistics := {
  tasksCreated : Z; tasksCompleted : Z; totalTimeSpent : Z;
}.

(** A user document.  [password_modified] is [isModified('password')],
    the dirty flag mongoose keeps for the path; [passwordChangedAt] is
    the property the second save hook writes. *)
Record t := {
  _id : ObjectId;
  name : string;
  email : string;
  password : string;
  avatar : option string;
  role : Role;
  isVerified : bool;
  isActive : bool;
  lastLogin : option Z;
  loginAttempts : Z;
  lockUntil : option Z;
  preferences : Preferences;
  profile : Profile;
  statistics : Statistics;
  createdAt : Z;
  updatedAt : Z;
  passwordChangedAt : option Z;
  password_modified : bool;
}.

Definition set_password (v : string) (u : t) : t :=
  {| _id := _id u; name := name u; email := email u; password := v;
     avatar := avatar u; role := role u; isVerified := isVerified u;
     isActive := isActive u; lastLogin := lastLogin u;
     loginAttempts := loginAttempts u; lockUntil := lockUntil u;
     preferences := preferences u; profile := profile u;
     statistics := statistics u; createdAt := createdAt u;
     updatedAt := updatedAt u; passwordChangedAt := passwordChangedAt u;
     password_modified := password_modified u |}.

Definition set_lastLogin (v : option Z) (u : t) : t :=
  {| _id := _id u; name := name u; email := email u; password := password u;
     avatar := avatar u; role := role u; isVerified := isVerified u;
     isActive := isActive u; lastLogin := v;
     loginAttempts := loginAttempts u; lockUntil := lockUntil u;
     preferences := preferences u; profile := profile u;
     statistics := statistics u; createdAt := createdAt u;
     updatedAt := updatedAt u; passwordChangedAt := passwordChangedAt u;
     password_modified := password_modified u |}.

Definition set_loginAttempts (v : Z) (u : t) : t :=
  {| _id := _id u; name := name u; email := email u; password := password u;
     avatar := avatar u; role := role u; isVerified := isVerified u;
     isActive := isActive u; lastLogin := lastLogin u; loginAttempts := v;
     lockUntil := lockUntil u; preferences := preferences u;
     profile := profile u; statistics := statistics u;
     createdAt := createdAt u; updatedAt := updatedAt u;
     passwordChangedAt := passwordChangedAt u;
     password_modified := password_modified u |}.

Definition set_lockUntil (v : option Z) (u : t) : t :=
  {| _id := _id u; name := name u; email := email u; password := password u;
     avatar := avatar u; role := role u; isVerified := isVerified u;
     isActive := isActive u; lastLogin := lastLogin u;
     loginAttempts := loginAttempts u; lockUntil := v;
     preferences := preferences u; profile := profile u;
     statistics := statistics u; createdAt := createdAt u;
     updatedAt := updatedAt u; passwordChangedAt := passwordChangedAt u;
     password_modified := password_modified u |}.

Definition set_updatedAt (v : Z) (u : t) : t :=
  {| _id := _id u; name := name u; email := email u; password := password u;
     avatar := avatar u; role := role u; isVerified := isVerified u;
     isActive := isActive u; lastLogin := lastLogin u;
     loginAttempts := loginAttempts u; lockUntil := lockUntil u;
     preferences := preferences u; profile := profile u;
     statistics := statistics u; createdAt := createdAt u; updatedAt := v;
     passwordChangedAt := passwordChangedAt u;
     password_modified := password_modified u |}.

Definition set_passwordChangedAt (v : option Z) (u : t) : t :=
  {| _id := _id u; name := name u; email := email u; password := password u;
     avatar := avatar u; role := role u; isVerified := isVerified u;
     isActive := isActive u; lastLogin := lastLogin u;
     loginAttempts := loginAttempts u; lockUntil := lockUntil u;
     preferences := preferences u; profile := profile u;
     statistics := statistics u; createdAt := createdAt u;
     updatedAt := updatedAt u; passwordChangedAt := v;
     password_modified := password_modified u |}.

Definition set_password_modified (v : bool) (u : t) : t :=
  {| _id := _id u; name := name u; email := email u; password := password u;
     avatar := avatar u; role := role u; isVerified := isVerified u;
     isActive := isActive u; lastLogin := lastLogin u;
     loginAttempts := loginAttempts u; lockUntil := lockUntil u;
     preferences := preferences u; profile := profile u;
     statistics := statistics u; createdAt := createdAt u;
     updatedAt := updatedAt u; passwordChangedAt := passwordChangedAt u;
     password_modified := v |}.

(** [userSchema.virtual('isLocked')]:
    [!!(this.lockUntil && this.lockUntil > Date.now())]. *)
Definition isLocked (now : Z) (u : t) : bool :=
  match lockUntil u with
  | Some until => now <? until
  | None => false
  end.

(** [userSchema.virtual('fullName')] *)
Definition fullName (u : t) : string := name u.

Section WithBcrypt.
Context {B : Bcrypt}.

(** The two [pre('save')] hooks, in the order they are registered, and
    the write: the first hashes a modified password with cost 12, the
    second stamps [passwordChangedAt] one second in the past; the
    write refreshes [updatedAt] and clears the dirty flag. *)
Definition pre_save_hash (u : t) : t :=
  if password_modified u
  then set_password (bcrypt_hash (password u) 12) u
  else u.

Definition pre_save_stamp (now : Z) (u : t) : t :=
  if password_modified u
  then set_passwordChangedAt (Some (now - 1000)) u
  else u.

Definition save (now : Z) (u : t) : t :=
  set_password_modified false
    (set_updatedAt now (pre_save_stamp now (pre_save_hash u))).

(** [handleFailedLogin] *)
Definition handleFailedLogin (now : Z) (u : t) : t :=
  let u1 := set_loginAttempts (loginAttempts u + 1) u in
  let u2 :=
    if (5 <=? loginAttempts u1) && negb (isLocked now u1)
    then set_lockUntil (Some (now + 30 * 60 * 1000)) u1
    else u1 in
  save now u2.

(** [resetLoginAttempts] *)
Definition resetLoginAttempts (now : Z) (u : t) : t :=
  save now (set_lockUntil None (set_loginAttempts 0 u)).

(** What a call of [comparePassword] comes back with. *)
Inductive Outcome :=
  | Returned (isMatch : bool)
  | Thrown (message : string).

Definition locked_message : string :=
  "Account is temporarily locked due to too many failed login attempts".

(** [comparePassword]: the document after the call, and the outcome. *)
Definition comparePassword (now : Z) (candidatePassword : string) (u : t)
  : t * Outcome :=
  if isLocked now u then (u, Thrown locked_message)
  else if negb (bcrypt_compare candidatePassword (password u))
  then (handleFailedLogin now u, Returned false)
  else
    let u1 :=
      if (0 <? loginAttempts u) || bool_decide (is_Some (lockUntil u))
      then resetLoginAttempts now u else u in
    (save now (set_lastLogin (Some now) u1), Returned true).

(** A sequence of calls, each with its clock reading and candidate. *)
Fixpoint attempts (calls : list (Z * string)) (u : t) : t * list Outcome :=
  match calls with
  | [] => (u, [])
  | (now, candidate) :: rest =>
      let '(u1, o) := comparePassword now candidate u in
      let '(u2, os) := attempts rest u1 in
      (u2, o :: os)
  end.

End WithBcrypt.

(** [User.findById(id)] for an [id] that is an ObjectId: a [findOne], so
    the [pre(/^find/)] hook adds [isActive: true] (no caller sets
    [includeInactive]).  A caller that holds a string has it cast first
    ([castObjectId]), and it is the cast that can throw. *)
Definition findById (users : list t) (id : ObjectId) : option t :=
  List.find (fun u => String.eqb (_id u) id && isActive u) users.

(** *** Serialization *)

Definition json_notifications (n : Notifications) : Json :=
  JObj [("email", JBool (n_email n)); ("push", JBool (n_push n));
        ("sms", JBool (n_sms n))].

Definition json_preferences (p : Preferences) : Json :=
  JObj [("notifications", json_notifications (notifications p));
        ("theme", JStr (theme_str (theme p)));
        ("language", JStr (language p));
        ("timezone", JStr (timezone p))].

Definition json_location (l : Location) : list (string * Json) :=
  json_field "city" JStr (city l) ++ json_field "country" JStr (country l)
  ++ json_field "timezone" JStr (loc_timezone l).

Definition json_socialLinks (l : SocialLinks) : list (string * Json) :=
  json_field "website" JStr (website l) ++ json_field "github" JStr (github l)
  ++ json_field "linkedin" JStr (linkedin l)
  ++ json_field "twitter" JStr (twitter l).

(** The schema option [minimize] (on by default) leaves a nested object
    that has no field out of the output. *)
Definition json_nested (k : string) (fields : list (string * Json))
  : list (string * Json) :=
  match fields with
  | [] => []
  | _ => [(k, JObj fields)]
  end.

Definition json_profile (p : Profile) : Json :=
  JObj ([("bio", JStr (bio p))] ++ json_field "phone" JStr (phone p)
        ++ json_nested "location" (json_location (location p))
        ++ json_nested "socialLinks" (json_socialLinks (socialLinks p))).

Definition json_statistics (s : Statistics) : Json :=
  JObj [("tasksCreated", JNum (tasksCreated s));
        ("tasksCompleted", JNum (tasksCompleted s));
        ("totalTimeSpent", JNum (totalTimeSpent s))].

(** The plain object mongoose hands to [transform] as [ret]: the stored
    paths with the timestamps and the version key (a user holds no
    array, so it stays 0), then (option [virtuals: true]) the virtuals
    [fullName], [isLocked] and [id].  [isLocked] reads the clock. *)
Definition plain_object (now : Z) (u : t) : gmap string Json :=
  list_to_map
    [("_id", JStr (_id u)); ("name", JStr (name u)); ("email", JStr (email u));
     ("password", JStr (password u));
     ("avatar", json_opt JStr (avatar u));
     ("role", JStr (role_str (role u)));
     ("isVerified", JBool (isVerified u)); ("isActive", JBool (isActive u));
     ("lastLogin", json_opt JNum (lastLogin u));
     ("loginAttempts", JNum (loginAttempts u));
     ("lockUntil", json_opt JNum (lockUntil u));
     ("preferences", json_preferences (preferences u));
     ("profile", json_profile (profile u));
     ("statistics", json_statistics (statistics u));
     ("createdAt", JNum (createdAt u)); ("updatedAt", JNum (updatedAt u));
     ("__v", JNum 0);
     ("fullName", JStr (fullName u));
     ("isLocked", JBool (isLocked now u));
     ("id", JStr (_id u))].

(** The [transform] of the [toJSON] and [toObject] options. *)
Definition transform (ret : gmap string Json) : gmap string Json :=
  delete "lockUntil" (delete "loginAttempts" (delete "password" ret)).

Definition toJSON (now : Z) (u : t) : gmap string Json :=
  transform (plain_object now u).

Definition toObject (now : Z) (u : t) : gmap string Json :=
  transform (plain_object now u).

(** [getPublicProfile]: of the object [toObject] gives, the fields listed
    in [publicFields] that are not [undefined]. *)
Definition publicFields : list string :=
  ["_id"; "name"; "email"; "avatar"; "role"; "isVerified";
   "preferences"; "profile"; "statistics"; "createdAt"].

Definition getPublicProfile (now : Z) (u : t) : gmap string Json :=
  let userObject := toObject now u in
  fold_left
    (fun publicProfile field =>
       match userObject !! field with
       | Some value => <[field := value]> publicProfile
       | None => publicProfile
       end)
    publicFields ∅.

(** [findActiveUsers]: [find({ isActive: true })], to which the
    [pre(/^find/)] hook adds its own [isActive: true]. *)
Definition findActiveUsers (users : list t) : list t :=
  List.filter (fun u => isActive u && isActive u) users.

(** [getUserStats]: one [$group] with [_id: null] over the whole
    collection.  An aggregate is no [find], so inactive users are in;
    with no user at all the pipeline yields nothing and the method
    returns [null].  [$avg] divides the sum by the count. *)
Record UserStats (N : Type) := {
  totalUsers : Z;
  activeUsers : Z;
  verifiedUsers : Z;
  admins : Z;
  averageTasksCreated : N;
}.

Arguments totalUsers {N}.
Arguments activeUsers {N}.
Arguments verifiedUsers {N}.
Arguments admins {N}.
Arguments averageTasksCreated {N}.

Definition count_users (f : t -> bool) (users : list t) : Z :=
  Z.of_nat (length (List.filter f users)).

Definition getUserStats {N : Type} `{Number N} (users : list t) : option (UserStats N) :=
  match users with
  | [] => None
  | _ =>
      Some {| totalUsers := Z.of_nat (length users);
              activeUsers := count_users isActive users;
              verifiedUsers := count_users isVerified users;
              admins := count_users
                          (fun u => match role u with admin => true | _ => false end)
                          users;
              averageTasksCreated :=
                div (of_Z (fold_left (fun acc u => acc + tasksCreated (statistics u)) users 0))
                    (of_Z (Z.of_nat (length users))) |}
  end.

(** The state of the counters of a stored record: nothing pending on the
    password, a counter that is not negative, and a lock only with five
    failures or more on record. *)
Definition counters_ok (u : t) : Prop :=
  password_modified u = false
  /\ 0 <= loginAttempts u
  /\ (is_Some (lockUntil u) -> 5 <= loginAttempts u).

End User.

(** ** middleware/auth.js *)

(** jsonwebtoken.  [jwt_verify token] is [jwt.verify(token, JWT_SECRET)]:
    the decoded payload's [userId], a string, or the [name] of the error
    thrown (the library has [JsonWebTokenError], [TokenExpiredError] and
    [NotBeforeError]). *)
Inductive Verified :=
  | Decoded (userId : string)
  | VerifyThrows (name : string).

Class Jwt := { jwt_verify : string -> Verified }.

Module Auth.

(** [req.user] *)
Record Identity := {
  id : ObjectId;
  name : string;
  email : string;
  role : User.Role;
  isVerified : bool;
}.

(** What the middleware does with the request: answer it, or attach
    [req.user] and call [next()]. *)
Inductive Result :=
  | Respond (status : Z) (message : string)
  | Next (req_user : Identity).

(** [s.replace(pattern, '')] with a string pattern: the first
    occurrence is removed. *)
Definition replace_first (pattern s : string) : string :=
  match String.index 0 pattern s with
  | Some i =>
      String.append (String.substring 0 i s)
        (String.substring (i + String.length pattern)
           (String.length s - (i + String.length pattern)) s)
  | None => s
  end.

(** What a middleware that attaches nothing does: call [next()], or
    answer. *)
Inductive Gate :=
  | Pass
  | Deny (status : Z) (message : string).

(** [admin], placed after a middleware that may have set [req.user]. *)
Definition admin (req_user : option Identity) : Gate :=
  match req_user with
  | Some u =>
      match role u with
      | User.admin => Pass
      | _ => Deny 403 "Access denied. Admin role required."
      end
  | None => Deny 403 "Access denied. Admin role required."
  end.

Section WithJwt.
Context {J : Jwt} {M : Mongoose}.

Definition auth (users : list User.t) (authHeader : option string) : Result :=
  match authHeader with
  | None => Respond 401 "No token provided, authorization denied"
  | Some h =>
      if negb (String.prefix "Bearer " h)
      then Respond 401 "No token provided, authorization denied"
      else
        let token := replace_first "Bearer " h in
        if String.eqb token ""
        then Respond 401 "No token, authorization denied"
        else
          match jwt_verify token with
          | VerifyThrows name =>
              if String.eqb name "JsonWebTokenError"
              then Respond 401 "Invalid token"
              else if String.eqb name "TokenExpiredError"
              then Respond 401 "Token expired"
              else Respond 500 "Server error in authentication"
          | Decoded userId =>
              match castObjectId userId with
              | None =>
                  (* a CastError, which the catch block answers *)
                  Respond 500 "Server error in authentication"
              | Some oid =>
                  match User.findById users oid with
                  | None => Respond 401 "Token is not valid - user not found"
                  | Some u =>
                      Next {| id := User._id u; name := User.name u;
                              email := User.email u; role := User.role u;
                              isVerified := User.isVerified u |}
                  end
              end
          end
  end.

(** [optionalAuth]: [req.user] after the call.  It always calls [next()];
    whatever is thrown on the way is caught and dropped. *)
Definition optionalAuth (users : list User.t) (authHeader : option string)
  : option Identity :=
  match authHeader with
  | None => None
  | Some h =>
      if String.prefix "Bearer " h
      then
        let token := replace_first "Bearer " h in
        match jwt_verify token with
        | VerifyThrows _ => None
        | Decoded userId =>
            match castObjectId userId ≫= User.findById users with
            | None => None
            | Some u =>
                Some {| id := User._id u; name := User.name u;
                        email := User.email u; role := User.role u;
                        isVerified := User.isVerified u |}
            end
        end
      else None
  end.

End WithJwt.

End Auth.

(** ** models/Task.js *)

(** [$round] of the aggregation pipeline, to a number of decimal places. *)
Class MongoRound (N : Type) := { round_places : N -> Z -> N }.

(** On exact rationals [$round] rounds to the nearest multiple of
    [10^-places], a tie to the even one. *)
Definition Qround_half_even (q : Q) : Z :=
  let f := Qfloor q in
  let r := (q - inject_Z f)%Q in
  if Qle_bool r (1 # 2) && negb (Qeq_bool r (1 # 2)) then f
  else if Qeq_bool r (1 # 2) then (if Z.even f then f else f + 1)
  else f + 1.

Definition Qround_places (q : Q) (places : Z) : Q :=
  let scale := inject_Z (10 ^ places) in
  (inject_Z (Qround_half_even (q * scale)) / scale)%Q.

#[export] Instance MongoRound_Q : MongoRound Q := { round_places := Qround_places }.

Module Task.

Inductive Status := pending | in_progress | completed | cancelled | on_hold.

Definition status_str (s : Status) : string :=
  match s with
  | pending => "pending" | in_progress => "in-progress"
  | completed => "completed" | cancelled => "cancelled" | on_hold => "on-hold"
  end.

Definition status_eqb (a b : Status) : bool :=
  match a, b with
  | pending, pending | in_progress, in_progress | completed, completed
  | cancelled, cancelled | on_hold, on_hold => true
  | _, _ => false
  end.

(** The [enum] of the [status] path, in its order. *)
Definition statuses : list Status :=
  [pending; in_progress; completed; cancelled; on_hold].

Inductive Priority := low | medium | high | urgent.

Definition priority_str (p : Priority) : string :=
  match p with
  | low => "low" | medium => "medium" | high => "high" | urgent => "urgent"
  end.

Definition priority_eqb (a b : Priority) : bool :=
  match a, b with
  | low, low | medium, medium | high, high | urgent, urgent => true
  | _, _ => false
  end.

Definition priorities : list Priority := [low; medium; high; urgent].

(** The value of the enum a string names, if any. *)
Definition status_of_str (s : string) : option Status :=
  List.find (fun st => String.eqb (status_str st) s) statuses.

Definition priority_of_str (s : string) : option Priority :=
  List.find (fun p => String.eqb (priority_str p) s) priorities.

(** [String.prototype.trim], on strings of code units below 256: the
    white space there is the characters 9 to 13, the space (32) and the
    no-break space (160). *)
Definition is_white_space (c : Ascii.ascii) : bool :=
  let n := Ascii.nat_of_ascii c in
  ((9 <=? n) && (n <=? 13) || (n =? 32) || (n =? 160))%nat.

Fixpoint skip_white_space (l : list Ascii.ascii) : list Ascii.ascii :=
  match l with
  | c :: rest => if is_white_space c then skip_white_space rest else l
  | [] => []
  end.

Definition js_trim (s : string) : string :=
  string_of_list_ascii
    (rev (skip_white_space (rev (skip_white_space (list_ascii_of_string s))))).

(** [String.prototype.toLowerCase], on strings of code units below 256:
    the letters A to Z and the capital letters of Latin-1 (192 to 222,
    the multiplication sign 215 apart) move up by 32. *)
Definition to_lower (c : Ascii.ascii) : Ascii.ascii :=
  let n := Ascii.nat_of_ascii c in
  if ((65 <=? n) && (n <=? 90) || (192 <=? n) && (n <=? 222) && negb (n =? 215))%nat
  then Ascii.ascii_of_nat (n + 32) else c.

Definition js_toLowerCase (s : string) : string :=
  string_of_list_ascii (List.map to_lower (list_ascii_of_string s)).

(** An entry of [attachments], with the keys the schema requires. *)
Record Attachment := {
  a_id : ObjectId;
  a_filename : string;
  a_originalName : string;
  a_path : string;
  a_size : Z;
  a_mimetype : string;
  a_uploadedAt : Z;
  a_uploadedBy : ObjectId;
}.

(** The [required] validator of a string path rejects the empty string. *)
Definition valid_attachment (a : Attachment) : bool :=
  negb (String.eqb (a_filename a) "") && negb (String.eqb (a_originalName a) "")
  && negb (String.eqb (a_path a) "") && negb (String.eqb (a_mimetype a) "").

(** An entry of [comments].  [user] and [content] are required paths;
    [None] is an entry without the key. *)
Record Comment := {
  c_id : ObjectId;
  c_user : option ObjectId;
  content : option string;
  c_createdAt : Z;
  c_updatedAt : Z;
  isEdited : bool;
}.

(** The object [commentData] a caller hands to [addComment], its values
    of the types of the paths; [None] is a key it does not have. *)
Record CommentData := {
  cd_id : option ObjectId;
  cd_user : option ObjectId;
  cd_content : option string;
  cd_createdAt : option Z;
  cd_updatedAt : option Z;
  cd_isEdited : option bool;
}.

(** The entry mongoose builds from [commentData] when it is pushed:
    the keys it has are kept ([content] trimmed), [_id] is drawn when
    missing, and the defaults of the schema fill in the rest. *)
Definition new_comment (now : Z) (new_id : ObjectId) (data : CommentData) : Comment :=
  {| c_id := default new_id (cd_id data);
     c_user := cd_user data;
     content := js_trim <$> cd_content data;
     c_createdAt := default now (cd_createdAt data);
     c_updatedAt := default now (cd_updatedAt data);
     isEdited := default false (cd_isEdited data) |}.

(** What [addComment] and [updateComment] come back with: the comment,
    one of the two errors [updateComment] throws itself, the TypeError
    of [comment.user.toString()] on a comment without a user, or the
    validation error of the save. *)
Inductive CommentOutcome :=
  | CommentReturned (comment : Comment)
  | CommentThrown (message : string)
  | CommentTypeError
  | CommentInvalid.

(** The validators of [comments.content], on the trimmed text:
    [required] and [maxlength] 500. *)
Definition valid_content (trimmed : string) : bool :=
  negb (String.eqb trimmed "") && (String.length trimmed <=? 500)%nat.

Definition valid_comment (c : Comment) : bool :=
  bool_decide (is_Some (c_user c))
  && match content c with
     | Some s => valid_content s
     | None => false
     end.

(** The first entry with a given [_id]. *)
Definition comment_by_id (commentId : ObjectId) (comments : list Comment)
  : option Comment :=
  List.find (fun c => String.eqb (c_id c) commentId) comments.

(** Assignment to the entry [comments.id(commentId)] returned. *)
Fixpoint put_comment (edited : Comment) (comments : list Comment) : list Comment :=
  match comments with
  | [] => []
  | c :: rest =>
      if String.eqb (c_id c) (c_id edited) then edited :: rest
      else c :: put_comment edited rest
  end.

(** The validators of [title], on the trimmed text: [required],
    [minlength] 1 and [maxlength] 100. *)
Definition valid_title (trimmed : string) : bool :=
  negb (String.eqb trimmed "") && (String.length trimmed <=? 100)%nat.

(** The validator of [assignedTo] and [createdBy]:
    [const user = await User.findById(userId); return !!user && user.isActive]. *)
Definition active_user (users : list User.t) (userId : ObjectId) : bool :=
  match User.findById users userId with
  | Some u => User.isActive u
  | None => false
  end.

Section WithNumber.
Context {N : Type} {HN : Number N}.

(** An entry of [timeLogs], with the keys the schema requires. *)
Record TimeLog := {
  startTime : Z;
  endTime : Z;
  duration : N;
  log_description : option string;
  loggedBy : ObjectId;
  loggedAt : Z;
}.

(** A task document: the paths of the schema but [customFields], a map
    of anything that nothing reads or validates. *)
Record t := {
  _id : ObjectId;
  title : string;
  description : string;
  status : Status;
  priority : Priority;
  dueDate : option Z;
  assignedTo : option ObjectId;
  createdBy : ObjectId;
  tags : list string;
  attachments : list Attachment;
  estimatedHours : N;
  actualHours : N;
  completedAt : option Z;
  timeLogs : list TimeLog;
  comments : list Comment;
  reminders : list Z;
  isArchived : bool;
  archivedAt : option Z;
  createdAt : Z;
  updatedAt : Z;
}.

Definition set_status (v : Status) (d : t) : t :=
  {| _id := _id d; title := title d; description := description d;
     status := v; priority := priority d; dueDate := dueDate d;
     assignedTo := assignedTo d; createdBy := createdBy d; tags := tags d;
     attachments := attachments d; estimatedHours := estimatedHours d;
     actualHours := actualHours d; completedAt := completedAt d;
     timeLogs := timeLogs d; comments := comments d; reminders := reminders d;
     isArchived := isArchived d; archivedAt := archivedAt d;
     createdAt := createdAt d; updatedAt := updatedAt d |}.

Definition set_priority (v : Priority) (d : t) : t :=
  {| _id := _id d; title := title d; description := description d;
     status := status d; priority := v; dueDate := dueDate d;
     assignedTo := assignedTo d; createdBy := createdBy d; tags := tags d;
     attachments := attachments d; estimatedHours := estimatedHours d;
     actualHours := actualHours d; completedAt := completedAt d;
     timeLogs := timeLogs d; comments := comments d; reminders := reminders d;
     isArchived := isArchived d; archivedAt := archivedAt d;
     createdAt := createdAt d; updatedAt := updatedAt d |}.

Definition set_dueDate (v : option Z) (d : t) : t :=
  {| _id := _id d; title := title d; description := description d;
     status := status d; priority := priority d; dueDate := v;
     assignedTo := assignedTo d; createdBy := createdBy d; tags := tags d;
     attachments := attachments d; estimatedHours := estimatedHours d;
     actualHours := actualHours d; completedAt := completedAt d;
     timeLogs := timeLogs d; comments := comments d; reminders := reminders d;
     isArchived := isArchived d; archivedAt := archivedAt d;
     createdAt := createdAt d; updatedAt := updatedAt d |}.

Definition set_assignedTo (v : option ObjectId) (d : t) : t :=
  {| _id := _id d; title := title d; description := description d;
     status := status d; priority := priority d; dueDate := dueDate d;
     assignedTo := v; createdBy := createdBy d; tags := tags d;
     attachments := attachments d; estimatedHours := estimatedHours d;
     actualHours := actualHours d; completedAt := completedAt d;
     timeLogs := timeLogs d; comments := comments d; reminders := reminders d;
     isArchived := isArchived d; archivedAt := archivedAt d;
     createdAt := createdAt d; updatedAt := updatedAt d |}.

Definition set_createdBy (v : ObjectId) (d : t) : t :=
  {| _id := _id d; title := title d; description := description d;
     status := status d; priority := priority d; dueDate := dueDate d;
     assignedTo := assignedTo d; createdBy := v; tags := tags d;
     attachments := attachments d; estimatedHours := estimatedHours d;
     actualHours := actualHours d; completedAt := completedAt d;
     timeLogs := timeLogs d; comments := comments d; reminders := reminders d;
     isArchived := isArchived d; archivedAt := archivedAt d;
     createdAt := createdAt d; updatedAt := updatedAt d |}.

Definition set_attachments (v : list Attachment) (d : t) : t :=
  {| _id := _id d; title := title d; description := description d;
     status := status d; priority := priority d; dueDate := dueDate d;
     assignedTo := assignedTo d; createdBy := createdBy d; tags := tags d;
     attachments := v; estimatedHours := estimatedHours d;
     actualHours := actualHours d; completedAt := completedAt d;
     timeLogs := timeLogs d; comments := comments d; reminders := reminders d;
     isArchived := isArchived d; archivedAt := archivedAt d;
     createdAt := createdAt d; updatedAt := updatedAt d |}.

Definition set_estimatedHours (v : N) (d : t) : t :=
  {| _id := _id d; title := title d; description := description d;
     status := status d; priority := priority d; dueDate := dueDate d;
     assignedTo := assignedTo d; createdBy := createdBy d; tags := tags d;
     attachments := attachments d; estimatedHours := v;
     actualHours := actualHours d; completedAt := completedAt d;
     timeLogs := timeLogs d; comments := comments d; reminders := reminders d;
     isArchived := isArchived d; archivedAt := archivedAt d;
     createdAt := createdAt d; updatedAt := updatedAt d |}.

Definition set_actualHours (v : N) (d : t) : t :=
  {| _id := _id d; title := title d; description := description d;
     status := status d; priority := priority d; dueDate := dueDate d;
     assignedTo := assignedTo d; createdBy := createdBy d; tags := tags d;
     attachments := attachments d; estimatedHours := estimatedHours d;
     actualHours := v; completedAt := completedAt d; timeLogs := timeLogs d;
     comments := comments d; reminders := reminders d;
     isArchived := isArchived d; archivedAt := archivedAt d;
     createdAt := createdAt d; updatedAt := updatedAt d |}.

Definition set_completedAt (v : option Z) (d : t) : t :=
  {| _id := _id d; title := title d; description := description d;
     status := status d; priority := priority d; dueDate := dueDate d;
     assignedTo := assignedTo d; createdBy := createdBy d; tags := tags d;
     attachments := attachments d; estimatedHours := estimatedHours d;
     actualHours := actualHours d; completedAt := v; timeLogs := timeLogs d;
     comments := comments d; reminders := reminders d;
     isArchived := isArchived d; archivedAt := archivedAt d;
     createdAt := createdAt d; updatedAt := updatedAt d |}.

Definition set_timeLogs (v : list TimeLog) (d : t) : t :=
  {| _id := _id d; title := title d; description := description d;
     status := status d; priority := priority d; dueDate := dueDate d;
     assignedTo := assignedTo d; createdBy := createdBy d; tags := tags d;
     attachments := attachments d; estimatedHours := estimatedHours d;
     actualHours := actualHours d; completedAt := completedAt d;
     timeLogs := v; comments := comments d; reminders := reminders d;
     isArchived := isArchived d; archivedAt := archivedAt d;
     createdAt := createdAt d; updatedAt := updatedAt d |}.

Definition set_comments (v : list Comment) (d : t) : t :=
  {| _id := _id d; title := title d; description := description d;
     status := status d; priority := priority d; dueDate := dueDate d;
     assignedTo := assignedTo d; createdBy := createdBy d; tags := tags d;
     attachments := attachments d; estimatedHours := estimatedHours d;
     actualHours := actualHours d; completedAt := completedAt d;
     timeLogs := timeLogs d; comments := v; reminders := reminders d;
     isArchived := isArchived d; archivedAt := archivedAt d;
     createdAt := createdAt d; updatedAt := updatedAt d |}.

Definition set_isArchived (v : bool) (d : t) : t :=
  {| _id := _id d; title := title d; description := description d;
     status := status d; priority := priority d; dueDate := dueDate d;
     assignedTo := assignedTo d; createdBy := createdBy d; tags := tags d;
     attachments := attachments d; estimatedHours := estimatedHours d;
     actualHours := actualHours d; completedAt := completedAt d;
     timeLogs := timeLogs d; comments := comments d; reminders := reminders d;
     isArchived := v; archivedAt := archivedAt d; createdAt := createdAt d;
     updatedAt := updatedAt d |}.

Definition set_archivedAt (v : option Z) (d : t) : t :=
  {| _id := _id d; title := title d; description := description d;
     status := status d; priority := priority d; dueDate := dueDate d;
     assignedTo := assignedTo d; createdBy := createdBy d; tags := tags d;
     attachments := attachments d; estimatedHours := estimatedHours d;
     actualHours := actualHours d; completedAt := completedAt d;
     timeLogs := timeLogs d; comments := comments d; reminders := reminders d;
     isArchived := isArchived d; archivedAt := v; createdAt := createdAt d;
     updatedAt := updatedAt d |}.

Definition set_updatedAt (v : Z) (d : t) : t :=
  {| _id := _id d; title := title d; description := description d;
     status := status d; priority := priority d; dueDate := dueDate d;
     assignedTo := assignedTo d; createdBy := createdBy d; tags := tags d;
     attachments := attachments d; estimatedHours := estimatedHours d;
     actualHours := actualHours d; completedAt := completedAt d;
     timeLogs := timeLogs d; comments := comments d; reminders := reminders d;
     isArchived := isArchived d; archivedAt := archivedAt d;
     createdAt := createdAt d; updatedAt := v |}.

(** *** Virtuals *)

(** [isOverdue] *)
Definition isOverdue (now : Z) (d : t) : bool :=
  match dueDate d with
  | None => false
  | Some due =>
      if status_eqb (status d) completed || status_eqb (status d) cancelled
      then false
      else due <? now
  end.

(** [timeSpent]: [timeLogs.reduce((total, log) => total + log.duration, 0)] *)
Definition timeSpent (d : t) : N :=
  fold_left (fun total log => add total (duration log)) (timeLogs d) (of_Z 0).

(** The table [statusProgress], read as [statusProgress[status] || 0]. *)
Definition statusProgress (s : Status) : Z :=
  match s with
  | pending => 0 | in_progress => 50 | on_hold => 25
  | completed => 100 | cancelled => 0
  end.

(** [progress] *)
Definition progress (d : t) : N :=
  if status_eqb (status d) completed then of_Z 100
  else if status_eqb (status d) cancelled then of_Z 0
  else if gt (estimatedHours d) (of_Z 0) && gt (actualHours d) (of_Z 0)
  then Math_min
         (Math_round (mul (div (actualHours d) (estimatedHours d)) (of_Z 100)))
         (of_Z 100)
  else of_Z (statusProgress (status d)).

(** *** Save *)

(** The validators of an entry of [timeLogs] ([duration] at least 1,
    description at most 200 characters) and of the two paths of hours
    (between 0 and 1000). *)
Definition valid_timeLog (log : TimeLog) : bool :=
  le (of_Z 1) (duration log)
  && match log_description log with
     | Some s => (String.length s <=? 200)%nat
     | None => true
     end.

Definition valid_hours (h : N) : bool := le (of_Z 0) h && le h (of_Z 1000).

(** The validation [save()] starts with.  It runs the validators of
    every path of the document, the paths loaded from the database as
    well as the modified ones, each on the value the document holds at
    that time: a task whose due date or reminder has passed, or whose
    creator or assignee is no longer an active user, does not validate. *)
Definition validate (now : Z) (users : list User.t) (d : t) : bool :=
  valid_title (title d)
  && (String.length (description d) <=? 1000)%nat
  && match dueDate d with Some date => now <? date | None => true end
  && match assignedTo d with Some userId => active_user users userId | None => true end
  && active_user users (createdBy d)
  && forallb (fun tag => (String.length tag <=? 20)%nat) (tags d)
  && forallb valid_attachment (attachments d)
  && valid_hours (estimatedHours d)
  && valid_hours (actualHours d)
  && match completedAt d with Some date => date <=? now | None => true end
  && forallb valid_timeLog (timeLogs d)
  && forallb valid_comment (comments d)
  && forallb (fun date => now <? date) (reminders d).

(** The first [pre('save')] hook.  (The second one increments the
    creator's [statistics.tasksCompleted] in the users collection and
    writes nothing to the task.) *)
Definition pre_save (now : Z) (d : t) : t :=
  let d1 :=
    if status_eqb (status d) completed && negb (bool_decide (is_Some (completedAt d)))
    then set_completedAt (Some now) d else d in
  let d2 :=
    if negb (status_eqb (status d1) completed) && bool_decide (is_Some (completedAt d1))
    then set_completedAt None d1 else d1 in
  if isArchived d2 && negb (bool_decide (is_Some (archivedAt d2)))
  then set_archivedAt (Some now) d2 else d2.

(** [save()] of a stored document that a method has modified, once
    validation has passed: the [updatedAt] timestamp, the hook, the
    write. *)
Definition save (now : Z) (d : t) : t := set_updatedAt now (pre_save now d).

(** [await this.save()] at the end of a method: the document as the
    call leaves it, and whether the save went through.  When
    validation rejects the document the call throws, no hook has run
    and nothing is written; the document in memory keeps what the
    method has assigned. *)
Definition try_save (now : Z) (users : list User.t) (d : t) : t * bool :=
  if validate now users d then (save now d, true) else (d, false).

(** [addTimeLog], for the entry as it is pushed. *)
Definition addTimeLog (now : Z) (users : list User.t) (timeLogData : TimeLog) (d : t)
  : t * bool :=
  let d1 := set_timeLogs (timeLogs d ++ [timeLogData]) d in
  let d2 :=
    set_actualHours
      (fold_left (fun total log => add total (div (duration log) (of_Z 60)))
         (timeLogs d1) (of_Z 0)) d1 in
  try_save now users d2.

(** [addAttachment], for the entry as it is pushed, and
    [removeAttachment], whose test compares the digits of each [_id]
    with the string it is given. *)
Definition addAttachment (now : Z) (users : list User.t) (attachmentData : Attachment)
    (d : t) : t * bool :=
  try_save now users (set_attachments (attachments d ++ [attachmentData]) d).

Definition removeAttachment (now : Z) (users : list User.t) (attachmentId : string)
    (d : t) : t * bool :=
  try_save now users
    (set_attachments
       (List.filter (fun a => negb (String.eqb (a_id a) attachmentId)) (attachments d)) d).

(** [archive] and [unarchive] *)
Definition archive (now : Z) (users : list User.t) (d : t) : t * bool :=
  try_save now users (set_archivedAt (Some now) (set_isArchived true d)).

Definition unarchive (now : Z) (users : list User.t) (d : t) : t * bool :=
  try_save now users (set_archivedAt None (set_isArchived false d)).

(** *** Comments *)

(** [addComment], with the [_id] mongoose draws for an entry that
    brings none.  It returns the last entry of [comments]. *)
Definition addComment (now : Z) (users : list User.t) (new_id : ObjectId)
    (commentData : CommentData) (d : t) : t * CommentOutcome :=
  let comment := new_comment now new_id commentData in
  let '(d1, saved) := try_save now users (set_comments (comments d ++ [comment]) d) in
  (d1, if saved then CommentReturned comment else CommentInvalid).

Context {M : Mongoose}.

(** [updateComment].  [comments.id(commentId)] casts the id it is
    given and finds nothing when the cast fails; [userId] stands for
    [userId.toString()]. *)
Definition updateComment (now : Z) (users : list User.t) (commentId : string)
    (text : string) (userId : string) (d : t) : t * CommentOutcome :=
  match castObjectId commentId ≫= (fun oid => comment_by_id oid (comments d)) with
  | None => (d, CommentThrown "Comment not found")
  | Some comment =>
      match c_user comment with
      | None => (d, CommentTypeError)
      | Some author =>
          if negb (String.eqb author userId)
          then (d, CommentThrown "Not authorized to update this comment")
          else
            let edited :=
              {| c_id := c_id comment; c_user := c_user comment;
                 content := Some (js_trim text);
                 c_createdAt := c_createdAt comment;
                 c_updatedAt := now; isEdited := true |} in
            let '(d1, saved) :=
              try_save now users (set_comments (put_comment edited (comments d)) d) in
            (d1, if saved then CommentReturned edited else CommentInvalid)
      end
  end.

(** *** The invariants of the data model *)

(** The two invariants, in the words of the specification. *)
Definition completion_consistent (d : t) : Prop :=
  is_Some (completedAt d) <-> status d = completed.


(** An update of a task that completes: a call of one of the methods
    of the model whose save goes through.  [Updates now users d d']:
    the call, made at time [now] on the task [d], leaves the task [d']. *)
Inductive Updates (now : Z) (users : list User.t) : t -> t -> Prop :=
  | by_addTimeLog timeLogData d d' :
      addTimeLog now users timeLogData d = (d', true) ->
      Updates now users d d'
  | by_addComment new_id commentData d d' comment :
      addComment now users new_id commentData d = (d', CommentReturned comment) ->
      Updates now users d d'
  | by_updateComment commentId text userId d d' comment :
      updateComment now users commentId text userId d = (d', CommentReturned comment) ->
      Updates now users d d'
  | by_addAttachment attachmentData d d' :
      addAttachment now users attachmentData d = (d', true) ->
      Updates now users d d'
  | by_removeAttachment attachmentId d d' :
      removeAttachment now users attachmentId d = (d', true) ->
      Updates now users d d'
  | by_archive d d' :
      archive now users d = (d', true) ->
      Updates now users d d'
  | by_unarchive d d' :
      unarchive now users d = (d', true) ->
      Updates now users d d'.

(** *** Queries *)

(** The first [pre(/^find/)] hook: every query whose name starts with
    [find] also requires [isArchived: false]; no caller sets the
    [includeArchived] option.  (The second hook populates
    [assignedTo] and [createdBy], see [populate].) *)
Definition find (conditions : t -> bool) (tasks : list t) : list t :=
  List.filter (fun d => conditions d && negb (isArchived d)) tasks.

(** [Task.findById(id)] for an [id] that is an ObjectId; a handler
    holds the string of the request, which is cast first. *)
Definition findById (tasks : list t) (id : ObjectId) : option t :=
  List.find (fun d => String.eqb (_id d) id && negb (isArchived d)) tasks.

(** [countDocuments] is no [find]: the hook does not run. *)
Definition countDocuments (conditions : t -> bool) (tasks : list t) : nat :=
  length (List.filter conditions tasks).

(** [{ $or: [{ createdBy: userId }, { assignedTo: userId }] }] *)
Definition involves (userId : ObjectId) (d : t) : bool :=
  String.eqb (createdBy d) userId
  || match assignedTo d with
     | Some a => String.eqb a userId
     | None => false
     end.

(** The query condition [dueDate: { $lt: new Date() }]: a document
    without a due date does not match. *)
Definition dueDate_lt (now : Z) (d : t) : bool :=
  match dueDate d with Some due => due <? now | None => false end.

Definition status_in (l : list Status) (d : t) : bool :=
  existsb (status_eqb (status d)) l.

(** [findOverdueTasks] *)
Definition findOverdueTasks (now : Z) (tasks : list t) : list t :=
  find (fun d => dueDate_lt now d
                 && status_in [pending; in_progress; on_hold] d
                 && negb (isArchived d)) tasks.

(** *** The static [getTaskStats] *)

Definition count_if {A} (f : A -> bool) (l : list A) : Z :=
  Z.of_nat (length (List.filter f l)).

(** [$sum] of a numeric path *)
Definition sum_of (f : t -> N) (l : list t) : N :=
  fold_left (fun acc d => add acc (f d)) l (of_Z 0).

(** The expression [{ $lt: ['$dueDate', new Date()] }] of the [$group]
    stage.  An aggregation expression compares across types in BSON
    order, where a missing or null value sorts before every date. *)
Definition expr_dueDate_lt (now : Z) (d : t) : bool :=
  match dueDate d with Some due => due <? now | None => true end.

Record Group := {
  g_totalTasks : Z;
  g_completedTasks : Z;
  g_overdueTasks : Z;
  g_totalEstimatedHours : N;
  g_totalActualHours : N;
  g_tasksByStatus : list (Status * Priority);
}.

(** The [$group] stage with [_id: null], over the matched documents. *)
Definition group_stage (now : Z) (matched : list t) : Group :=
  {| g_totalTasks := Z.of_nat (length matched);
     g_completedTasks := count_if (fun d => status_eqb (status d) completed) matched;
     g_overdueTasks :=
       count_if (fun d => negb (status_eqb (status d) completed)
                          && negb (status_eqb (status d) cancelled)
                          && expr_dueDate_lt now d) matched;
     g_totalEstimatedHours := sum_of estimatedHours matched;
     g_totalActualHours := sum_of actualHours matched;
     g_tasksByStatus := List.map (fun d => (status d, priority d)) matched |}.

Record Stats := {
  totalTasks : Z;
  completedTasks : Z;
  overdueTasks : Z;
  completionRate : N;
  totalEstimatedHours : N;
  totalActualHours : N;
  efficiency : N;
  statusBreakdown : gmap string Z;
  priorityBreakdown : gmap string Z;
}.

Context {HR : MongoRound N}.

(** The [$project] stage. *)
Definition project_stage (g : Group) : Stats :=
  {| totalTasks := g_totalTasks g;
     completedTasks := g_completedTasks g;
     overdueTasks := g_overdueTasks g;
     completionRate :=
       if g_totalTasks g =? 0 then of_Z 0
       else round_places
              (mul (div (of_Z (g_completedTasks g)) (of_Z (g_totalTasks g)))
                   (of_Z 100)) 2;
     totalEstimatedHours := g_totalEstimatedHours g;
     totalActualHours := g_totalActualHours g;
     efficiency :=
       if eqb (g_totalEstimatedHours g) (of_Z 0) then of_Z 0
       else round_places
              (mul (div (g_totalActualHours g) (g_totalEstimatedHours g))
                   (of_Z 100)) 2;
     statusBreakdown :=
       list_to_map
         (List.map (fun s => (status_str s,
                              count_if (fun e => status_eqb (fst e) s)
                                       (g_tasksByStatus g))) statuses);
     priorityBreakdown :=
       list_to_map
         (List.map (fun p => (priority_str p,
                              count_if (fun e => priority_eqb (snd e) p)
                                       (g_tasksByStatus g))) priorities) |}.

(** [matchStage]: [isArchived: false], and the [$or] when a user is given. *)
Definition matchStage (userId : option ObjectId) (d : t) : bool :=
  negb (isArchived d)
  && match userId with
     | Some u => involves u d
     | None => true
     end.

(** [Task.getTaskStats(userId)].  A [$group] stage emits one document
    per group that has a member: when nothing matches, the pipeline
    yields the empty array and the method returns [null]. *)
Definition getTaskStats (now : Z) (userId : option ObjectId) (tasks : list t)
  : option Stats :=
  match List.filter (matchStage userId) tasks with
  | [] => None
  | matched => Some (project_stage (group_stage now matched))
  end.

End WithNumber.

Arguments TimeLog N : clear implicits.
Arguments t N : clear implicits.
Arguments Group N : clear implicits.
Arguments Stats N : clear implicits.

End Task.

(** ** controllers/taskController.js *)

Module TaskController.

Section WithNumber.
Context {N : Type} {HN : Number N} {M : Mongoose}.

Abbreviation Task := (Task.t N).

(** *** getTasks *)

(** [req.query]: [page] and [limit] as the numbers they denote. *)
Record ListQuery := {
  q_status : option string;
  q_priority : option string;
  q_page : option nat;
  q_limit : option nat;
}.

(** [if (value && value !== 'all') filter.path = value] *)
Definition narrowed (value : option string) (actual : string) : bool :=
  match value with
  | Some v =>
      if negb (String.eqb v "") && negb (String.eqb v "all")
      then String.eqb actual v else true
  | None => true
  end.

(** The object [filter]. *)
Definition list_filter (req_user_id : ObjectId) (q : ListQuery) (d : Task) : bool :=
  Task.involves req_user_id d
  && narrowed (q_status q) (Task.status_str (Task.status d))
  && narrowed (q_priority q) (Task.priority_str (Task.priority d)).

(** [sort({ createdAt: -1 })] *)
Definition newest_first (a b : Task) : Prop :=
  Task.createdAt b <= Task.createdAt a.

#[global] Instance newest_first_dec a b : Decision (newest_first a b).
Proof. unfold newest_first. apply _. Defined.

Record Pagination := {
  currentPage : nat;
  (** [Math.ceil(total / limit)]; no number when [limit] is 0 *)
  totalPages : option nat;
  totalTasks : nat;
}.

Inductive ListResponse :=
  | ListOk (tasks : list Task) (pagination : Pagination)
  | ListError (status : Z) (message : string).

(** One page of a sorted result: [skip((page - 1) * limit)], then
    [limit(limit)], where a limit of 0 is no limit. *)
Definition page_of (page limit : nat) (sorted : list Task) : list Task :=
  let rest := drop ((page - 1) * limit) sorted in
  if (limit =? 0)%nat then rest else take limit rest.

Definition ceil_div (a b : nat) : nat := ((a + b - 1) / b)%nat.

(** [getTasks].  [page] 0 with a positive [limit] asks for a negative
    skip, which the query refuses: the handler's [catch] answers 500. *)
Definition getTasks (req_user_id : ObjectId) (q : ListQuery) (tasks : list Task)
  : ListResponse :=
  let page := default 1%nat (q_page q) in
  let limit := default 10%nat (q_limit q) in
  let filter := list_filter req_user_id q in
  if (page =? 0)%nat && negb (limit =? 0)%nat
  then ListError 500 "Server error fetching tasks"
  else
    let found := page_of page limit (merge_sort newest_first (Task.find filter tasks)) in
    let total := Task.countDocuments filter tasks in
    ListOk found
      {| currentPage := page;
         totalPages := if (limit =? 0)%nat then None else Some (ceil_div total limit);
         totalTasks := total |}.

(** *** getTaskStats *)

(** The pipeline [$match] (the [$or] alone), [$group] by [$status]
    with a count: one entry per status that occurs. *)
Definition status_counts (req_user_id : ObjectId) (tasks : list Task)
  : list (string * Z) :=
  let matched := List.filter (Task.involves req_user_id) tasks in
  List.filter (fun e => 0 <? snd e)
    (List.map (fun s => (Task.status_str s,
                         Task.count_if (fun d => Task.status_eqb (Task.status d) s) matched))
              Task.statuses).

Definition stat (fs : gmap string Z) (k : string) : Z := default 0 (fs !! k).

Definition initialStats : gmap string Z :=
  <["cancelled" := 0]> (<["completed" := 0]> (<["in-progress" := 0]>
    (<["pending" := 0]> (<["total" := 0]> ∅)))).

(** [stats.forEach(stat => { ... })] *)
Definition formatStats (stats : list (string * Z)) : gmap string Z :=
  fold_left
    (fun fs e =>
       let fs1 := <[fst e := snd e]> fs in
       <["total" := stat fs1 "total" + snd e]> fs1)
    stats initialStats.

(** The condition of the overdue count. *)
Definition overdue_filter (now : Z) (req_user_id : ObjectId) (d : Task) : bool :=
  Task.involves req_user_id d
  && Task.dueDate_lt now d
  && Task.status_in [Task.pending; Task.in_progress] d.

(** [getTaskStats]: the object [formattedStats] of the response. *)
Definition getTaskStats (now : Z) (req_user_id : ObjectId) (tasks : list Task)
  : gmap string Z :=
  let formattedStats := formatStats (status_counts req_user_id tasks) in
  let overdueCount := Task.countDocuments (overdue_filter now req_user_id) tasks in
  <["overdue" := Z.of_nat overdueCount]> formattedStats.

(** *** updateTask *)

(** One path of [req.body] with its value; [$set: req.body] assigns
    them in order. *)
Inductive Assign :=
  | A_status (v : Task.Status)
  | A_priority (v : Task.Priority)
  | A_dueDate (v : option Z)
  | A_assignedTo (v : option ObjectId)
  | A_estimatedHours (v : N)
  | A_actualHours (v : N)
  | A_completedAt (v : option Z)
  | A_isArchived (v : bool)
  | A_archivedAt (v : option Z).

Definition assign (d : Task) (a : Assign) : Task :=
  match a with
  | A_status v => Task.set_status v d
  | A_priority v => Task.set_priority v d
  | A_dueDate v => Task.set_dueDate v d
  | A_assignedTo v => Task.set_assignedTo v d
  | A_estimatedHours v => Task.set_estimatedHours v d
  | A_actualHours v => Task.set_actualHours v d
  | A_completedAt v => Task.set_completedAt v d
  | A_isArchived v => Task.set_isArchived v d
  | A_archivedAt v => Task.set_archivedAt v d
  end.

(** [runValidators: true]: the validators of the assigned paths. *)
Definition valid_assign (now : Z) (users : list User.t) (a : Assign) : bool :=
  match a with
  | A_dueDate (Some date) => now <? date
  | A_assignedTo (Some userId) => Task.active_user users userId
  | A_estimatedHours v | A_actualHours v => Task.valid_hours v
  | A_completedAt (Some date) => date <=? now
  | _ => true
  end.

Inductive UpdateResult :=
  | Updated (doc : option Task) (tasks : list Task)
  | ValidationFailed.

(** [Task.findByIdAndUpdate(id, { $set: body }, { new: true,
    runValidators: true })], for an [id] that has been cast.  A
    [findOneAndUpdate]: the [pre(/^find/)] hook narrows it to unarchived
    documents; the assignment is made by the database, no [save] happens
    and no [pre('save')] hook runs; [timestamps] sets [updatedAt]. *)
Definition findByIdAndUpdate (now : Z) (users : list User.t) (id : ObjectId)
    (body : list Assign) (tasks : list Task) : UpdateResult :=
  if negb (forallb (valid_assign now users) body) then ValidationFailed
  else
    let hit d := String.eqb (Task._id d) id && negb (Task.isArchived d) in
    let write d := Task.set_updatedAt now (fold_left assign body d) in
    match List.find hit tasks with
    | None => Updated None tasks
    | Some d =>
        Updated (Some (write d))
          ((fix go (l : list Task) : list Task :=
              match l with
              | [] => []
              | x :: rest => if hit x then write x :: rest else x :: go rest
              end) tasks)
    end.

(** The second [pre(/^find/)] hook replaces a reference by the user it
    names, or by [null] when no active user has that id. *)
Definition populate (users : list User.t) (ref : ObjectId) : option User.t :=
  User.findById users ref.

(** The two kinds of value the handler's test compares. *)
Inductive JsValue :=
  | JsString (s : string)
  | JsObjectId (hex : ObjectId).

(** [a === b]: nothing is converted.  Two strings are equal when
    their characters are; an object equals only itself, and no
    handler compares an object with itself. *)
Definition strict_eq (a b : JsValue) : bool :=
  match a, b with
  | JsString x, JsString y => String.eqb x y
  | _, _ => false
  end.

(** [toString()] of a populated reference, a mongoose document: the
    text [inspect] prints for it. *)
Definition Document_toString (u : User.t) : string :=
  String.append "{ _id: new ObjectId('"
    (String.append (User._id u)
       (String.append "'), name: '"
          (String.append (User.name u)
             (String.append "', email: '"
                (String.append (User.email u) "' }"))))).

(** [ref.toString() !== req.user.id], the test of the handler, where
    [req.user.id] is the ObjectId [user._id] that [auth] attached. *)
Definition toString_neq (ref : User.t) (req_user_id : ObjectId) : bool :=
  negb (strict_eq (JsString (Document_toString ref)) (JsObjectId req_user_id)).

Inductive Response :=
  | Success (message : string) (task : option Task)
  | Failure (status : Z) (message : string).

(** [updateTask]: the response and the collection after the call.
    [id] is [req.params.id]; the route's [idValidation] records an
    error for a string that is no id, but the handler does not read
    it, and the query throws a CastError that the [catch] answers. *)
Definition updateTask (now : Z) (users : list User.t) (req_user_id : ObjectId)
    (id : string) (body : list Assign) (tasks : list Task)
  : Response * list Task :=
  match castObjectId id with
  | None => (Failure 500 "Server error updating task", tasks)
  | Some oid =>
      match Task.findById tasks oid with
      | None => (Failure 404 "Task not found", tasks)
      | Some task =>
          match populate users (Task.createdBy task) with
          | None =>
              (* task.createdBy is null: reading toString throws *)
              (Failure 500 "Server error updating task", tasks)
          | Some creator =>
              if toString_neq creator req_user_id
                 && match Task.assignedTo task ≫= populate users with
                    | None => true
                    | Some assignee => toString_neq assignee req_user_id
                    end
              then (Failure 403 "Not authorized to update this task", tasks)
              else
                match findByIdAndUpdate now users oid body tasks with
                | Updated doc tasks' => (Success "Task updated successfully" doc, tasks')
                | ValidationFailed => (Failure 500 "Server error updating task", tasks)
                end
          end
      end
  end.

(** *** getTask *)

Inductive TaskResponse :=
  | Found (task : Task)
  | Refused (status : Z) (message : string).

(** [ref._id.toString() !== req.user.id], the test of [getTask]. *)
Definition id_toString_neq (ref : User.t) (req_user_id : ObjectId) : bool :=
  negb (strict_eq (JsString (User._id ref)) (JsObjectId req_user_id)).

Definition getTask (users : list User.t) (req_user_id : ObjectId) (id : string)
    (tasks : list Task) : TaskResponse :=
  match castObjectId id with
  | None => Refused 500 "Server error fetching task"
  | Some oid =>
      match Task.findById tasks oid with
      | None => Refused 404 "Task not found"
      | Some task =>
          match populate users (Task.createdBy task) with
          | None =>
              (* task.createdBy is null: reading _id throws *)
              Refused 500 "Server error fetching task"
          | Some creator =>
              if id_toString_neq creator req_user_id
                 && match Task.assignedTo task ≫= populate users with
                    | None => true
                    | Some assignee => id_toString_neq assignee req_user_id
                    end
              then Refused 403 "Not authorized to access this task"
              else Found task
          end
      end
  end.

(** *** deleteTask *)

(** [Task.findByIdAndDelete(id)], a [findOneAndDelete]: the first
    unarchived document with the id goes. *)
Fixpoint findByIdAndDelete (id : ObjectId) (tasks : list Task) : list Task :=
  match tasks with
  | [] => []
  | d :: rest =>
      if String.eqb (Task._id d) id && negb (Task.isArchived d) then rest
      else d :: findByIdAndDelete id rest
  end.

Definition deleteTask (users : list User.t) (req_user_id : ObjectId) (id : string)
    (tasks : list Task) : Response * list Task :=
  match castObjectId id with
  | None => (Failure 500 "Server error deleting task", tasks)
  | Some oid =>
      match Task.findById tasks oid with
      | None => (Failure 404 "Task not found", tasks)
      | Some task =>
          match populate users (Task.createdBy task) with
          | None => (Failure 500 "Server error deleting task", tasks)
          | Some creator =>
              if toString_neq creator req_user_id
              then (Failure 403 "Not authorized to delete this task", tasks)
              else (Success "Task deleted successfully" None,
                    findByIdAndDelete oid tasks)
          end
      end
  end.

(** *** createTask *)

(** [req.body], for the paths of the schema: [None] is a key the body
    does not have, an empty list an array it does not have or has
    empty.  Dates and numbers are well formed; [_id] and [assignedTo]
    are strings still to be cast; the entries of the arrays are as
    mongoose builds them.  (A [createdBy] of the body is overwritten,
    and so is an [updatedAt].) *)
Record NewTask := {
  b__id : option string;
  b_title : option string;
  b_description : option string;
  b_status : option string;
  b_priority : option string;
  b_dueDate : option Z;
  b_assignedTo : option string;
  b_tags : list string;
  b_attachments : list Task.Attachment;
  b_estimatedHours : option N;
  b_actualHours : option N;
  b_completedAt : option Z;
  b_timeLogs : list (Task.TimeLog N);
  b_comments : list Task.Comment;
  b_reminders : list Z;
  b_isArchived : option bool;
  b_archivedAt : option Z;
  b_createdAt : option Z;
}.

(** The rules [taskValidation] of the route: the trimmed title has 1 to
    100 characters, the trimmed description at most 1000, status and
    priority are of their enums, estimatedHours is between 0 and 1000.
    No other key of the body is looked at. *)
Definition taskValidation (b : NewTask) : bool :=
  let title := Task.js_trim (default ""%string (b_title b)) in
  (1 <=? String.length title)%nat && (String.length title <=? 100)%nat
  && match b_description b with
     | Some s => (String.length (Task.js_trim s) <=? 1000)%nat
     | None => true
     end
  && match b_status b with
     | Some s => bool_decide (is_Some (Task.status_of_str s))
     | None => true
     end
  && match b_priority b with
     | Some s => bool_decide (is_Some (Task.priority_of_str s))
     | None => true
     end
  && match b_estimatedHours b with
     | Some h => Task.valid_hours h
     | None => true
     end.

(** A key of the body that holds a reference: missing, cast, or not
    castable. *)
Definition cast_key (key : option string) : option (option ObjectId) :=
  match key with
  | None => Some None
  | Some s => Some <$> castObjectId s
  end.

(** [new Task({ ...req.body, createdBy: req.user.id })] as the save
    finds it, its timestamps set: every path the body has is taken
    from it, [_id] is drawn when the body has none, the defaults of the
    schema fill in the rest; a new document gets the time of the save
    as [createdAt] unless it brings one, and its [createdAt] as
    [updatedAt].  [None] when [_id] or [assignedTo] does not cast. *)
Definition new_task (now : Z) (new_id : ObjectId) (req_user_id : ObjectId)
    (b : NewTask) : option Task :=
  oid ← cast_key (b__id b);
  assignee ← cast_key (b_assignedTo b);
  Some
    {| Task._id := default new_id oid;
       Task.title := Task.js_trim (default ""%string (b_title b));
       Task.description := Task.js_trim (default ""%string (b_description b));
       Task.status := default Task.pending (b_status b ≫= Task.status_of_str);
       Task.priority := default Task.medium (b_priority b ≫= Task.priority_of_str);
       Task.dueDate := b_dueDate b;
       Task.assignedTo := assignee;
       Task.createdBy := req_user_id;
       Task.tags :=
         List.map (fun tag => Task.js_toLowerCase (Task.js_trim tag)) (b_tags b);
       Task.attachments := b_attachments b;
       Task.estimatedHours := default (of_Z 0) (b_estimatedHours b);
       Task.actualHours := default (of_Z 0) (b_actualHours b);
       Task.completedAt := b_completedAt b;
       Task.timeLogs := b_timeLogs b;
       Task.comments := b_comments b;
       Task.reminders := b_reminders b;
       Task.isArchived := default false (b_isArchived b);
       Task.archivedAt := b_archivedAt b;
       Task.createdAt := default now (b_createdAt b);
       Task.updatedAt := default now (b_createdAt b) |}.

(** The unique index on [_id]: an insert under an [_id] the collection
    already holds is refused. *)
Definition holds_id (tasks : list Task) (id : ObjectId) : bool :=
  existsb (fun d => String.eqb (Task._id d) id) tasks.

(** [createTask]: the response and the collection of tasks after the
    call.  Whatever the save throws (a failed cast, a failed validation,
    a duplicate [_id]) the [catch] answers with 500.  (The counter the
    second save hook keeps in the users collection is not part of the
    result.) *)
Definition createTask (now : Z) (users : list User.t) (req_user_id : ObjectId)
    (new_id : ObjectId) (b : NewTask) (tasks : list Task) : Response * list Task :=
  if negb (taskValidation b) then (Failure 400 "Validation failed", tasks)
  else
    match new_task now new_id req_user_id b with
    | None => (Failure 500 "Server error creating task", tasks)
    | Some d =>
        if negb (Task.validate now users d) || holds_id tasks (Task._id d)
        then (Failure 500 "Server error creating task", tasks)
        else
          let saved := Task.pre_save now d in
          (Success "Task created successfully" (Some saved), tasks ++ [saved])
    end.

End WithNumber.

Arguments Assign N : clear implicits.
Arguments NewTask N : clear implicits.

End TaskController.

(** ** Sample documents *)

Module Sample.

Section WithNumber.
Context {N : Type} {HN : Number N}.

(** A task of user [owner], created at time 1000. *)
Definition task (id : ObjectId) (owner : ObjectId) (st : Task.Status)
    (due : option Z) (archived : bool) (est act : Z) : Task.t N :=
  {| Task._id := id; Task.title := "Write spec"; Task.description := "";
     Task.status := st; Task.priority := Task.high; Task.dueDate := due;
     Task.assignedTo := None; Task.createdBy := owner;
     Task.tags := []; Task.attachments := [];
     Task.estimatedHours := of_Z est; Task.actualHours := of_Z act;
     Task.completedAt := None; Task.timeLogs := [];
     Task.comments := []; Task.reminders := [];
     Task.isArchived := archived;
     Task.archivedAt := if archived then Some 1500 else None;
     Task.createdAt := 1000; Task.updatedAt := 1000 |}.

(** A log of [minutes] minutes. *)
Definition log (minutes : Z) : Task.TimeLog N :=
  {| Task.startTime := 0; Task.endTime := minutes * 60000;
     Task.duration := of_Z minutes; Task.log_description := None;
     Task.loggedBy := "64b000000000000000000001"; Task.loggedAt := 2000 |}.

End WithNumber.

Definition alice_id : ObjectId := "64b000000000000000000001".
Definition bob_id : ObjectId := "64b000000000000000000002".
Definition task_id : ObjectId := "64c000000000000000000001".

(** A stored user: nothing pending, no failed attempt, no lock. *)
Definition user (id : ObjectId) (name email hash : string) (active : bool) : User.t :=
  {| User._id := id; User.name := name; User.email := email;
     User.password := hash; User.avatar := None; User.role := User.user;
     User.isVerified := true; User.isActive := active;
     User.lastLogin := None; User.loginAttempts := 0; User.lockUntil := None;
     User.preferences :=
       {| User.notifications :=
            {| User.n_email := true; User.n_push := true; User.n_sms := false |};
          User.theme := User.light; User.language := "en";
          User.timezone := "UTC" |};
     User.profile :=
       {| User.bio := ""; User.phone := None;
          User.location :=
            {| User.city := None; User.country := None;
               User.loc_timezone := None |};
          User.socialLinks :=
            {| User.website := None; User.github := None;
               User.linkedin := None; User.twitter := None |} |};
     User.statistics :=
       {| User.tasksCreated := 0; User.tasksCompleted := 0;
          User.totalTimeSpent := 0 |};
     User.createdAt := 500; User.updatedAt := 500;
     User.passwordChangedAt := None; User.password_modified := false |}.

(** A stand-in for bcrypt that keeps the plaintext visible: good enough
    to run the model, useless as a hash. *)
Definition toy_bcrypt : Bcrypt :=
  {| bcrypt_hash p cost := String.append "$2a$12$" p;
     bcrypt_compare candidate stored :=
       String.eqb (String.append "$2a$12$" candidate) stored |}.

(** A stand-in for jsonwebtoken: the token [ok.<id>] decodes to [<id>],
    the token [old.<id>] has expired, the token [early.<id>] is not valid
    yet, anything else is malformed. *)
Definition toy_jwt : Jwt :=
  {| jwt_verify token :=
       if String.prefix "ok." token
       then Decoded (String.substring 3 (String.length token - 3) token)
       else if String.prefix "old." token
       then VerifyThrows "TokenExpiredError"
       else if String.prefix "early." token
       then VerifyThrows "NotBeforeError"
       else VerifyThrows "JsonWebTokenError" |}.

(** The cast of the current driver: 24 hexadecimal digits, and nothing
    else. *)
Definition is_hex_digit (c : Ascii.ascii) : bool :=
  let n := Ascii.nat_of_ascii c in
  ((48 <=? n) && (n <=? 57) || (65 <=? n) && (n <=? 70)
   || (97 <=? n) && (n <=? 102))%nat.

Definition hex_cast : Mongoose :=
  {| castObjectId s :=
       if (String.length s =? 24)%nat && forallb is_hex_digit (list_ascii_of_string s)
       then Some (Task.js_toLowerCase s) else None |}.

Definition alice : User.t :=
  user alice_id "Alice" "alice@example.com" "$2a$12$Secret1" true.

Definition bob : User.t :=
  user bob_id "Bob" "bob@example.com" "$2a$12$Hunter2" false.

(** [estimatedHours = 10], [actualHours = 5], in progress. *)
Definition half_done {N} `{Number N} : Task.t N :=
  task task_id alice_id Task.in_progress None false 10 5.

(** A fresh task that gets a log of 25 minutes, then one of 30. *)
Definition logged_25 {N} `{Number N} : Task.t N :=
  fst (Task.addTimeLog 2000 [alice] (log 25)
         (task task_id alice_id Task.in_progress None false 0 0)).

Definition logged_25_30 {N} `{Number N} : Task.t N :=
  fst (Task.addTimeLog 3000 [alice] (log 30) logged_25).

(** A request body with nothing but a title. *)
Definition titled {N : Type} (title : string) : TaskController.NewTask N :=
  {| TaskController.b__id := None;
     TaskController.b_title := Some title;
     TaskController.b_description := None;
     TaskController.b_status := None;
     TaskController.b_priority := None;
     TaskController.b_dueDate := None;
     TaskController.b_assignedTo := None;
     TaskController.b_tags := [];
     TaskController.b_attachments := [];
     TaskController.b_estimatedHours := None;
     TaskController.b_actualHours := None;
     TaskController.b_completedAt := None;
     TaskController.b_timeLogs := [];
     TaskController.b_comments := [];
     TaskController.b_reminders := [];
     TaskController.b_isArchived := None;
     TaskController.b_archivedAt := None;
     TaskController.b_createdAt := None |}.

(** A request body: a padded title, a status, a due date, two tags. *)
Definition body {N : Type} : TaskController.NewTask N :=
  {| TaskController.b__id := None;
     TaskController.b_title := Some "  Write spec ";
     TaskController.b_description := None;
     TaskController.b_status := Some "completed";
     TaskController.b_priority := None;
     TaskController.b_dueDate := Some 9000;
     TaskController.b_assignedTo := None;
     TaskController.b_tags := [" Docs"; "Q3 "];
     TaskController.b_attachments := [];
     TaskController.b_estimatedHours := None;
     TaskController.b_actualHours := None;
     TaskController.b_completedAt := None;
     TaskController.b_timeLogs := [];
     TaskController.b_comments := [];
     TaskController.b_reminders := [];
     TaskController.b_isArchived := None;
     TaskController.b_archivedAt := None;
     TaskController.b_createdAt := None |}.


Definition new_id : ObjectId := "64c000000000000000000002".

(** The query of a request with no parameter. *)
Definition plain_query : TaskController.ListQuery :=
  {| TaskController.q_status := None; TaskController.q_priority := None;
     TaskController.q_page := None; TaskController.q_limit := None |}.

(** A comment of Bob's, and a task that holds it. *)
Definition bobs_comment : Task.Comment :=
  {| Task.c_id := "64d000000000000000000001"; Task.c_user := Some bob_id;
     Task.content := Some "Looks good"; Task.c_createdAt := 1500;
     Task.c_updatedAt := 1500; Task.isEdited := false |}.

Definition commented {N : Type} `{Number N} : Task.t N :=
  Task.set_comments [bobs_comment] half_done.

(** What a caller hands to [addComment]: a user and a text. *)
Definition says (user : ObjectId) (text : string) : Task.CommentData :=
  {| Task.cd_id := None; Task.cd_user := Some user; Task.cd_content := Some text;
     Task.cd_createdAt := None; Task.cd_updatedAt := None;
     Task.cd_isEdited := None |}.

End Sample.

(** * Properties *)

(** ** The task model *)

(** Case analysis on every test of the goal. *)
Ltac case_ifs :=
  repeat match goal with
         | |- context [if ?b then _ else _] => destruct b; simpl
         end.

Section TaskFacts.
Context {N : Type} {HN : Number N}.

Lemma status_eqb_eq (a b : Task.Status) : Task.status_eqb a b = true <-> a = b.
Proof. destruct a, b; simpl; split; intros E; congruence. Qed.

Lemma status_eqb_neq (a b : Task.Status) : Task.status_eqb a b = false <-> a <> b.
Proof. destruct a, b; simpl; split; intros E; congruence. Qed.

(** The save hook leaves the logs and the hours alone. *)
Lemma pre_save_timeLogs now (d : Task.t N) :
  Task.timeLogs (Task.pre_save now d) = Task.timeLogs d.
Proof.
  unfold Task.pre_save. case_ifs; reflexivity.
Qed.

Lemma pre_save_actualHours now (d : Task.t N) :
  Task.actualHours (Task.pre_save now d) = Task.actualHours d.
Proof.
  unfold Task.pre_save. case_ifs; reflexivity.
Qed.

(** Whether the save goes through or not, the document in memory has
    the logs and the hours the method gave it. *)
Lemma try_save_timeLogs now users (d : Task.t N) :
  Task.timeLogs (fst (Task.try_save now users d)) = Task.timeLogs d.
Proof.
  unfold Task.try_save.
  destruct (Task.validate now users d); simpl; [apply pre_save_timeLogs | reflexivity].
Qed.

Lemma try_save_actualHours now users (d : Task.t N) :
  Task.actualHours (fst (Task.try_save now users d)) = Task.actualHours d.
Proof.
  unfold Task.try_save.
  destruct (Task.validate now users d); simpl; [apply pre_save_actualHours | reflexivity].
Qed.

Lemma addTimeLog_timeLogs now users log (d : Task.t N) :
  Task.timeLogs (fst (Task.addTimeLog now users log d)) = Task.timeLogs d ++ [log].
Proof. unfold Task.addTimeLog. by rewrite try_save_timeLogs. Qed.

Lemma addTimeLog_actualHours now users log (d : Task.t N) :
  Task.actualHours (fst (Task.addTimeLog now users log d))
  = fold_left (fun total l => add total (div (Task.duration l) (of_Z 60)))
      (Task.timeLogs d ++ [log]) (of_Z 0).
Proof. unfold Task.addTimeLog. by rewrite try_save_actualHours. Qed.

End TaskFacts.

(** In exact arithmetic dividing each term by 60 and dividing the sum by
    60 agree. *)
Lemma hours_of_minutes_Q (logs : list (Task.TimeLog Q)) (h m : Q) :
  (h == m / 60)%Q ->
  (fold_left (fun total l => total + Task.duration l / 60) logs h
   == fold_left (fun total l => total + Task.duration l) logs m / 60)%Q.
Proof.
  revert h m. induction logs as [|l logs IH]; intros h m E; simpl; [exact E|].
  apply IH. rewrite E. field.
Qed.

(** C7. The derived progress of a task is 100 when its status is
    completed and 0 when it is cancelled; otherwise, when estimatedHours
    and actualHours are both positive, it is
    min(round(actualHours / estimatedHours * 100), 100); otherwise it is
    the default of the status (pending 0, in-progress 50, on-hold 25).
    This holds for whatever arithmetic the numbers have.  In IEEE doubles
    and in exact rationals, the task with estimatedHours 10, actualHours 5
    and status in-progress has progress 50. *)
Theorem progress_by_cases :
  (forall (N : Type) (HN : Number N) (d : Task.t N),
      (Task.status d = Task.completed -> Task.progress d = of_Z 100)
      /\ (Task.status d = Task.cancelled -> Task.progress d = of_Z 0)
      /\ (Task.status d <> Task.completed -> Task.status d <> Task.cancelled ->
          gt (Task.estimatedHours d) (of_Z 0) = true ->
          gt (Task.actualHours d) (of_Z 0) = true ->
          Task.progress d
          = Math_min
              (Math_round
                 (mul (div (Task.actualHours d) (Task.estimatedHours d)) (of_Z 100)))
              (of_Z 100))
      /\ (Task.status d <> Task.completed -> Task.status d <> Task.cancelled ->
          gt (Task.estimatedHours d) (of_Z 0) && gt (Task.actualHours d) (of_Z 0) = false ->
          Task.progress d
          = of_Z match Task.status d with
                 | Task.in_progress => 50
                 | Task.on_hold => 25
                 | _ => 0
                 end))
  /\ Task.progress (N := float) Sample.half_done = 50%float
  /\ Task.progress (N := Q) Sample.half_done = 50%Q.
Proof.
  split; [|split; reflexivity].
  intros N HN d. unfold Task.progress.
  repeat split.
  - intros ->. reflexivity.
  - intros ->. reflexivity.
  - intros Hc Hx He Ha.
    apply status_eqb_neq in Hc, Hx. rewrite Hc, Hx, He, Ha. reflexivity.
  - intros Hc Hx Hz.
    destruct (Task.status d) eqn:E; try congruence; simpl; rewrite Hz; reflexivity.
Qed.

(** C10, as stated, fails in the arithmetic node computes with: a task
    with a log of 25 minutes that gets a log of 30 minutes ends with
    actualHours 25/60 + 30/60 = 0.9166666666666667, while timeSpent / 60 =
    55 / 60 = 0.9166666666666666. *)
Lemma addTimeLog_doubles_differ :
  let d := fst (Task.addTimeLog (N := float) 3000 [Sample.alice] (Sample.log 30)
                  Sample.logged_25) in
  Task.timeSpent d = 55%float
  /\ Js.eqb (Task.actualHours d) (div (Task.timeSpent d) (of_Z 60)) = false
  /\ Task.actualHours d <> div (Task.timeSpent d) (of_Z 60).
Proof.
  cbv zeta. split; [reflexivity|]. split; [reflexivity|].
  intros E.
  apply (f_equal (fun x => Js.eqb x (div (Task.timeSpent (N := float) Sample.logged_25_30) (of_Z 60)))) in E.
  vm_compute in E. discriminate E.
Qed.

(** C10, amended. After every addTimeLog call the new entry is the last
    of timeLogs and actualHours is the sum, taken from the left over all
    entries of timeLogs, of duration / 60, each entry divided before it
    is added; timeSpent is the like sum of the durations.  In exact
    arithmetic actualHours then equals timeSpent / 60. *)
Theorem addTimeLog_hours :
  (forall (N : Type) (HN : Number N) (now : Z) (users : list User.t)
          (log : Task.TimeLog N) (d : Task.t N),
      let d' := fst (Task.addTimeLog now users log d) in
      Task.timeLogs d' = Task.timeLogs d ++ [log]
      /\ Task.actualHours d'
         = fold_left (fun total l => add total (div (Task.duration l) (of_Z 60)))
             (Task.timeLogs d') (of_Z 0)
      /\ Task.timeSpent d'
         = fold_left (fun total l => add total (Task.duration l))
             (Task.timeLogs d') (of_Z 0))
  /\ (forall (now : Z) (users : list User.t) (log : Task.TimeLog Q) (d : Task.t Q),
         let d' := fst (Task.addTimeLog now users log d) in
         (Task.actualHours d' == Task.timeSpent d' / 60)%Q).
Proof.
  split.
  - intros N HN now users log d d'. subst d'.
    rewrite addTimeLog_timeLogs, addTimeLog_actualHours. repeat split.
    unfold Task.timeSpent. rewrite addTimeLog_timeLogs. reflexivity.
  - intros now users log d d'. subst d'.
    rewrite addTimeLog_actualHours. unfold Task.timeSpent.
    rewrite addTimeLog_timeLogs.
    apply (hours_of_minutes_Q (Task.timeLogs d ++ [log]) (of_Z 0) (of_Z 0)).
    reflexivity.
Qed.

(** ** The statistics of the task model *)

(** Three tasks of one user, one of them completed: 12 hours estimated,
    6 spent. *)
Example getTaskStats_one_of_three :
  let tasks : list (Task.t Q) :=
    [Sample.task "a" Sample.alice_id Task.completed None false 4 5;
     Sample.task "b" Sample.alice_id Task.pending None false 4 1;
     Sample.task "c" Sample.alice_id Task.on_hold None false 4 0] in
  exists s, Task.getTaskStats 5000 (Some Sample.alice_id) tasks = Some s
            /\ Task.totalTasks s = 3
            /\ (Task.completionRate s == 33.33)%Q
            /\ (Task.efficiency s == 50)%Q.
Proof. cbv zeta. eexists. split; [reflexivity|]. vm_compute. repeat split. Qed.

(** C5, as stated, fails when no task is counted: the query of a user
    whose only task is archived returns null, not an object whose
    completionRate is 0. *)
Lemma getTaskStats_nothing_matched :
  let tasks : list (Task.t Q) :=
    [Sample.task "a" Sample.alice_id Task.pending None true 4 1;
     Sample.task "b" Sample.bob_id Task.completed None false 4 5] in
  Task.getTaskStats 5000 (Some Sample.alice_id) tasks = None
  /\ ~ (exists s, Task.getTaskStats 5000 (Some Sample.alice_id) tasks = Some s
                  /\ (Task.completionRate s == 0)%Q).
Proof.
  cbv zeta. split; [reflexivity|].
  intros [s [E _]]. vm_compute in E. discriminate E.
Qed.

(** C5, amended. A stats query that matches no task returns null, with
    no division performed; one that matches at least one task returns
    totalTasks > 0, completionRate = round(completedTasks / totalTasks *
    100, 2), and efficiency = 0 when totalEstimatedHours is 0 and
    round(totalActualHours / totalEstimatedHours * 100, 2) otherwise.  The
    projection itself gives completionRate 0 to a group whose totalTasks
    is 0. *)
Theorem getTaskStats_rates :
  forall (N : Type) (HN : Number N) (HR : MongoRound N)
         (now : Z) (userId : option ObjectId) (tasks : list (Task.t N)),
    let matched := List.filter (Task.matchStage userId) tasks in
    (Task.getTaskStats now userId tasks = None <-> matched = [])
    /\ (forall s, Task.getTaskStats now userId tasks = Some s ->
          Task.totalTasks s = Z.of_nat (length matched)
          /\ 0 < Task.totalTasks s
          /\ Task.completedTasks s
             = Task.count_if (fun d => Task.status_eqb (Task.status d) Task.completed) matched
          /\ Task.completionRate s
             = round_places
                 (mul (div (of_Z (Task.completedTasks s)) (of_Z (Task.totalTasks s)))
                      (of_Z 100)) 2
          /\ Task.totalEstimatedHours s = Task.sum_of Task.estimatedHours matched
          /\ Task.totalActualHours s = Task.sum_of Task.actualHours matched
          /\ Task.efficiency s
             = if eqb (Task.totalEstimatedHours s) (of_Z 0) then of_Z 0
               else round_places
                      (mul (div (Task.totalActualHours s) (Task.totalEstimatedHours s))
                           (of_Z 100)) 2)
    /\ (forall g : Task.Group N,
          Task.g_totalTasks g = 0 ->
          Task.completionRate (Task.project_stage g) = of_Z 0).
Proof.
  intros N HN HR now userId tasks matched. unfold Task.getTaskStats.
  fold matched. split; [|split].
  - destruct matched; split; intros E; congruence.
  - intros s E. destruct matched as [|d rest] eqn:Em; [discriminate E|].
    injection E as <-. simpl.
    repeat split; lia.
  - intros g Eg. simpl. rewrite Eg. reflexivity.
Qed.

(** ** The update path *)

Section UpdateFacts.
Context {N : Type} {HN : Number N} {M : Mongoose}.

(** X1. What the save hook establishes: after it, completedAt is set
    exactly when the status is completed. *)
Lemma pre_save_completedAt now (d : Task.t N) :
  is_Some (Task.completedAt (Task.pre_save now d))
  <-> Task.status (Task.pre_save now d) = Task.completed.
Proof.
  unfold Task.pre_save.
  destruct d as [id ti de st pr du asg cb tg att eh ah ca tl cm re ar aa cr up]; simpl.
  destruct st, ca as [c|], ar, aa as [x|]; simpl.
  all: split; intros E; try done; try (by eexists); try (by destruct E).
Qed.

Lemma pre_save_completion now (d : Task.t N) :
  Task.completion_consistent (Task.pre_save now d).
Proof.
  unfold Task.completion_consistent, Task.pre_save.
  destruct d as [id ti de st pr du asg cb tg att eh ah ca tl cm re ar aa cr up]; simpl.
  destruct st, ca as [c|], ar, aa as [x|]; simpl.
  all: split; intros E; try done; try (by eexists); try (by destruct E).
Qed.

(** What the hook does about archival: it keeps [isArchived], gives
    an archived task its archivedAt, and leaves the archivedAt of every
    other task as it finds it. *)
Lemma pre_save_archival now (d : Task.t N) :
  let s := Task.pre_save now d in
  Task.isArchived s = Task.isArchived d
  /\ (Task.isArchived d = true -> is_Some (Task.archivedAt s))
  /\ (Task.isArchived d = false \/ is_Some (Task.archivedAt d) ->
      Task.archivedAt s = Task.archivedAt d).
Proof.
  unfold Task.pre_save.
  destruct d as [id ti de st pr du asg cb tg att eh ah ca tl cm re ar aa cr up]; simpl.
  destruct st, ca as [c|], ar, aa as [x|]; simpl; repeat split; try done.
  all: try (by eexists); by intros [?|[? ?]].
Qed.

(** The handler refuses every request: an id that does not cast and a
    task without an active creator give 500, an id no unarchived task
    has gives 404, and everything else 403. *)
Lemma updateTask_refuses now users req_user_id id body (tasks : list (Task.t N)) :
  TaskController.updateTask now users req_user_id id body tasks
  = (match castObjectId id with
     | None => TaskController.Failure 500 "Server error updating task"
     | Some oid =>
         match Task.findById tasks oid with
         | None => TaskController.Failure 404 "Task not found"
         | Some task =>
             match TaskController.populate users (Task.createdBy task) with
             | None => TaskController.Failure 500 "Server error updating task"
             | Some _ => TaskController.Failure 403 "Not authorized to update this task"
             end
         end
     end, tasks).
Proof.
  unfold TaskController.updateTask.
  destruct (castObjectId id) as [oid|]; [|reflexivity].
  destruct (Task.findById tasks oid) as [task|]; [|reflexivity].
  destruct (TaskController.populate users (Task.createdBy task)); [|reflexivity].
  by destruct (Task.assignedTo task ≫= TaskController.populate users).
Qed.

(** X2. With the identity [auth] attaches, the handler's test fails for
    every task it finds.  The handler writes nothing, and it answers
    500 when the id of the request does not cast, 404 when no unarchived
    task has the id, 500 when the creator of the task is not an active
    user, and 403 in every other case. *)
Lemma updateTask_writes_nothing now users req_user_id id body (tasks : list (Task.t N)) :
  let answer := fst (TaskController.updateTask now users req_user_id id body tasks) in
  snd (TaskController.updateTask now users req_user_id id body tasks) = tasks
  /\ (castObjectId id = None ->
      answer = TaskController.Failure 500 "Server error updating task")
  /\ (forall oid, castObjectId id = Some oid ->
        (Task.findById tasks oid = None ->
         answer = TaskController.Failure 404 "Task not found")
        /\ (forall task, Task.findById tasks oid = Some task ->
              (TaskController.populate users (Task.createdBy task) = None ->
               answer = TaskController.Failure 500 "Server error updating task")
              /\ (is_Some (TaskController.populate users (Task.createdBy task)) ->
                  answer
                  = TaskController.Failure 403 "Not authorized to update this task"))).
Proof.
  intros answer. subst answer. rewrite updateTask_refuses. cbn [fst snd].
  split; [reflexivity|]. split; [by intros ->|].
  intros oid ->. split; [by intros ->|].
  intros task ->. split; [by intros ->|]. by intros [creator ->].
Qed.

(** A save keeps the status and [isArchived], makes completedAt agree
    with the status, gives an archived task its archivedAt, and never
    clears an archivedAt. *)
Lemma save_consistent now (d : Task.t N) :
  let s := Task.save now d in
  Task.completion_consistent s
  /\ Task.isArchived s = Task.isArchived d
  /\ (Task.isArchived d = true -> is_Some (Task.archivedAt s))
  /\ (Task.isArchived d = false \/ is_Some (Task.archivedAt d) ->
      Task.archivedAt s = Task.archivedAt d).
Proof.
  unfold Task.save, Task.completion_consistent.
  split; [apply (pre_save_completion now d) | apply (pre_save_archival now d)].
Qed.

Lemma try_save_true now users (d d' : Task.t N) :
  Task.try_save now users d = (d', true) ->
  d' = Task.save now d /\ Task.validate now users d = true.
Proof.
  unfold Task.try_save. destruct (Task.validate now users d); [|discriminate].
  by intros [= <-].
Qed.

(** What the hook, and so a save, leaves alone. *)
Lemma pre_save_keeps now (d : Task.t N) :
  let s := Task.pre_save now d in
  Task._id s = Task._id d /\ Task.title s = Task.title d
  /\ Task.status s = Task.status d /\ Task.priority s = Task.priority d
  /\ Task.dueDate s = Task.dueDate d /\ Task.assignedTo s = Task.assignedTo d
  /\ Task.createdBy s = Task.createdBy d
  /\ Task.estimatedHours s = Task.estimatedHours d
  /\ Task.actualHours s = Task.actualHours d
  /\ Task.timeLogs s = Task.timeLogs d
  /\ Task.comments s = Task.comments d
  /\ Task.reminders s = Task.reminders d
  /\ Task.isArchived s = Task.isArchived d
  /\ Task.createdAt s = Task.createdAt d.
Proof.
  unfold Task.pre_save.
  destruct d as [id ti de st pr du asg cb tg att eh ah ca tl cm re ar aa cr up]; simpl.
  destruct st, ca as [c|], ar, aa as [x|]; simpl; repeat split; done.
Qed.

Lemma save_keeps now (d : Task.t N) :
  let s := Task.save now d in
  Task._id s = Task._id d /\ Task.title s = Task.title d
  /\ Task.status s = Task.status d /\ Task.priority s = Task.priority d
  /\ Task.dueDate s = Task.dueDate d /\ Task.assignedTo s = Task.assignedTo d
  /\ Task.createdBy s = Task.createdBy d
  /\ Task.estimatedHours s = Task.estimatedHours d
  /\ Task.actualHours s = Task.actualHours d
  /\ Task.timeLogs s = Task.timeLogs d
  /\ Task.comments s = Task.comments d
  /\ Task.reminders s = Task.reminders d
  /\ Task.isArchived s = Task.isArchived d
  /\ Task.createdAt s = Task.createdAt d.
Proof. exact (pre_save_keeps now d). Qed.

(** Every update that completes is a save of the task with some paths
    assigned: the two of archival by [archive] and by [unarchive],
    neither of them by any other method; no method assigns the due
    date, the reminders or the two references. *)
Lemma Updates_save now users (d d' : Task.t N) :
  Task.Updates now users d d' ->
  exists d0, d' = Task.save now d0 /\ Task.validate now users d0 = true
    /\ Task.dueDate d0 = Task.dueDate d /\ Task.reminders d0 = Task.reminders d
    /\ Task.createdBy d0 = Task.createdBy d /\ Task.assignedTo d0 = Task.assignedTo d
    /\ ((Task.isArchived d0 = Task.isArchived d /\ Task.archivedAt d0 = Task.archivedAt d)
        \/ (Task.isArchived d0 = true /\ Task.archivedAt d0 = Some now)
        \/ (Task.isArchived d0 = false /\ Task.archivedAt d0 = None)).
Proof.
  intros Hu. destruct Hu as [log d d' E|new_id data d d' c E|commentId text userId d d' c E
                            |a d d' E|attachmentId d d' E|d d' E|d d' E].
  - apply try_save_true in E as [-> Hv]. eexists. split; [reflexivity|]. split; [exact Hv|].
    repeat split. by left.
  - unfold Task.addComment in E.
    destruct (Task.try_save now users _) as [d1 saved] eqn:Es.
    destruct saved; [|discriminate E]. injection E as <- _.
    apply try_save_true in Es as [-> Hv]. eexists. split; [reflexivity|].
    split; [exact Hv|]. repeat split. by left.
  - unfold Task.updateComment in E.
    destruct (castObjectId commentId ≫= _) as [comment|]; [|discriminate E].
    destruct (Task.c_user comment) as [author|]; [|discriminate E].
    destruct (negb (String.eqb author userId)); [discriminate E|].
    destruct (Task.try_save now users _) as [d1 saved] eqn:Es.
    destruct saved; [|discriminate E]. injection E as <- _.
    apply try_save_true in Es as [-> Hv]. eexists. split; [reflexivity|].
    split; [exact Hv|]. repeat split. by left.
  - apply try_save_true in E as [-> Hv]. eexists. split; [reflexivity|]. split; [exact Hv|].
    repeat split. by left.
  - apply try_save_true in E as [-> Hv]. eexists. split; [reflexivity|]. split; [exact Hv|].
    repeat split. by left.
  - apply try_save_true in E as [-> Hv]. eexists. split; [reflexivity|]. split; [exact Hv|].
    repeat split. right. by left.
  - apply try_save_true in E as [-> Hv]. eexists. split; [reflexivity|]. split; [exact Hv|].
    repeat split. right. by right.
Qed.

(** What validation asks of the paths no method assigns. *)
Lemma validate_true now users (d : Task.t N) :
  Task.validate now users d = true ->
  (forall due, Task.dueDate d = Some due -> now < due)
  /\ Task.active_user users (Task.createdBy d) = true
  /\ (forall userId, Task.assignedTo d = Some userId ->
        Task.active_user users userId = true)
  /\ Forall (fun date => now < date) (Task.reminders d)
  /\ (forall date, Task.completedAt d = Some date -> date <= now)
  /\ Task.valid_title (Task.title d) = true
  /\ Task.valid_hours (Task.estimatedHours d) = true
  /\ Task.valid_hours (Task.actualHours d) = true
  /\ Forall (fun log => Task.valid_timeLog log = true) (Task.timeLogs d)
  /\ Forall (fun c => Task.valid_comment c = true) (Task.comments d).
Proof.
  unfold Task.validate. intros Hv.
  do 12 (apply andb_true_iff in Hv as [Hv ?]).
  repeat split; try done.
  - intros due E. rewrite E in *. by apply Z.ltb_lt.
  - intros userId E. by rewrite E in *.
  - apply Forall_forall. intros date Hd. apply Z.ltb_lt.
    match goal with H : forallb _ (Task.reminders d) = true |- _ =>
      rewrite forallb_forall in H; apply H end.
    by apply list_elem_of_In.
  - intros date E. rewrite E in *. by apply Z.leb_le.
  - apply Forall_forall. intros log Hl.
    match goal with H : forallb _ (Task.timeLogs d) = true |- _ =>
      rewrite forallb_forall in H; apply H end.
    by apply list_elem_of_In.
  - apply Forall_forall. intros c Hc.
    match goal with H : forallb _ (Task.comments d) = true |- _ =>
      rewrite forallb_forall in H; apply H end.
    by apply list_elem_of_In.
Qed.

(** The hook writes to two paths, and of those that have a validator
    to completedAt only, which it clears or sets to the time of the
    save. *)
Lemma pre_save_validated now (d : Task.t N) :
  let s := Task.pre_save now d in
  Task.title s = Task.title d /\ Task.description s = Task.description d
  /\ Task.dueDate s = Task.dueDate d /\ Task.assignedTo s = Task.assignedTo d
  /\ Task.createdBy s = Task.createdBy d /\ Task.tags s = Task.tags d
  /\ Task.attachments s = Task.attachments d
  /\ Task.estimatedHours s = Task.estimatedHours d
  /\ Task.actualHours s = Task.actualHours d
  /\ Task.timeLogs s = Task.timeLogs d /\ Task.comments s = Task.comments d
  /\ Task.reminders s = Task.reminders d
  /\ (Task.completedAt s = Task.completedAt d \/ Task.completedAt s = Some now
      \/ Task.completedAt s = None).
Proof.
  unfold Task.pre_save.
  destruct d as [id ti de st pr du asg cb tg att eh ah ca tl cm re ar aa cr up]; simpl.
  destruct st, ca as [c|], ar, aa as [x|]; simpl; repeat split; auto.
Qed.

(** A document that validates still does once the hook has run. *)
Lemma validate_pre_save now users (d : Task.t N) :
  Task.validate now users d = true ->
  Task.validate now users (Task.pre_save now d) = true.
Proof.
  intros Hv.
  destruct (pre_save_validated now d)
    as (K1 & K2 & K3 & K4 & K5 & K6 & K7 & K8 & K9 & K10 & K11 & K12 & Kc).
  unfold Task.validate in *.
  rewrite K1, K2, K3, K4, K5, K6, K7, K8, K9, K10, K11, K12.
  do 12 (apply andb_true_iff in Hv as [Hv ?]).
  destruct Kc as [->|[->| ->]]; rewrite ?Z.leb_refl;
    repeat match goal with H : ?b = true |- context [?b] => rewrite H end;
    reflexivity.
Qed.

End UpdateFacts.

(** What [Task.findByIdAndUpdate] would do if the handler reached it:
    on a pending task, [{ $set: { status: 'completed' } }] stores a
    completed task without completedAt, where a save of the same change
    stamps it; likewise [{ isArchived: true }] leaves archivedAt empty. *)
Example findByIdAndUpdate_runs_no_hook :
  let d : Task.t Q := Sample.task Sample.task_id Sample.alice_id Task.pending None false 10 5 in
  (exists d',
      TaskController.findByIdAndUpdate 5000 [Sample.alice] Sample.task_id
        [TaskController.A_status Task.completed] [d]
      = TaskController.Updated (Some d') [d']
      /\ Task.status d' = Task.completed /\ Task.completedAt d' = None)
  /\ Task.completedAt (Task.save 5000 (Task.set_status Task.completed d)) = Some 5000
  /\ (exists d',
      TaskController.findByIdAndUpdate 5000 [Sample.alice] Sample.task_id
        [TaskController.A_isArchived true] [d]
      = TaskController.Updated (Some d') [d']
      /\ Task.isArchived d' = true /\ Task.archivedAt d' = None).
Proof.
  cbv zeta. repeat split; try (eexists; repeat split; reflexivity).
Qed.



(** ** The statistics of the controller *)

Section StatsFacts.
Context {N : Type} `{Number N}.

Lemma filter_within {A} (p q : A -> bool) (l : list A) :
  (forall x, p x = true -> q x = true) ->
  List.filter p (List.filter q l) = List.filter p l.
Proof.
  intros Hpq. induction l as [|x l IH]; [reflexivity|]. simpl.
  destruct (q x) eqn:Eq; simpl.
  - rewrite IH. reflexivity.
  - destruct (p x) eqn:Ep; [|exact IH].
    apply Hpq in Ep. congruence.
Qed.

(** X3. The controller's statistics read only the tasks the requester
    created or is assigned. *)
Lemma getTaskStats_own_tasks now req_user_id (tasks : list (Task.t N)) :
  TaskController.getTaskStats now req_user_id tasks
  = TaskController.getTaskStats now req_user_id
      (List.filter (Task.involves req_user_id) tasks).
Proof.
  unfold TaskController.getTaskStats, TaskController.status_counts,
    Task.countDocuments.
  rewrite !filter_within; [reflexivity | done | ].
  intros d. unfold TaskController.overdue_filter.
  destruct (Task.involves req_user_id d); done.
Qed.

End StatsFacts.

(** C3 at work. The requester's only task is archived (pending, due in
    the past): the statistics of GET /api/tasks/stats/overview count it in
    total, in its status and in overdue, where the model's own
    [Task.getTaskStats] leaves it out. *)
Theorem getTaskStats_counts_archived :
  let a : Task.t Q := Sample.task Sample.task_id Sample.alice_id Task.pending (Some 1200) true 10 5 in
  let stats := TaskController.getTaskStats 5000 Sample.alice_id [a] in
  Task.isArchived a = true
  /\ stats !! "total" = Some 1
  /\ stats !! "pending" = Some 1
  /\ stats !! "overdue" = Some 1
  /\ Task.getTaskStats 5000 (Some Sample.alice_id) [a] = None.
Proof. cbv zeta. repeat split; vm_compute; reflexivity. Qed.

(** C4 at work. The requester's only task is on hold and past its due
    date: the statistics of the controller give overdue 0, while the task
    is overdue for its own [isOverdue], for [findOverdueTasks] and for
    [Task.getTaskStats]. *)
Theorem getTaskStats_overdue_skips_on_hold :
  let h : Task.t Q := Sample.task Sample.task_id Sample.alice_id Task.on_hold (Some 1200) false 10 5 in
  TaskController.getTaskStats 5000 Sample.alice_id [h] !! "overdue" = Some 0
  /\ Task.isOverdue 5000 h = true
  /\ Task.findOverdueTasks 5000 [h] = [h]
  /\ Task.overdueTasks <$> Task.getTaskStats 5000 (Some Sample.alice_id) [h] = Some 1.
Proof. cbv zeta. repeat split; vm_compute; reflexivity. Qed.

(** ** The task list *)

Section ListFacts.
Context {N : Type} {HN : Number N}.

Implicit Types (d : Task.t N) (tasks l : list (Task.t N)).

Lemma find_spec (f : Task.t N -> bool) tasks d :
  d ∈ Task.find f tasks <-> d ∈ tasks /\ f d = true /\ Task.isArchived d = false.
Proof.
  unfold Task.find. rewrite !list_elem_of_In, filter_In, andb_true_iff, negb_true_iff.
  tauto.
Qed.

(** Every document [countDocuments] counts is either one [find] returns
    or an archived one. *)
Lemma countDocuments_split (f : Task.t N -> bool) tasks :
  Task.countDocuments f tasks
  = (length (Task.find f tasks)
     + length (List.filter (fun d => f d && Task.isArchived d) tasks))%nat.
Proof.
  unfold Task.countDocuments, Task.find.
  induction tasks as [|d tasks IH]; [reflexivity|]. simpl.
  destruct (f d), (Task.isArchived d); simpl; lia.
Qed.

Lemma page_of_subseteq page limit l : TaskController.page_of page limit l ⊆ l.
Proof.
  unfold TaskController.page_of. destruct (limit =? 0)%nat.
  - apply subseteq_drop.
  - etrans; [apply subseteq_take | apply subseteq_drop].
Qed.

Lemma page_of_length page limit l :
  (length (TaskController.page_of page limit l) <= length l)%nat.
Proof.
  unfold TaskController.page_of. destruct (limit =? 0)%nat;
    rewrite ?length_take, ?length_drop; lia.
Qed.

(** Pages 1 to [k] of a positive size, one after the other, are the
    first [k * limit] documents. *)
Lemma pages_concat limit k l :
  limit <> 0%nat ->
  concat (List.map (fun page => TaskController.page_of page limit l) (seq 1 k))
  = take (k * limit) l.
Proof.
  intros Hl. induction k as [|k IH]; [reflexivity|].
  rewrite seq_S, List.map_app, concat_app, IH. simpl.
  unfold TaskController.page_of.
  destruct (limit =? 0)%nat eqn:E; [apply Nat.eqb_eq in E; lia|].
  replace (S k - 1)%nat with k by lia.
  rewrite app_nil_r, take_take_drop. f_equal. lia.
Qed.

End ListFacts.

(** C9. Whenever the list operation answers, every task it returns is
    one of the requester's, matches the filter and is not archived, while
    pagination.totalTasks counts every task matching the filter, archived
    ones included: it is the number of tasks the pages can show plus the
    number of archived tasks matching the filter.  Any page is taken
    from the unarchived matches, and the pages of a positive size laid
    end to end are a prefix of them; so when an archived task matches the
    filter, totalTasks is strictly larger than the number of tasks all
    the pages together can show. *)
Theorem getTasks_total_counts_archived :
  forall (N : Type) (HN : Number N) (req_user_id : ObjectId)
         (q : TaskController.ListQuery) (tasks found : list (Task.t N))
         (pagination : TaskController.Pagination),
    TaskController.getTasks req_user_id q tasks = TaskController.ListOk found pagination ->
    let filter := TaskController.list_filter req_user_id q in
    let visible := merge_sort TaskController.newest_first (Task.find filter tasks) in
    (forall d, d ∈ found ->
        d ∈ tasks /\ Task.involves req_user_id d = true /\ filter d = true
        /\ Task.isArchived d = false)
    /\ TaskController.totalTasks pagination = length (List.filter filter tasks)
    /\ TaskController.totalTasks pagination
       = (length visible
          + length (List.filter (fun d => filter d && Task.isArchived d) tasks))%nat
    /\ (forall page limit,
          TaskController.page_of page limit visible ⊆ visible
          /\ (length (TaskController.page_of page limit visible) <= length visible)%nat)
    /\ (forall limit k, limit <> 0%nat ->
          concat (List.map (fun page => TaskController.page_of page limit visible) (seq 1 k))
          = take (k * limit) visible)
    /\ ((exists d, d ∈ tasks /\ filter d = true /\ Task.isArchived d = true) ->
        (length visible < TaskController.totalTasks pagination)%nat).
Proof.
  intros N HN req_user_id q tasks found pagination E filter visible.
  unfold TaskController.getTasks in E. fold filter in E. fold visible in E.
  destruct (_ && _) in E; [discriminate E|].
  injection E as <- <-. simpl.
  assert (Hlen : length visible = length (Task.find filter tasks)).
  { unfold visible. by rewrite merge_sort_Permutation. }
  split; [|split; [|split; [|split; [|split]]]].
  - intros d Hd. apply page_of_subseteq in Hd. unfold visible in Hd.
    rewrite merge_sort_Permutation in Hd. apply find_spec in Hd.
    destruct Hd as (Hin & Hf & Ha). repeat split; try done.
    unfold filter, TaskController.list_filter in Hf.
    apply andb_true_iff in Hf as [Hf _]. by apply andb_true_iff in Hf as [Hf _].
  - reflexivity.
  - rewrite Hlen. apply countDocuments_split.
  - intros page limit. split; [apply page_of_subseteq | apply page_of_length].
  - intros limit k Hl. by apply pages_concat.
  - intros (d & Hin & Hf & Ha).
    rewrite Hlen, (countDocuments_split filter tasks).
    assert (Hd : In d (List.filter (fun d => filter d && Task.isArchived d) tasks)).
    { apply filter_In. split; [by apply list_elem_of_In | by rewrite Hf, Ha]. }
    destruct (List.filter (fun d => filter d && Task.isArchived d) tasks);
      [destruct Hd | simpl; lia].
Qed.

Lemma getTasks_total_counts_archived_witness :
  let a : Task.t Q := Sample.task "a" Sample.alice_id Task.pending None false 10 5 in
  let b : Task.t Q := Sample.task "b" Sample.alice_id Task.pending None true 10 5 in
  let q := {| TaskController.q_status := None; TaskController.q_priority := None;
              TaskController.q_page := None; TaskController.q_limit := None |} in
  let pagination :=
    {| TaskController.currentPage := 1; TaskController.totalPages := Some 1%nat;
       TaskController.totalTasks := 2 |} in
  TaskController.getTasks Sample.alice_id q [a; b] = TaskController.ListOk [a] pagination
  /\ (length (merge_sort TaskController.newest_first
                (Task.find (TaskController.list_filter Sample.alice_id q) [a; b])) < 2)%nat.
Proof.
  intros a b q pagination. split; [reflexivity|].
  refine (proj2 (proj2 (proj2 (proj2 (proj2
    (getTasks_total_counts_archived Q _ Sample.alice_id q [a; b] [a] pagination eq_refl))))) _).
  exists b. split; [|split]; [apply list_elem_of_further, list_elem_of_here | reflexivity | reflexivity].
Defined.


(** ** Login attempts *)

Section LoginFacts.
Context {B : Bcrypt}.

(** A save of a document whose password is not modified rewrites nothing
    of the credentials. *)
Lemma save_unmodified now (u : User.t) :
  User.password_modified u = false ->
  User.password (User.save now u) = User.password u
  /\ User.password_modified (User.save now u) = false
  /\ User.loginAttempts (User.save now u) = User.loginAttempts u
  /\ User.lockUntil (User.save now u) = User.lockUntil u.
Proof.
  intros Hm. unfold User.save, User.pre_save_stamp, User.pre_save_hash.
  rewrite Hm. simpl. rewrite Hm. simpl. done.
Qed.

Lemma handleFailedLogin_fields now (u : User.t) :
  User.password_modified u = false ->
  let u' := User.handleFailedLogin now u in
  User.password u' = User.password u
  /\ User.password_modified u' = false
  /\ User.loginAttempts u' = User.loginAttempts u + 1
  /\ User.lockUntil u'
     = if (5 <=? User.loginAttempts u + 1) && negb (User.isLocked now u)
       then Some (now + 30 * 60 * 1000) else User.lockUntil u.
Proof.
  intros Hm u'. subst u'. unfold User.handleFailedLogin.
  change (User.isLocked now (User.set_loginAttempts (User.loginAttempts u + 1) u))
    with (User.isLocked now u).
  change (User.loginAttempts (User.set_loginAttempts (User.loginAttempts u + 1) u))
    with (User.loginAttempts u + 1).
  destruct (_ && _);
    match goal with |- context [User.save now ?v] =>
      destruct (save_unmodified now v) as (Hp & Hd & Ha & Hl); [exact Hm|];
      rewrite Hp, Hd, Ha, Hl
    end; done.
Qed.

Lemma comparePassword_wrong now candidate (u : User.t) :
  User.isLocked now u = false ->
  bcrypt_compare candidate (User.password u) = false ->
  User.comparePassword now candidate u
  = (User.handleFailedLogin now u, User.Returned false).
Proof.
  intros Hl Hc. unfold User.comparePassword. by rewrite Hl, Hc.
Qed.

(** While the lock lasts every call throws and changes nothing, whatever
    the candidate is. *)
Lemma attempts_while_locked (u : User.t) (calls : list (Z * string)) :
  Forall (fun c => User.isLocked (fst c) u = true) calls ->
  User.attempts calls u
  = (u, List.map (fun _ => User.Thrown User.locked_message) calls).
Proof.
  induction 1 as [|[now candidate] calls Hl _ IH]; [reflexivity|].
  simpl in *. unfold User.comparePassword. rewrite Hl, IH. reflexivity.
Qed.

End LoginFacts.

(** C2. A stored user record with loginAttempts 0 and no lock meets five
    calls of comparePassword in a row, each with a wrong password: each
    call returns false, and after the fifth loginAttempts is 5 and
    lockUntil is 30 minutes after the clock reading of the fifth call.
    From then on, every call whose clock reading is before lockUntil
    throws the account-locked error and leaves the record as it is,
    whatever password it brings, the correct one included. *)
Theorem five_failures_lock :
  forall (B : Bcrypt) (u : User.t) (t1 t2 t3 t4 t5 : Z) (p1 p2 p3 p4 p5 : string),
    User.loginAttempts u = 0 ->
    User.lockUntil u = None ->
    User.password_modified u = false ->
    Forall (fun p => bcrypt_compare p (User.password u) = false) [p1; p2; p3; p4; p5] ->
    let calls := [(t1, p1); (t2, p2); (t3, p3); (t4, p4); (t5, p5)] in
    let u5 := fst (User.attempts calls u) in
    snd (User.attempts calls u) = List.map (fun _ => User.Returned false) calls
    /\ User.loginAttempts u5 = 5
    /\ User.lockUntil u5 = Some (t5 + 30 * 60 * 1000)
    /\ forall later : list (Z * string),
         Forall (fun c => fst c < t5 + 30 * 60 * 1000) later ->
         User.attempts later u5
         = (u5, List.map (fun _ => User.Thrown User.locked_message) later).
Proof.
  intros B u t1 t2 t3 t4 t5 p1 p2 p3 p4 p5 Ha Hl Hm Hw calls u5.
  repeat match goal with
         | Hw : Forall _ (_ :: _) |- _ => apply Forall_cons_1 in Hw; destruct Hw as [? Hw]
         end.
  assert (step : forall now p (v : User.t) n,
             User.password v = User.password u -> User.password_modified v = false ->
             User.loginAttempts v = n -> User.lockUntil v = None ->
             bcrypt_compare p (User.password u) = false ->
             let v' := User.handleFailedLogin now v in
             User.comparePassword now p v = (v', User.Returned false)
             /\ User.password v' = User.password u
             /\ User.password_modified v' = false
             /\ User.loginAttempts v' = n + 1
             /\ User.lockUntil v' = if 5 <=? n + 1 then Some (now + 30 * 60 * 1000) else None).
  { intros now p v n Hp Hd Hn Hk Hc v'.
    assert (Hnl : User.isLocked now v = false) by (unfold User.isLocked; by rewrite Hk).
    destruct (handleFailedLogin_fields now v Hd) as (Hp' & Hd' & Ha' & Hl').
    rewrite Hnl, Hn, Hk, andb_true_r in Hl'. rewrite Hn in Ha'.
    split; [apply comparePassword_wrong; [done | by rewrite Hp]|].
    subst v'. by rewrite Hp', Hp. }
  destruct (step t1 p1 u 0) as (E1 & P1 & M1 & A1 & L1); try done.
  destruct (step t2 p2 _ 1 P1 M1 A1 L1) as (E2 & P2 & M2 & A2 & L2); try done.
  destruct (step t3 p3 _ 2 P2 M2 A2 L2) as (E3 & P3 & M3 & A3 & L3); try done.
  destruct (step t4 p4 _ 3 P3 M3 A3 L3) as (E4 & P4 & M4 & A4 & L4); try done.
  destruct (step t5 p5 _ 4 P4 M4 A4 L4) as (E5 & P5 & M5 & A5 & L5); try done.
  assert (Eu : User.attempts calls u
               = (User.handleFailedLogin t5 (User.handleFailedLogin t4
                    (User.handleFailedLogin t3 (User.handleFailedLogin t2
                       (User.handleFailedLogin t1 u)))),
                  List.map (fun _ => User.Returned false) calls)).
  { unfold calls. simpl. rewrite E1, E2, E3, E4, E5. reflexivity. }
  subst u5. rewrite Eu. simpl fst. simpl snd.
  split; [reflexivity|]. split; [exact A5|]. split; [exact L5|].
  intros later Hlater. apply attempts_while_locked.
  eapply Forall_impl; [exact Hlater|].
  intros [now p] Hnow. cbn [fst] in Hnow |- *. unfold User.isLocked. rewrite L5.
  by apply Z.ltb_lt.
Qed.

Lemma five_failures_lock_witness :
  let calls := [(1000, "a"); (2000, "b"); (3000, "c"); (4000, "d"); (5000, "e")]%string in
  let u5 := fst (User.attempts (B := Sample.toy_bcrypt) calls Sample.alice) in
  User.lockUntil u5 = Some 1805000
  /\ User.attempts (B := Sample.toy_bcrypt) [(6000, "Secret1"); (1804999, "Secret1")]%string u5
     = (u5, [User.Thrown User.locked_message; User.Thrown User.locked_message]).
Proof.
  cbv zeta.
  destruct (five_failures_lock Sample.toy_bcrypt Sample.alice 1000 2000 3000 4000 5000
              "a" "b" "c" "d" "e" eq_refl eq_refl eq_refl) as (_ & _ & Hl & Hlater).
  - repeat constructor.
  - split; [exact Hl|].
    apply (Hlater [(6000, "Secret1"); (1804999, "Secret1")]%string).
    repeat constructor; simpl; lia.
Defined.

(** ** The authorization gate *)

Lemma substring_whole (s : string) : String.substring 0 (String.length s) s = s.
Proof. induction s as [|c s IH]; [reflexivity|]. simpl. by rewrite IH. Qed.

(** Taking [Bearer ] off the front of the header leaves the token. *)
Lemma replace_first_Bearer (token : string) :
  Auth.replace_first "Bearer " (String.append "Bearer " token) = token.
Proof.
  unfold Auth.replace_first. cbv [String.append]. simpl.
  replace (String.prefix "" token) with true by (by destruct token).
  simpl. rewrite ?Nat.sub_0_r. apply substring_whole.
Qed.

Lemma findById_None (users : list User.t) (id : ObjectId) :
  User.findById users id = None
  <-> forall u, u ∈ users -> User._id u = id -> User.isActive u = false.
Proof.
  unfold User.findById. split.
  - intros E u Hu Hid. apply list_elem_of_In in Hu.
    pose proof (find_none _ _ E u Hu) as Hn. simpl in Hn.
    apply String.eqb_eq in Hid. rewrite Hid in Hn. exact Hn.
  - intros Hall. destruct (List.find _ users) as [u|] eqn:E; [|reflexivity].
    apply find_some in E as [Hu Hb]. apply andb_true_iff in Hb as [Hid Ha].
    apply String.eqb_eq in Hid. apply list_elem_of_In in Hu.
    rewrite (Hall u Hu Hid) in Ha. discriminate Ha.
Qed.

Lemma findById_Some (users : list User.t) (id : ObjectId) (u : User.t) :
  User.findById users id = Some u ->
  u ∈ users /\ User._id u = id /\ User.isActive u = true.
Proof.
  unfold User.findById. intros E.
  apply find_some in E as [Hu Hb]. apply andb_true_iff in Hb as [Hid Ha].
  apply String.eqb_eq in Hid. by apply list_elem_of_In in Hu.
Qed.

(** A header that starts with [Bearer ] is [Bearer ] followed by the
    token. *)
Lemma prefix_append (p s : string) :
  String.prefix p s = true -> exists rest, s = String.append p rest.
Proof.
  revert s. induction p as [|a p IH]; intros s Hp; [by exists s|].
  destruct s as [|b s]; [discriminate Hp|]. simpl in Hp.
  destruct (Ascii.ascii_dec a b) as [->|]; [|discriminate Hp].
  destruct (IH s Hp) as [rest ->]. by exists rest.
Qed.

Lemma prefix_Bearer (token : string) :
  String.prefix "Bearer " (String.append "Bearer " token) = true.
Proof. cbv [String.append]. simpl. by destruct token. Qed.

Section GateFacts.
Context {J : Jwt} {M : Mongoose}.

(** The answer to a header that carries a token. *)
Lemma auth_token (users : list User.t) (token : string) :
  token <> ""%string ->
  Auth.auth users (Some (String.append "Bearer " token))
  = match jwt_verify token with
    | VerifyThrows name =>
        if String.eqb name "JsonWebTokenError"
        then Auth.Respond 401 "Invalid token"
        else if String.eqb name "TokenExpiredError"
        then Auth.Respond 401 "Token expired"
        else Auth.Respond 500 "Server error in authentication"
    | Decoded userId =>
        match castObjectId userId with
        | None => Auth.Respond 500 "Server error in authentication"
        | Some oid =>
            match User.findById users oid with
            | None => Auth.Respond 401 "Token is not valid - user not found"
            | Some u =>
                Auth.Next {| Auth.id := User._id u; Auth.name := User.name u;
                             Auth.email := User.email u; Auth.role := User.role u;
                             Auth.isVerified := User.isVerified u |}
            end
        end
    end.
Proof.
  intros Hne. unfold Auth.auth. rewrite prefix_Bearer. cbn [negb].
  rewrite replace_first_Bearer.
  destruct (String.eqb_spec token ""); [contradiction | reflexivity].
Qed.

(** The requests the gate answers with 500. *)
Lemma auth_500 (users : list User.t) (authHeader : option string) (message : string) :
  Auth.auth users authHeader = Auth.Respond 500 message
  <-> message = "Server error in authentication"%string
      /\ exists token,
           authHeader = Some (String.append "Bearer " token) /\ token <> ""%string
           /\ ((exists name, jwt_verify token = VerifyThrows name
                             /\ name <> "JsonWebTokenError"%string
                             /\ name <> "TokenExpiredError"%string)
               \/ (exists userId, jwt_verify token = Decoded userId
                                  /\ castObjectId userId = None)).
Proof.
  split.
  - destruct authHeader as [h|]; [|discriminate].
    destruct (String.prefix "Bearer " h) eqn:Hp;
      [|unfold Auth.auth; rewrite Hp; discriminate].
    apply prefix_append in Hp as [token ->].
    destruct (String.eqb_spec token "") as [->|Hne]; [discriminate|].
    rewrite (auth_token users token Hne).
    destruct (jwt_verify token) as [userId|name] eqn:Hv.
    + destruct (castObjectId userId) as [oid|] eqn:Hc.
      * destruct (User.findById users oid); discriminate.
      * intros [= <-]. split; [reflexivity|]. exists token. by eauto 10.
    + destruct (String.eqb_spec name "JsonWebTokenError"); [discriminate|].
      destruct (String.eqb_spec name "TokenExpiredError"); [discriminate|].
      intros [= <-]. split; [reflexivity|]. exists token. by eauto 10.
  - intros [-> (token & -> & Hne & [(name & Hv & H1 & H2)|(userId & Hv & Hc)])];
      rewrite (auth_token users token Hne), Hv.
    + destruct (String.eqb_spec name "JsonWebTokenError"); [done|].
      by destruct (String.eqb_spec name "TokenExpiredError").
    + by rewrite Hc.
Qed.

End GateFacts.

(** C6, as stated, fails: there are requests the gate neither answers
    with 401 nor lets through.  A token that is not valid yet
    (NotBeforeError) and a token that verifies but whose userId is no
    ObjectId (the query throws a CastError) are both answered with 500. *)
Lemma auth_answers_500 :
  let auth := Auth.auth (J := Sample.toy_jwt) (M := Sample.hex_cast) [Sample.alice] in
  let early := Some "Bearer early.64b000000000000000000001"%string in
  let no_id := Some "Bearer ok.alice"%string in
  auth early = Auth.Respond 500 "Server error in authentication"
  /\ auth no_id = Auth.Respond 500 "Server error in authentication"
  /\ (forall h, In h [early; no_id] ->
        (forall message, auth h <> Auth.Respond 401 message)
        /\ (forall i, auth h <> Auth.Next i)).
Proof.
  cbv zeta. split; [reflexivity|]. split; [reflexivity|].
  intros h [<-|[<-|[]]]; split; intros x E; vm_compute in E; discriminate E.
Qed.

(** C6, amended.  The gate answers 401 when the request has no
    Authorization header, when the header does not start with [Bearer ],
    when the token after it is empty, when verification of the token
    fails as malformed (JsonWebTokenError) or as expired
    (TokenExpiredError), and when the token verifies to an ObjectId that
    no active user has.  It answers 500 when verification fails with an
    error of another name and when the userId of the token does not cast
    to an ObjectId, and in no other case.  When the token verifies to the
    id of an active user, the gate attaches that user's id, name, email,
    role (and isVerified) to the request and passes control on.  Every
    request gets one of the three. *)
Theorem auth_gate :
  forall (J : Jwt) (M : Mongoose) (users : list User.t),
    Auth.auth users None = Auth.Respond 401 "No token provided, authorization denied"
    /\ (forall h, String.prefix "Bearer " h = false ->
          Auth.auth users (Some h)
          = Auth.Respond 401 "No token provided, authorization denied")
    /\ Auth.auth users (Some "Bearer ") = Auth.Respond 401 "No token, authorization denied"
    /\ (forall h, String.prefix "Bearer " h = true ->
          exists token, h = String.append "Bearer " token)
    /\ (forall token, token <> ""%string ->
          let answer := Auth.auth users (Some (String.append "Bearer " token)) in
          (jwt_verify token = VerifyThrows "JsonWebTokenError" ->
             answer = Auth.Respond 401 "Invalid token")
          /\ (jwt_verify token = VerifyThrows "TokenExpiredError" ->
                answer = Auth.Respond 401 "Token expired")
          /\ (forall name, jwt_verify token = VerifyThrows name ->
                name <> "JsonWebTokenError"%string ->
                name <> "TokenExpiredError"%string ->
                answer = Auth.Respond 500 "Server error in authentication")
          /\ (forall userId, jwt_verify token = Decoded userId ->
                (castObjectId userId = None ->
                 answer = Auth.Respond 500 "Server error in authentication")
                /\ (forall oid, castObjectId userId = Some oid ->
                      ((forall u, u ∈ users -> User._id u = oid ->
                                  User.isActive u = false) ->
                       answer = Auth.Respond 401 "Token is not valid - user not found")
                      /\ ((exists u, u ∈ users /\ User._id u = oid
                                     /\ User.isActive u = true) ->
                          exists u, u ∈ users /\ User._id u = oid
                                    /\ User.isActive u = true
                                    /\ answer
                                       = Auth.Next
                                           {| Auth.id := oid;
                                              Auth.name := User.name u;
                                              Auth.email := User.email u;
                                              Auth.role := User.role u;
                                              Auth.isVerified := User.isVerified u |}))))
    /\ (forall authHeader,
          (exists message, Auth.auth users authHeader = Auth.Respond 401 message)
          \/ Auth.auth users authHeader = Auth.Respond 500 "Server error in authentication"
          \/ (exists u, u ∈ users /\ User.isActive u = true
                        /\ Auth.auth users authHeader
                           = Auth.Next {| Auth.id := User._id u;
                                          Auth.name := User.name u;
                                          Auth.email := User.email u;
                                          Auth.role := User.role u;
                                          Auth.isVerified := User.isVerified u |}))
    /\ (forall authHeader,
          Auth.auth users authHeader = Auth.Respond 500 "Server error in authentication"
          <-> exists token,
                authHeader = Some (String.append "Bearer " token) /\ token <> ""%string
                /\ ((exists name, jwt_verify token = VerifyThrows name
                                  /\ name <> "JsonWebTokenError"%string
                                  /\ name <> "TokenExpiredError"%string)
                    \/ (exists userId, jwt_verify token = Decoded userId
                                       /\ castObjectId userId = None))).
Proof.
  intros J M users.
  assert (Hnone : Auth.auth users None
                  = Auth.Respond 401 "No token provided, authorization denied")
    by reflexivity.
  assert (Hother : forall h, String.prefix "Bearer " h = false ->
             Auth.auth users (Some h)
             = Auth.Respond 401 "No token provided, authorization denied").
  { intros h Hp. unfold Auth.auth. by rewrite Hp. }
  assert (Hempty : Auth.auth users (Some "Bearer ")
                   = Auth.Respond 401 "No token, authorization denied")
    by reflexivity.
  split; [exact Hnone|]. split; [exact Hother|]. split; [exact Hempty|].
  split; [intros h; apply prefix_append|]. split; [|split].
  - intros token Hne answer. subst answer. rewrite (auth_token users token Hne).
    split; [by intros ->|]. split; [by intros ->|]. split.
    + intros name -> H1 H2.
      destruct (String.eqb_spec name "JsonWebTokenError"); [done|].
      by destruct (String.eqb_spec name "TokenExpiredError").
    + intros userId ->. split; [by intros ->|].
      intros oid ->. split.
      * intros Hnobody. apply findById_None in Hnobody. by rewrite Hnobody.
      * intros (u & Hu & Hid & Ha).
        destruct (User.findById users oid) as [v|] eqn:Ev.
        -- apply findById_Some in Ev as (Hv & Hvid & Hva).
           exists v. rewrite Hvid. done.
        -- rewrite findById_None in Ev. rewrite (Ev u Hu Hid) in Ha. discriminate Ha.
  - intros [h|]; [|left; by eauto].
    destruct (String.prefix "Bearer " h) eqn:Hp; [|left; rewrite Hother; by eauto].
    apply prefix_append in Hp as [token ->].
    destruct (String.eqb_spec token "") as [->|Hne];
      [left; eexists; exact Hempty|].
    rewrite (auth_token users token Hne).
    destruct (jwt_verify token) as [userId|name].
    + destruct (castObjectId userId) as [oid|]; [|right; by left].
      destruct (User.findById users oid) as [u|] eqn:Eu; [|left; by eauto].
      apply findById_Some in Eu as (Hu & _ & Ha). right. right. by exists u.
    + destruct (String.eqb name "JsonWebTokenError"); [left; by eauto|].
      destruct (String.eqb name "TokenExpiredError"); [left; by eauto | right; by left].
  - intros authHeader. rewrite auth_500. split; [by intros [_ ?] | by split].
Qed.

(** The gate at work on two users, one of them deactivated. *)
Example auth_examples :
  let users := [Sample.alice; Sample.bob] in
  let auth := Auth.auth (J := Sample.toy_jwt) (M := Sample.hex_cast) users in
  auth (Some "Bearer ok.64b000000000000000000001")
  = Auth.Next {| Auth.id := Sample.alice_id; Auth.name := "Alice";
                 Auth.email := "alice@example.com"; Auth.role := User.user;
                 Auth.isVerified := true |}
  /\ auth (Some "Bearer ok.64B000000000000000000001")
     = Auth.Next {| Auth.id := Sample.alice_id; Auth.name := "Alice";
                    Auth.email := "alice@example.com"; Auth.role := User.user;
                    Auth.isVerified := true |}
  /\ auth (Some "Bearer ok.64b000000000000000000002")
     = Auth.Respond 401 "Token is not valid - user not found"
  /\ auth (Some "Bearer old.64b000000000000000000001") = Auth.Respond 401 "Token expired"
  /\ auth (Some "Bearer garbage") = Auth.Respond 401 "Invalid token"
  /\ auth (Some "Basic dXNlcjpwdw==")
     = Auth.Respond 401 "No token provided, authorization denied".
Proof. cbv zeta. repeat split. Qed.

(** ** Stored passwords and serialization *)

(** The transform drops its three keys whatever they held. *)
Lemma toJSON_omits now (u : User.t) :
  User.toJSON now u !! "password" = None
  /\ User.toJSON now u !! "loginAttempts" = None
  /\ User.toJSON now u !! "lockUntil" = None.
Proof.
  unfold User.toJSON, User.transform.
  split; [|split].
  - rewrite !lookup_delete_ne by done. apply lookup_delete_eq.
  - rewrite lookup_delete_ne by done. apply lookup_delete_eq.
  - apply lookup_delete_eq.
Qed.

(** Two documents that differ in the three fields only serialize alike
    once their [isLocked] virtuals agree. *)
Lemma toJSON_secrets now (u : User.t) (pw : string) (n : Z) (l : option Z) :
  User.isLocked now (User.set_lockUntil l u) = User.isLocked now u ->
  User.toJSON now (User.set_password pw (User.set_loginAttempts n (User.set_lockUntil l u)))
  = User.toJSON now u.
Proof.
  intros Hl. unfold User.toJSON, User.transform, User.plain_object.
  change (User.isLocked now
            (User.set_password pw (User.set_loginAttempts n (User.set_lockUntil l u))))
    with (User.isLocked now (User.set_lockUntil l u)).
  rewrite Hl.
  destruct u as [id nm em pw0 av ro ve ac ll la lu pr pf st cr up pc pm].
  cbn [list_to_map foldr uncurry fst snd User._id User.name User.email User.password
       User.avatar User.role User.isVerified User.isActive User.lastLogin
       User.loginAttempts User.lockUntil User.preferences User.profile User.statistics
       User.createdAt User.updatedAt User.fullName
       User.set_password User.set_loginAttempts User.set_lockUntil].
  repeat (rewrite delete_insert_ne by done).
  rewrite !delete_insert_eq.
  repeat (rewrite delete_insert_ne by done).
  rewrite !delete_insert_eq.
  repeat (rewrite delete_insert_ne by done).
  rewrite !delete_insert_eq.
  reflexivity.
Qed.

(** C8, as stated, fails on the lock: two users that differ in lockUntil
    only, one locked at the time and one not, serialize differently,
    because the serialization carries the virtual isLocked. *)
Lemma toJSON_shows_lock :
  let u := Sample.alice in
  let v := User.set_lockUntil (Some 9000) Sample.alice in
  User.toJSON 5000 u !! "isLocked" = Some (JBool false)
  /\ User.toJSON 5000 v !! "isLocked" = Some (JBool true)
  /\ User.toJSON 5000 u <> User.toJSON 5000 v.
Proof.
  cbv zeta. split; [reflexivity|]. split; [reflexivity|].
  intros E. apply (f_equal (fun m => m !! "isLocked")) in E.
  vm_compute in E. discriminate E.
Qed.

(** The serialization carries the virtual, and keeps every key of the
    plain object but the three. *)
Lemma toJSON_isLocked now (u : User.t) :
  User.toJSON now u !! "isLocked" = Some (JBool (User.isLocked now u)).
Proof. reflexivity. Qed.

Lemma toJSON_keeps now (u : User.t) (k : string) :
  k <> "password"%string -> k <> "loginAttempts"%string -> k <> "lockUntil"%string ->
  User.toJSON now u !! k = User.plain_object now u !! k.
Proof.
  intros H1 H2 H3. unfold User.toJSON, User.transform.
  by rewrite !lookup_delete_ne.
Qed.

(** C8, amended. After a save of a user whose password was set, the
    stored password is bcrypt's hash (cost 12) of the plaintext, which,
    bcrypt never returning its input, is not the plaintext.  Every JSON
    serialization of a user omits password, loginAttempts and lockUntil,
    keeps every other key of the document (its id, name, email and role
    among them), and carries the virtual isLocked, whose value is
    whether lockUntil lies in the future.  So two users that differ in
    those three fields only serialize identically exactly when one is
    locked when the other is; in particular they do when they differ in
    password and loginAttempts only. *)
Theorem stored_hash_and_serialization :
  forall (B : Bcrypt),
    (forall p, bcrypt_hash p 12 <> p) ->
    (forall now (u : User.t),
        User.password_modified u = true ->
        User.password (User.save now u) = bcrypt_hash (User.password u) 12
        /\ User.password (User.save now u) <> User.password u)
    /\ (forall now (u : User.t),
          User.toJSON now u !! "password" = None
          /\ User.toJSON now u !! "loginAttempts" = None
          /\ User.toJSON now u !! "lockUntil" = None)
    /\ (forall now (u : User.t),
          User.toJSON now u !! "isLocked" = Some (JBool (User.isLocked now u))
          /\ User.toJSON now u !! "_id" = Some (JStr (User._id u))
          /\ User.toJSON now u !! "name" = Some (JStr (User.name u))
          /\ User.toJSON now u !! "email" = Some (JStr (User.email u))
          /\ User.toJSON now u !! "role" = Some (JStr (User.role_str (User.role u)))
          /\ (forall k : string,
                k <> "password"%string -> k <> "loginAttempts"%string ->
                k <> "lockUntil"%string ->
                User.toJSON now u !! k = User.plain_object now u !! k))
    /\ (forall now (u : User.t) (pw : string) (n : Z) (l : option Z),
          User.toJSON now
            (User.set_password pw (User.set_loginAttempts n (User.set_lockUntil l u)))
          = User.toJSON now u
          <-> User.isLocked now (User.set_lockUntil l u) = User.isLocked now u)
    /\ (forall now (u : User.t) (pw : string) (n : Z),
          User.toJSON now (User.set_password pw (User.set_loginAttempts n u))
          = User.toJSON now u).
Proof.
  intros B Hfresh. split; [|split; [|split; [|split]]].
  - intros now u Hm.
    assert (E : User.password (User.save now u) = bcrypt_hash (User.password u) 12).
    { unfold User.save, User.pre_save_stamp, User.pre_save_hash. rewrite Hm. simpl.
      rewrite Hm. reflexivity. }
    split; [exact E|]. rewrite E. apply Hfresh.
  - apply toJSON_omits.
  - intros now u. split; [apply toJSON_isLocked|].
    split; [reflexivity|]. split; [reflexivity|]. split; [reflexivity|].
    split; [reflexivity|]. apply toJSON_keeps.
  - intros now u pw n l. split; [|apply toJSON_secrets].
    intros E. apply (f_equal (fun m => m !! "isLocked")) in E.
    rewrite !toJSON_isLocked in E. by injection E.
  - intros now u pw n.
    assert (Eu : User.set_lockUntil (User.lockUntil u) u = u) by (by destruct u).
    transitivity
      (User.toJSON now
         (User.set_password pw
            (User.set_loginAttempts n (User.set_lockUntil (User.lockUntil u) u)))).
    + by rewrite Eu.
    + apply toJSON_secrets. by rewrite Eu.
Qed.

Lemma stored_hash_and_serialization_witness :
  let fresh := User.set_password_modified true (User.set_password "Secret1" Sample.alice) in
  (forall p, bcrypt_hash (Bcrypt := Sample.toy_bcrypt) p 12 <> p)
  /\ User.password (User.save (B := Sample.toy_bcrypt) 5000 fresh) = "$2a$12$Secret1"%string
  /\ User.toJSON 5000 (User.set_password "x" (User.set_loginAttempts 3 Sample.alice))
     = User.toJSON 5000 Sample.alice
  /\ User.toJSON 5000 Sample.alice !! "isLocked" = Some (JBool false).
Proof.
  cbv zeta.
  assert (Hfresh : forall p, bcrypt_hash (Bcrypt := Sample.toy_bcrypt) p 12 <> p).
  { intros p E. apply (f_equal String.length) in E. simpl in E.
    cbv [String.append] in E. simpl in E. lia. }
  split; [exact Hfresh|].
  destruct (stored_hash_and_serialization Sample.toy_bcrypt Hfresh)
    as (Hs & _ & Hk & _ & Hj).
  split; [|split].
  - apply (Hs 5000 (User.set_password_modified true (User.set_password "Secret1" Sample.alice))).
    reflexivity.
  - apply Hj.
  - exact (proj1 (Hk 5000 Sample.alice)).
Defined.

(** * Further properties *)

(** ** Logging in *)

Section LoginMore.
Context {B : Bcrypt}.

Lemma comparePassword_right now candidate (u : User.t) :
  User.password_modified u = false ->
  0 <= User.loginAttempts u ->
  User.isLocked now u = false ->
  bcrypt_compare candidate (User.password u) = true ->
  exists u',
    User.comparePassword now candidate u = (u', User.Returned true)
    /\ User.password u' = User.password u
    /\ User.password_modified u' = false
    /\ User.loginAttempts u' = 0
    /\ User.lockUntil u' = None
    /\ User.lastLogin u' = Some now.
Proof.
  intros Hm Ha Hl Hc. unfold User.comparePassword. rewrite Hl, Hc. cbn [negb].
  eexists. split; [reflexivity|].
  destruct u as [id nm em pw av ro ve ac ll la lu pr pf st cr up pc pm].
  simpl in *. subst pm.
  destruct lu as [until|]; simpl.
  - rewrite orb_true_r. simpl. done.
  - rewrite orb_false_r. destruct (0 <? la) eqn:E; simpl; [done|].
    apply Z.ltb_ge in E. repeat split; try done. lia.
Qed.

Lemma comparePassword_keeps now candidate (u : User.t) :
  User.counters_ok u ->
  User.counters_ok (fst (User.comparePassword now candidate u))
  /\ User.password (fst (User.comparePassword now candidate u)) = User.password u.
Proof.
  intros (Hm & Ha & Hk).
  destruct (User.isLocked now u) eqn:Hl.
  { unfold User.comparePassword. rewrite Hl. done. }
  destruct (bcrypt_compare candidate (User.password u)) eqn:Hc.
  - destruct (comparePassword_right now candidate u Hm Ha Hl Hc)
      as (u' & E & Hp & Hm' & Ha' & Hk' & _).
    rewrite E. simpl. repeat split; try done; try lia.
    rewrite Hk'. by intros [? ?].
  - rewrite (comparePassword_wrong now candidate u Hl Hc). simpl.
    destruct (handleFailedLogin_fields now u Hm) as (Hp & Hm' & Ha' & Hk').
    rewrite Hl in Hk'. cbn [negb] in Hk'. rewrite andb_true_r in Hk'.
    repeat split; try done; try lia.
    rewrite Hk', Ha'. destruct (5 <=? User.loginAttempts u + 1) eqn:E.
    + intros _. by apply Z.leb_le.
    + intros Hs. specialize (Hk Hs). lia.
Qed.

Lemma attempts_keep (calls : list (Z * string)) (u : User.t) :
  User.counters_ok u ->
  User.counters_ok (fst (User.attempts calls u))
  /\ User.password (fst (User.attempts calls u)) = User.password u.
Proof.
  revert u. induction calls as [|[now candidate] calls IH]; intros u Hu; [done|].
  simpl. destruct (comparePassword_keeps now candidate u Hu) as [Hu1 Hp1].
  destruct (User.comparePassword now candidate u) as [u1 o] eqn:E1. simpl in *.
  destruct (IH u1 Hu1) as [Hu2 Hp2].
  destruct (User.attempts calls u1) as [u2 os] eqn:E2. simpl in *.
  split; [done | congruence].
Qed.

End LoginMore.

(** X4. A correct password on a stored record that is not locked (its
    counter not negative) returns true and leaves the record with
    loginAttempts 0, no lockUntil, lastLogin at the time of the call and
    the same stored hash: the count of failures starts again. *)
Theorem login_resets_counter :
  forall (B : Bcrypt) (now : Z) (candidate : string) (u : User.t),
    User.password_modified u = false ->
    0 <= User.loginAttempts u ->
    User.isLocked now u = false ->
    bcrypt_compare candidate (User.password u) = true ->
    exists u',
      User.comparePassword now candidate u = (u', User.Returned true)
      /\ User.password u' = User.password u
      /\ User.loginAttempts u' = 0
      /\ User.lockUntil u' = None
      /\ User.lastLogin u' = Some now.
Proof.
  intros B now candidate u Hm Ha Hl Hc.
  destruct (comparePassword_right now candidate u Hm Ha Hl Hc)
    as (u' & E & Hp & _ & Ha' & Hk' & Hll).
  by exists u'.
Qed.

Lemma login_resets_counter_witness :
  let u := User.set_lockUntil (Some 4000) (User.set_loginAttempts 5 Sample.alice) in
  exists u',
    User.comparePassword (B := Sample.toy_bcrypt) 5000 "Secret1" u = (u', User.Returned true)
    /\ User.password u' = User.password u
    /\ User.loginAttempts u' = 0
    /\ User.lockUntil u' = None
    /\ User.lastLogin u' = Some 5000.
Proof.
  cbv zeta.
  apply (login_resets_counter Sample.toy_bcrypt 5000 "Secret1"
           (User.set_lockUntil (Some 4000) (User.set_loginAttempts 5 Sample.alice)));
    [reflexivity | simpl; lia | reflexivity | reflexivity].
Defined.

(** X5. Whatever calls of comparePassword a stored record meets, at
    whatever times and with whatever candidates, its stored hash stays
    the same, its counter stays at 0 or above, and it carries a lockUntil
    only with five failures or more on record. *)
Theorem logins_keep_counters :
  forall (B : Bcrypt) (calls : list (Z * string)) (u : User.t),
    User.counters_ok u ->
    let u' := fst (User.attempts calls u) in
    User.password u' = User.password u
    /\ User.password_modified u' = false
    /\ 0 <= User.loginAttempts u'
    /\ (is_Some (User.lockUntil u') -> 5 <= User.loginAttempts u').
Proof.
  intros B calls u Hu u'. subst u'.
  destruct (attempts_keep calls u Hu) as [(Hm & Ha & Hk) Hp]. done.
Qed.

Lemma logins_keep_counters_witness :
  let calls := [(1000, "a"); (2000, "Secret1"); (3000, "b"); (4000, "c")]%string in
  let u' := fst (User.attempts (B := Sample.toy_bcrypt) calls Sample.alice) in
  User.counters_ok Sample.alice
  /\ User.password u' = "$2a$12$Secret1"%string
  /\ User.password_modified u' = false
  /\ 0 <= User.loginAttempts u'
  /\ (is_Some (User.lockUntil u') -> 5 <= User.loginAttempts u').
Proof.
  cbv zeta.
  assert (Hok : User.counters_ok Sample.alice).
  { unfold User.counters_ok. simpl. split; [reflexivity|]. split; [lia|]. by intros [? ?]. }
  split; [exact Hok|].
  exact (logins_keep_counters Sample.toy_bcrypt
           [(1000, "a"); (2000, "Secret1"); (3000, "b"); (4000, "c")]%string
           Sample.alice Hok).
Defined.

(** X6. The counter is not reset when a lock runs out: on a stored
    record with five failures or more on record whose lock has expired,
    one more wrong password returns false and locks the account at once,
    for 30 minutes from that call. *)
Theorem wrong_password_after_expiry_locks_again :
  forall (B : Bcrypt) (now until : Z) (candidate : string) (u : User.t),
    User.password_modified u = false ->
    5 <= User.loginAttempts u ->
    User.lockUntil u = Some until ->
    until <= now ->
    bcrypt_compare candidate (User.password u) = false ->
    let u' := fst (User.comparePassword now candidate u) in
    snd (User.comparePassword now candidate u) = User.Returned false
    /\ User.loginAttempts u' = User.loginAttempts u + 1
    /\ User.lockUntil u' = Some (now + 30 * 60 * 1000).
Proof.
  intros B now until candidate u Hm Ha Hk Hexp Hc u'. subst u'.
  assert (Hl : User.isLocked now u = false).
  { unfold User.isLocked. rewrite Hk. by apply Z.ltb_ge. }
  rewrite (comparePassword_wrong now candidate u Hl Hc). simpl.
  destruct (handleFailedLogin_fields now u Hm) as (_ & _ & Ha' & Hk').
  rewrite Hl in Hk'. cbn [negb] in Hk'. rewrite andb_true_r in Hk'.
  replace (5 <=? User.loginAttempts u + 1) with true in Hk'
    by (symmetry; apply Z.leb_le; lia).
  done.
Qed.

Lemma wrong_password_after_expiry_locks_again_witness :
  let u := User.set_lockUntil (Some 4000) (User.set_loginAttempts 5 Sample.alice) in
  let u' := fst (User.comparePassword (B := Sample.toy_bcrypt) 5000 "guess" u) in
  User.loginAttempts u' = 6 /\ User.lockUntil u' = Some 1805000.
Proof.
  cbv zeta.
  destruct (wrong_password_after_expiry_locks_again Sample.toy_bcrypt 5000 4000 "guess"
              (User.set_lockUntil (Some 4000) (User.set_loginAttempts 5 Sample.alice)))
    as (_ & Ha & Hk); [reflexivity | simpl; lia | reflexivity | lia | reflexivity |].
  split; [exact Ha | exact Hk].
Defined.

(** ** The public profile and the user statistics *)

(** X7. The public profile of a user has exactly the ten public fields,
    and depends on nothing else: not on the clock, and not on password,
    loginAttempts, lockUntil or lastLogin.  (Unlike the JSON
    serialization, it carries no isLocked.) *)
Theorem getPublicProfile_public_only :
  forall (now now' : Z) (u : User.t) (pw : string) (n : Z) (l ll : option Z),
    dom (User.getPublicProfile now u) = list_to_set User.publicFields
    /\ User.getPublicProfile now u !! "isLocked" = None
    /\ User.getPublicProfile now'
         (User.set_password pw
            (User.set_loginAttempts n (User.set_lockUntil l (User.set_lastLogin ll u))))
       = User.getPublicProfile now u.
Proof.
  intros now now' u pw n l ll.
  unfold User.getPublicProfile, User.toObject, User.transform, User.plain_object.
  split; [|split]; reflexivity.
Qed.

Lemma count_users_le (f : User.t -> bool) (users : list User.t) :
  0 <= User.count_users f users <= Z.of_nat (length users).
Proof.
  unfold User.count_users. pose proof (filter_length_le f users). lia.
Qed.

(** X8. The user statistics are null exactly when the collection is
    empty.  Otherwise totalUsers counts every user, inactive ones
    included, activeUsers is the number of users findActiveUsers returns,
    and activeUsers, verifiedUsers and admins each lie between 0 and
    totalUsers; averageTasksCreated is the sum of the tasksCreated
    counters divided by totalUsers. *)
Theorem getUserStats_counts :
  forall (N : Type) (HN : Number N) (users : list User.t),
    (User.getUserStats (N := N) users = None <-> users = [])
    /\ (forall s : User.UserStats N, User.getUserStats users = Some s ->
          User.totalUsers s = Z.of_nat (length users)
          /\ 0 < User.totalUsers s
          /\ User.activeUsers s = Z.of_nat (length (User.findActiveUsers users))
          /\ 0 <= User.activeUsers s <= User.totalUsers s
          /\ 0 <= User.verifiedUsers s <= User.totalUsers s
          /\ 0 <= User.admins s <= User.totalUsers s
          /\ User.averageTasksCreated s
             = div (of_Z (fold_left (fun acc u => acc + User.tasksCreated (User.statistics u))
                            users 0))
                   (of_Z (User.totalUsers s))).
Proof.
  intros N HN users. split.
  - destruct users; simpl; split; intros E; congruence.
  - intros s E. destruct users as [|u users]; [discriminate E|].
    injection E as <-. cbn [User.totalUsers User.activeUsers User.verifiedUsers
                              User.admins User.averageTasksCreated].
    repeat split; try apply count_users_le; try (simpl; lia).
    unfold User.count_users, User.findActiveUsers. do 2 f_equal.
    apply filter_ext. intros v. by destruct (User.isActive v).
Qed.

(** ** Archiving and overdue tasks *)

(** X9. On a task that validates at the time of the call, archive
    goes through: the task is archived with archivedAt the time of the
    call, and findById no longer returns it from a collection that holds
    it.  A later unarchive of it, if the task still validates then,
    clears both and findById returns the task again; if the task no
    longer validates, unarchive throws and stores nothing. *)
Theorem archive_hides_unarchive_restores :
  forall (N : Type) (HN : Number N) (now later : Z) (users users' : list User.t)
         (d : Task.t N),
    Task.validate now users d = true ->
    exists a,
      Task.archive now users d = (a, true)
      /\ Task.isArchived a = true /\ Task.archivedAt a = Some now
      /\ Task._id a = Task._id d
      /\ Task.findById [a] (Task._id d) = None
      /\ (Task.validate later users' a = true ->
          exists r,
            Task.unarchive later users' a = (r, true)
            /\ Task.isArchived r = false /\ Task.archivedAt r = None
            /\ Task.findById [r] (Task._id d) = Some r)
      /\ (Task.validate later users' a = false ->
          snd (Task.unarchive later users' a) = false).
Proof.
  intros N HN now later users users' d Hv.
  set (d1 := Task.set_archivedAt (Some now) (Task.set_isArchived true d)).
  assert (Hv1 : Task.validate now users d1 = true) by exact Hv.
  exists (Task.save now d1).
  destruct (save_keeps now d1) as (Hi1 & _ & _ & _ & _ & _ & _ & _ & _ & _ & _ & _ & Ha1 & _).
  destruct (save_consistent now d1) as (_ & _ & _ & Hx1).
  specialize (Hx1 (or_intror (ex_intro _ now eq_refl))).
  change (Task._id d1) with (Task._id d) in Hi1.
  change (Task.isArchived d1) with true in Ha1.
  change (Task.archivedAt d1) with (Some now) in Hx1.
  split; [unfold Task.archive, Task.try_save; fold d1; by rewrite Hv1|].
  generalize dependent (Task.save now d1). intros a Hi1 Ha1 Hx1.
  split; [exact Ha1|]. split; [exact Hx1|]. split; [exact Hi1|].
  split; [unfold Task.findById; cbn [List.find]; rewrite Ha1; by rewrite andb_false_r|].
  set (d2 := Task.set_archivedAt None (Task.set_isArchived false a)).
  assert (Ev : Task.validate later users' d2 = Task.validate later users' a)
    by reflexivity.
  split.
  - intros Hv2. exists (Task.save later d2).
    destruct (save_keeps later d2)
      as (Hi2 & _ & _ & _ & _ & _ & _ & _ & _ & _ & _ & _ & Ha2 & _).
    destruct (save_consistent later d2) as (_ & _ & _ & Hx2).
    specialize (Hx2 (or_introl eq_refl)).
    change (Task._id d2) with (Task._id a) in Hi2.
    change (Task.isArchived d2) with false in Ha2.
    change (Task.archivedAt d2) with (@None Z) in Hx2.
    split; [unfold Task.unarchive, Task.try_save; fold d2; by rewrite Ev, Hv2|].
    split; [exact Ha2|]. split; [exact Hx2|].
    unfold Task.findById. cbn [List.find].
    by rewrite Hi2, Hi1, String.eqb_refl, Ha2.
  - intros Hv2. unfold Task.unarchive, Task.try_save. fold d2. by rewrite Ev, Hv2.
Qed.

Lemma archive_hides_unarchive_restores_witness :
  exists a r : Task.t Q,
    Task.validate 5000 [Sample.alice] Sample.half_done = true
    /\ Task.archive 5000 [Sample.alice] Sample.half_done = (a, true)
    /\ Task.findById [a] Sample.task_id = None
    /\ Task.unarchive 6000 [Sample.alice] a = (r, true)
    /\ Task.findById [r] Sample.task_id = Some r.
Proof.
  assert (Hv : Task.validate (N := Q) 5000 [Sample.alice] Sample.half_done = true)
    by reflexivity.
  destruct (archive_hides_unarchive_restores Q _ 5000 6000 [Sample.alice] [Sample.alice]
              Sample.half_done Hv)
    as (a & Ea & _ & _ & _ & Hf & Hun & _).
  assert (Hv' : Task.validate 6000 [Sample.alice] a = true).
  { injection Ea as <-. reflexivity. }
  destruct (Hun Hv') as (r & Er & _ & _ & Hr).
  exists a, r. split; [exact Hv|]. split; [exact Ea|].
  split; [exact Hf|]. split; [exact Er | exact Hr].
Defined.

(** X20. A task that is overdue, whose due date has passed whatever its
    status, one of whose reminders has passed, or whose creator is no
    longer an active user cannot be updated through the model: the
    validation every save starts with rejects it, so archive, unarchive,
    addTimeLog, addAttachment and removeAttachment throw, addComment
    throws, updateComment never returns a comment, and no update
    completes. *)
Theorem stale_task_cannot_be_saved :
  forall (N : Type) (HN : Number N) (M : Mongoose) (now : Z) (users : list User.t)
         (d : Task.t N),
    Task.isOverdue now d = true
    \/ (exists due, Task.dueDate d = Some due /\ due <= now)
    \/ (exists date, date ∈ Task.reminders d /\ date <= now)
    \/ Task.active_user users (Task.createdBy d) = false ->
    snd (Task.archive now users d) = false
    /\ snd (Task.unarchive now users d) = false
    /\ (forall timeLogData, snd (Task.addTimeLog now users timeLogData d) = false)
    /\ (forall attachmentData, snd (Task.addAttachment now users attachmentData d) = false)
    /\ (forall attachmentId, snd (Task.removeAttachment now users attachmentId d) = false)
    /\ (forall new_id commentData,
          snd (Task.addComment now users new_id commentData d) = Task.CommentInvalid)
    /\ (forall commentId text userId comment,
          snd (Task.updateComment now users commentId text userId d)
          <> Task.CommentReturned comment)
    /\ (forall d', ~ Task.Updates now users d d').
Proof.
  intros N HN M now users d Hstale.
  assert (Hstale' : (exists due, Task.dueDate d = Some due /\ due <= now)
                    \/ (exists date, date ∈ Task.reminders d /\ date <= now)
                    \/ Task.active_user users (Task.createdBy d) = false).
  { destruct Hstale as [Ho|Hrest]; [|exact Hrest]. left.
    unfold Task.isOverdue in Ho. destruct (Task.dueDate d) as [due|]; [|discriminate Ho].
    exists due. split; [reflexivity|].
    destruct (_ || _); [discriminate Ho|]. apply Z.ltb_lt in Ho. lia. }
  clear Hstale. rename Hstale' into Hstale.
  assert (Hno : forall d0 : Task.t N,
             Task.dueDate d0 = Task.dueDate d -> Task.reminders d0 = Task.reminders d ->
             Task.createdBy d0 = Task.createdBy d ->
             Task.validate now users d0 = false).
  { intros d0 Hdue Hrem Hcb. destruct (Task.validate now users d0) eqn:Hv; [|reflexivity].
    apply validate_true in Hv as (Hd & Hc & _ & Hr & _).
    rewrite Hdue in Hd. rewrite Hcb in Hc. rewrite Hrem in Hr.
    destruct Hstale as [(due & E & Hle)|[(date & Hin & Hle)|Hc']].
    - specialize (Hd due E). lia.
    - rewrite Forall_forall in Hr. specialize (Hr date Hin). lia.
    - congruence. }
  assert (Hsave : forall d0 : Task.t N,
             Task.dueDate d0 = Task.dueDate d -> Task.reminders d0 = Task.reminders d ->
             Task.createdBy d0 = Task.createdBy d ->
             Task.try_save now users d0 = (d0, false)).
  { intros d0 H1 H2 H3. unfold Task.try_save. by rewrite (Hno d0 H1 H2 H3). }
  assert (Harchive : snd (Task.archive now users d) = false).
  { unfold Task.archive. by rewrite Hsave. }
  split; [exact Harchive|].
  split; [unfold Task.unarchive; by rewrite Hsave|].
  split; [intros log; unfold Task.addTimeLog; by rewrite Hsave|].
  split; [intros a; unfold Task.addAttachment; by rewrite Hsave|].
  split; [intros a; unfold Task.removeAttachment; by rewrite Hsave|].
  split; [intros new_id data; unfold Task.addComment; by rewrite Hsave|].
  split.
  { intros commentId text userId comment. unfold Task.updateComment.
    destruct (castObjectId commentId ≫= _) as [c|]; [|done].
    destruct (Task.c_user c) as [author|]; [|done].
    destruct (negb (String.eqb author userId)); [done|].
    by rewrite Hsave. }
  intros d' Hu. apply Updates_save in Hu as (d0 & _ & Hv & H1 & H2 & H3 & _).
  by rewrite (Hno d0 H1 H2 H3) in Hv.
Qed.

Lemma stale_task_cannot_be_saved_witness :
  let late : Task.t Q :=
    Sample.task Sample.task_id Sample.alice_id Task.pending (Some 1200) false 10 5 in
  Task.isOverdue 5000 late = true
  /\ Task.archive 5000 [Sample.alice] late
     = (Task.set_archivedAt (Some 5000) (Task.set_isArchived true late), false)
  /\ snd (Task.addTimeLog 5000 [Sample.alice] (Sample.log 30) late) = false.
Proof.
  cbv zeta.
  destruct (stale_task_cannot_be_saved Q _ Sample.hex_cast 5000 [Sample.alice]
              (Sample.task Sample.task_id Sample.alice_id Task.pending (Some 1200)
                 false 10 5))
    as (_ & _ & Hlog & _).
  { left. reflexivity. }
  split; [reflexivity|]. split; [reflexivity | apply Hlog].
Defined.


(** ** The counts of the statistics *)

Section CountFacts.
Context {N : Type} {HN : Number N}.

Lemma count_if_cons {A} (f : A -> bool) (x : A) (l : list A) :
  Task.count_if f (x :: l) = (if f x then 1 else 0) + Task.count_if f l.
Proof. unfold Task.count_if. simpl. destruct (f x); simpl; lia. Qed.

Lemma count_if_nonneg {A} (f : A -> bool) (l : list A) : 0 <= Task.count_if f l.
Proof. unfold Task.count_if. lia. Qed.

Lemma count_if_disjoint {A} (f g : A -> bool) (l : list A) :
  (forall x, f x = true -> g x = false) ->
  Task.count_if f l + Task.count_if g l <= Z.of_nat (length l).
Proof.
  intros Hfg. induction l as [|x l IH]; [unfold Task.count_if; simpl; lia|].
  rewrite !count_if_cons. cbn [length]. specialize (Hfg x).
  destruct (f x), (g x); first [lia | by specialize (Hfg eq_refl)].
Qed.

Lemma by_status_add_up (l : list (Task.Status * Task.Priority)) :
  Task.count_if (fun e => Task.status_eqb (fst e) Task.pending) l
  + Task.count_if (fun e => Task.status_eqb (fst e) Task.in_progress) l
  + Task.count_if (fun e => Task.status_eqb (fst e) Task.completed) l
  + Task.count_if (fun e => Task.status_eqb (fst e) Task.cancelled) l
  + Task.count_if (fun e => Task.status_eqb (fst e) Task.on_hold) l
  = Z.of_nat (length l).
Proof.
  induction l as [|[s p] l IH]; [reflexivity|].
  rewrite !count_if_cons. cbn [length fst]. destruct s; simpl; lia.
Qed.

Lemma by_priority_add_up (l : list (Task.Status * Task.Priority)) :
  Task.count_if (fun e => Task.priority_eqb (snd e) Task.low) l
  + Task.count_if (fun e => Task.priority_eqb (snd e) Task.medium) l
  + Task.count_if (fun e => Task.priority_eqb (snd e) Task.high) l
  + Task.count_if (fun e => Task.priority_eqb (snd e) Task.urgent) l
  = Z.of_nat (length l).
Proof.
  induction l as [|[s p] l IH]; [reflexivity|].
  rewrite !count_if_cons. cbn [length snd]. destruct p; simpl; lia.
Qed.

Lemma count_if_map {A B} (g : A -> B) (f : B -> bool) (l : list A) :
  Task.count_if f (List.map g l) = Task.count_if (fun x => f (g x)) l.
Proof.
  induction l as [|x l IH]; [reflexivity|].
  simpl List.map. rewrite !count_if_cons, IH. reflexivity.
Qed.

End CountFacts.

(** X11. In the statistics Task.getTaskStats returns, the five entries of
    statusBreakdown add up to totalTasks and so do the four entries of
    priorityBreakdown; the entry of completed is completedTasks; and
    completedTasks and overdueTasks are not negative and together at most
    totalTasks (no task is counted both completed and overdue). *)
Theorem getTaskStats_breakdowns_add_up :
  forall (N : Type) (HN : Number N) (HR : MongoRound N) (now : Z)
         (userId : option ObjectId) (tasks : list (Task.t N)) (s : Task.Stats N),
    Task.getTaskStats now userId tasks = Some s ->
    let by_status k := default 0 (Task.statusBreakdown s !! k) in
    let by_priority k := default 0 (Task.priorityBreakdown s !! k) in
    by_status "pending"%string + by_status "in-progress"%string
    + by_status "completed"%string + by_status "cancelled"%string
    + by_status "on-hold"%string = Task.totalTasks s
    /\ by_priority "low"%string + by_priority "medium"%string
       + by_priority "high"%string + by_priority "urgent"%string = Task.totalTasks s
    /\ Task.statusBreakdown s !! "completed" = Some (Task.completedTasks s)
    /\ 0 <= Task.completedTasks s
    /\ 0 <= Task.overdueTasks s
    /\ Task.completedTasks s + Task.overdueTasks s <= Task.totalTasks s.
Proof.
  intros N HN HR now userId tasks s E by_status by_priority.
  unfold Task.getTaskStats in E.
  destruct (List.filter (Task.matchStage userId) tasks) as [|d rest] eqn:Em;
    [discriminate E|].
  injection E as <-. subst by_status by_priority.
  generalize (d :: rest). clear. intros matched.
  unfold Task.project_stage, Task.group_stage.
  cbn [Task.statusBreakdown Task.priorityBreakdown Task.totalTasks Task.completedTasks
       Task.overdueTasks Task.g_totalTasks Task.g_completedTasks Task.g_overdueTasks
       Task.g_tasksByStatus].
  set (l := List.map (fun d => (Task.status d, Task.priority d)) matched).
  assert (Hl : length matched = length l) by (unfold l; by rewrite length_map).
  split; [|split; [|split; [|split; [|split]]]].
  - rewrite Hl, <- (by_status_add_up l). reflexivity.
  - rewrite Hl, <- (by_priority_add_up l). reflexivity.
  - transitivity (Some (Task.count_if (fun e => Task.status_eqb (fst e) Task.completed) l));
      [reflexivity|].
    f_equal. unfold l.
    exact (count_if_map (fun d => (Task.status d, Task.priority d))
             (fun e => Task.status_eqb (fst e) Task.completed) matched).
  - apply count_if_nonneg.
  - apply count_if_nonneg.
  - apply count_if_disjoint. intros x Hx. by rewrite Hx.
Qed.

Lemma getTaskStats_breakdowns_add_up_witness :
  let tasks : list (Task.t Q) :=
    [Sample.task "a" Sample.alice_id Task.completed None false 4 5;
     Sample.task "b" Sample.alice_id Task.pending (Some 1200) false 4 1;
     Sample.task "c" Sample.alice_id Task.on_hold None false 4 0] in
  exists s, Task.getTaskStats 5000 (Some Sample.alice_id) tasks = Some s
            /\ Task.statusBreakdown s !! "completed" = Some (Task.completedTasks s)
            /\ Task.completedTasks s + Task.overdueTasks s <= Task.totalTasks s.
Proof.
  cbv zeta. eexists. split; [reflexivity|].
  pose proof (getTaskStats_breakdowns_add_up Q _ _ 5000 (Some Sample.alice_id)
                [Sample.task "a" Sample.alice_id Task.completed None false 4 5;
                 Sample.task "b" Sample.alice_id Task.pending (Some 1200) false 4 1;
                 Sample.task "c" Sample.alice_id Task.on_hold None false 4 0]
                _ eq_refl) as (_ & _ & Hc & _ & _ & Hle).
  split; [exact Hc | exact Hle].
Defined.

Section ControllerStatsFacts.
Context {N : Type} {HN : Number N}.

Lemma tasks_by_status_add_up (l : list (Task.t N)) :
  Task.count_if (fun d => Task.status_eqb (Task.status d) Task.pending) l
  + Task.count_if (fun d => Task.status_eqb (Task.status d) Task.in_progress) l
  + Task.count_if (fun d => Task.status_eqb (Task.status d) Task.completed) l
  + Task.count_if (fun d => Task.status_eqb (Task.status d) Task.cancelled) l
  + Task.count_if (fun d => Task.status_eqb (Task.status d) Task.on_hold) l
  = Z.of_nat (length l).
Proof.
  induction l as [|d l IH]; [reflexivity|].
  rewrite !count_if_cons. cbn [length]. destruct (Task.status d); simpl; lia.
Qed.

Lemma filter_length_within {A} (p q : A -> bool) (l : list A) :
  (forall x, p x = true -> q x = true) ->
  (length (List.filter p l) <= length (List.filter q l))%nat.
Proof.
  intros Hpq. induction l as [|x l IH]; [done|]. simpl.
  specialize (Hpq x).
  destruct (p x), (q x); simpl; first [lia | by specialize (Hpq eq_refl)].
Qed.

End ControllerStatsFacts.

(** The object [formattedStats] for given counts of the five statuses. *)
Lemma formatStats_lookup (c1 c2 c3 c4 c5 : Z) :
  0 <= c1 -> 0 <= c2 -> 0 <= c3 -> 0 <= c4 -> 0 <= c5 ->
  let fs :=
    TaskController.formatStats
      (List.filter (fun e => 0 <? snd e)
         [("pending", c1); ("in-progress", c2); ("completed", c3);
          ("cancelled", c4); ("on-hold", c5)]%string) in
  fs !! "total" = Some (c1 + c2 + c3 + c4 + c5)
  /\ fs !! "pending" = Some c1
  /\ fs !! "in-progress" = Some c2
  /\ fs !! "completed" = Some c3
  /\ fs !! "cancelled" = Some c4
  /\ fs !! "on-hold" = (if 0 <? c5 then Some c5 else None)
  /\ fs !! "overdue" = None.
Proof.
  intros H1 H2 H3 H4 H5. unfold TaskController.formatStats.
  cbn [List.filter snd].
  destruct (0 <? c1) eqn:E1, (0 <? c2) eqn:E2, (0 <? c3) eqn:E3,
    (0 <? c4) eqn:E4, (0 <? c5) eqn:E5;
    rewrite ?Z.ltb_lt, ?Z.ltb_ge in *;
    cbv zeta; cbn [fold_left fst snd];
    unfold TaskController.stat, TaskController.initialStats;
    repeat split;
    repeat first [rewrite lookup_insert_eq | rewrite lookup_insert_ne by done
                 | rewrite lookup_empty];
    cbn [default from_option]; unfold id; try reflexivity; f_equal; lia.
Qed.

(** X12. In the statistics of the controller, total is the number of
    tasks the requester created or is assigned (archived ones included),
    the keys pending, in-progress, completed and cancelled are always
    there with the count of their status, and overdue lies between 0 and
    total.  The key on-hold is there only when the requester has a task
    on hold; total counts those tasks all the same. *)
Theorem controller_stats_keys :
  forall (N : Type) (HN : Number N) (now : Z) (req_user_id : ObjectId)
         (tasks : list (Task.t N)),
    let stats := TaskController.getTaskStats now req_user_id tasks in
    let mine := List.filter (Task.involves req_user_id) tasks in
    let count s := Task.count_if (fun d => Task.status_eqb (Task.status d) s) mine in
    stats !! "total" = Some (Z.of_nat (length mine))
    /\ stats !! "pending" = Some (count Task.pending)
    /\ stats !! "in-progress" = Some (count Task.in_progress)
    /\ stats !! "completed" = Some (count Task.completed)
    /\ stats !! "cancelled" = Some (count Task.cancelled)
    /\ stats !! "on-hold"
       = (if 0 <? count Task.on_hold then Some (count Task.on_hold) else None)
    /\ (exists overdue, stats !! "overdue" = Some overdue
                        /\ 0 <= overdue <= Z.of_nat (length mine)).
Proof.
  intros N HN now req_user_id tasks stats mine count. subst stats.
  unfold TaskController.getTaskStats, TaskController.status_counts, Task.countDocuments.
  fold mine. cbn [List.map Task.statuses Task.status_str].
  destruct (formatStats_lookup (count Task.pending) (count Task.in_progress)
              (count Task.completed) (count Task.cancelled) (count Task.on_hold))
    as (Ht & Hp & Hi & Hc & Hx & Hh & _); try apply count_if_nonneg.
  unfold count in Ht. cbv beta in Ht. rewrite (tasks_by_status_add_up mine) in Ht.
  rewrite !lookup_insert_ne by done.
  repeat split; try done.
  eexists. split; [apply lookup_insert_eq|].
  split; [lia|]. apply inj_le, filter_length_within.
  intros d. unfold TaskController.overdue_filter.
  by destruct (Task.involves req_user_id d).
Qed.

(** ** The optional gate and the admin gate *)

(** X13. Whenever the gate lets a request through, the optional gate
    attaches the same identity; the optional gate attaches an identity
    only for a header that starts with [Bearer ] whose token verifies to
    a userId that casts to the id of an active user, which, the empty
    token apart, is when the gate lets the request through.  The admin
    gate after the optional gate passes only for such a request whose
    user has the role admin. *)
Theorem optionalAuth_attaches :
  forall (J : Jwt) (M : Mongoose) (users : list User.t) (authHeader : option string),
    (forall i, Auth.auth users authHeader = Auth.Next i ->
               Auth.optionalAuth users authHeader = Some i)
    /\ (forall i, Auth.optionalAuth users authHeader = Some i ->
          exists h userId u,
            authHeader = Some h /\ String.prefix "Bearer " h = true
            /\ jwt_verify (Auth.replace_first "Bearer " h) = Decoded userId
            /\ castObjectId userId = Some (User._id u)
            /\ u ∈ users /\ User.isActive u = true
            /\ Auth.id i = User._id u /\ Auth.role i = User.role u
            /\ (Auth.replace_first "Bearer " h <> ""%string ->
                Auth.auth users authHeader = Auth.Next i))
    /\ (Auth.admin (Auth.optionalAuth users authHeader) = Auth.Pass ->
          exists i, Auth.optionalAuth users authHeader = Some i
                    /\ Auth.role i = User.admin).
Proof.
  intros J M users authHeader. split; [|split].
  - intros i. unfold Auth.auth, Auth.optionalAuth.
    destruct authHeader as [h|]; [|discriminate].
    destruct (String.prefix "Bearer " h); cbn [negb]; [|discriminate].
    destruct (String.eqb (Auth.replace_first "Bearer " h) ""); [discriminate|].
    destruct (jwt_verify (Auth.replace_first "Bearer " h)) as [userId|name].
    + destruct (castObjectId userId) as [oid|]; [|discriminate]. cbn [mbind option_bind].
      destruct (User.findById users oid); [|discriminate]. congruence.
    + case_ifs; discriminate.
  - intros i. unfold Auth.auth, Auth.optionalAuth.
    destruct authHeader as [h|]; [|discriminate].
    destruct (String.prefix "Bearer " h) eqn:Hp; cbn [negb]; [|discriminate].
    destruct (jwt_verify (Auth.replace_first "Bearer " h)) as [userId|name] eqn:Hv;
      [|discriminate].
    destruct (castObjectId userId) as [oid|] eqn:Hc; [|discriminate].
    cbn [mbind option_bind].
    destruct (User.findById users oid) as [u|] eqn:Hu; [|discriminate].
    intros [= <-]. apply findById_Some in Hu as (Hin & Hid & Ha).
    exists h, userId, u. rewrite Hid. repeat split; try done.
    intros Hne. destruct (String.eqb_spec (Auth.replace_first "Bearer " h) ""); done.
  - unfold Auth.admin. destruct (Auth.optionalAuth users authHeader) as [i|];
      [|discriminate].
    intros Hr. exists i. split; [reflexivity|]. by destruct (Auth.role i).
Qed.

(** ** Reading and deleting a task *)

(** X14. With the identity the gate attaches, getTask never answers with
    the task and deleteTask never deletes: each answers 404, 500 or 403,
    and deleteTask leaves the collection as it was, because each test of
    the requester compares a string with the ObjectId in req.user.id. *)
Theorem getTask_deleteTask_refuse :
  forall (N : Type) (HN : Number N) (M : Mongoose) (users : list User.t)
         (req_user_id : ObjectId) (id : string) (tasks : list (Task.t N)),
    (exists status message,
        TaskController.getTask users req_user_id id tasks
        = TaskController.Refused status message
        /\ (status = 404 \/ status = 500 \/ status = 403))
    /\ snd (TaskController.deleteTask users req_user_id id tasks) = tasks
    /\ (exists status message,
          fst (TaskController.deleteTask users req_user_id id tasks)
          = TaskController.Failure status message
          /\ (status = 404 \/ status = 500 \/ status = 403)).
Proof.
  intros N HN M users req_user_id id tasks.
  unfold TaskController.getTask, TaskController.deleteTask.
  assert (Hs : forall status : Z,
             status = 404 \/ status = 500 \/ status = 403 ->
             forall message, exists s m,
               TaskController.Refused (N := N) status message = TaskController.Refused s m
               /\ (s = 404 \/ s = 500 \/ s = 403)) by eauto.
  assert (Hf : forall status : Z,
             status = 404 \/ status = 500 \/ status = 403 ->
             forall message, exists s m,
               TaskController.Failure (N := N) status message = TaskController.Failure s m
               /\ (s = 404 \/ s = 500 \/ s = 403)) by eauto.
  destruct (castObjectId id) as [oid|];
    [destruct (Task.findById tasks oid) as [task|];
       [destruct (TaskController.populate users (Task.createdBy task));
          [destruct (Task.assignedTo task ≫= TaskController.populate users)|]|]|];
    simpl; (split; [apply Hs; auto | split; [reflexivity | apply Hf; auto]]).
Qed.

(** ** Creating a task *)

Section CreateFacts.
Context {N : Type} {HN : Number N} {M : Mongoose}.

#[local] Instance newest_first_trans : Transitive (TaskController.newest_first (N := N)).
Proof. intros a b c. unfold TaskController.newest_first. lia. Qed.

#[local] Instance newest_first_total : Total (TaskController.newest_first (N := N)).
Proof. intros a b. unfold TaskController.newest_first. lia. Qed.

Lemma find_snoc (f : Task.t N -> bool) tasks d :
  f d = true -> Task.isArchived d = false ->
  Task.find f (tasks ++ [d]) = Task.find f tasks ++ [d].
Proof.
  intros Hf Ha. unfold Task.find. rewrite List.filter_app. simpl. by rewrite Hf, Ha.
Qed.

Lemma countDocuments_snoc (f : Task.t N -> bool) tasks d :
  f d = true ->
  Task.countDocuments f (tasks ++ [d]) = S (Task.countDocuments f tasks).
Proof.
  intros Hf. unfold Task.countDocuments. rewrite List.filter_app, length_app. simpl.
  rewrite Hf. simpl. lia.
Qed.

(** The newest document is the first of the sorted list. *)
Lemma newest_is_first (l : list (Task.t N)) d :
  Forall (fun t => Task.createdAt t < Task.createdAt d) l ->
  exists rest, merge_sort TaskController.newest_first (l ++ [d]) = d :: rest.
Proof.
  intros Hold.
  pose proof (merge_sort_Permutation TaskController.newest_first (l ++ [d])) as Hp.
  pose proof (StronglySorted_merge_sort TaskController.newest_first (l ++ [d])) as Hs.
  destruct (merge_sort TaskController.newest_first (l ++ [d])) as [|h rest].
  { apply Permutation_length in Hp. rewrite length_app in Hp. simpl in Hp. lia. }
  exists rest. f_equal.
  assert (Hh : h ∈ l ++ [d]) by (rewrite <- Hp; apply list_elem_of_here).
  apply elem_of_app in Hh as [Hh|Hh]; [|by apply list_elem_of_singleton in Hh].
  exfalso.
  assert (Hd : d ∈ h :: rest) by (rewrite Hp; apply elem_of_app; right; apply list_elem_of_here).
  rewrite Forall_forall in Hold. specialize (Hold h Hh).
  apply elem_of_cons in Hd as [->|Hd]; [lia|].
  apply StronglySorted_inv in Hs as [_ Hall].
  rewrite Forall_forall in Hall. specialize (Hall d Hd).
  unfold TaskController.newest_first in Hall. lia.
Qed.

(** What the document built from a body takes from where. *)
Lemma new_task_Some now new_id req_user_id (b : TaskController.NewTask N) (d : Task.t N) :
  TaskController.new_task now new_id req_user_id b = Some d ->
  (TaskController.b__id b = None -> Task._id d = new_id)
  /\ (forall s, TaskController.b__id b = Some s -> castObjectId s = Some (Task._id d))
  /\ (forall s, TaskController.b_assignedTo b = Some s ->
        castObjectId s = Task.assignedTo d)
  /\ Task.createdBy d = req_user_id
  /\ Task.title d = Task.js_trim (default ""%string (TaskController.b_title b))
  /\ Task.timeLogs d = TaskController.b_timeLogs b
  /\ Task.createdAt d = default now (TaskController.b_createdAt b)
  /\ Task.isArchived d = default false (TaskController.b_isArchived b).
Proof.
  unfold TaskController.new_task, TaskController.cast_key.
  destruct (TaskController.b__id b) as [s|];
    [destruct (castObjectId s) as [oid|] eqn:Ei; [|discriminate]|];
    (destruct (TaskController.b_assignedTo b) as [a|];
       [destruct (castObjectId a) as [aid|] eqn:Ea; [|discriminate]|]);
    cbn; intros [= <-]; cbn; repeat split; try done; congruence.
Qed.

(** What the handler has checked when it answers with a task. *)
Lemma createTask_Success now users req_user_id new_id (b : TaskController.NewTask N)
    (tasks tasks' : list (Task.t N)) message d :
  TaskController.createTask now users req_user_id new_id b tasks
  = (TaskController.Success message (Some d), tasks') ->
  exists d0,
    TaskController.new_task now new_id req_user_id b = Some d0
    /\ d = Task.pre_save now d0 /\ tasks' = tasks ++ [d]
    /\ message = "Task created successfully"%string
    /\ TaskController.taskValidation b = true
    /\ Task.validate now users d0 = true
    /\ TaskController.holds_id tasks (Task._id d0) = false.
Proof.
  unfold TaskController.createTask. intros E.
  destruct (TaskController.taskValidation b) eqn:Hv; cbn [negb] in E; [|discriminate E].
  destruct (TaskController.new_task now new_id req_user_id b) as [d0|];
    [|discriminate E].
  destruct (Task.validate now users d0) eqn:Hd; cbn [negb orb] in E; [|discriminate E].
  destruct (TaskController.holds_id tasks (Task._id d0)) eqn:Hh; [discriminate E|].
  injection E as <- <- <-. by exists d0.
Qed.

End CreateFacts.

(** X15. A task createTask answers with has been appended to the
    collection.  Its id is the one the body names, cast, or else the one
    drawn, and no task of the collection had it.  Its creator is the
    requester, an active user, whatever creator the body names.  Its
    title is the trimmed title of the body and has 1 to 100 characters.
    The task validates at the time of the call: its hours are between 0
    and 1000 and its due date, if any, is in the future, so it is not
    overdue.  Its time logs are those of the body, and its createdAt is
    the one the body names or else the time of the call.  completedAt
    is set exactly when its status is completed, and archivedAt is set
    when it is archived. *)
Theorem createTask_creates :
  forall (N : Type) (HN : Number N) (M : Mongoose) (now : Z) (users : list User.t)
         (req_user_id new_id : ObjectId) (b : TaskController.NewTask N)
         (tasks tasks' : list (Task.t N)) (message : string) (d : Task.t N),
    TaskController.createTask now users req_user_id new_id b tasks
    = (TaskController.Success message (Some d), tasks') ->
    tasks' = tasks ++ [d]
    /\ (TaskController.b__id b = None -> Task._id d = new_id)
    /\ (forall s, TaskController.b__id b = Some s -> castObjectId s = Some (Task._id d))
    /\ Forall (fun t => Task._id t <> Task._id d) tasks
    /\ Task.createdBy d = req_user_id
    /\ Task.active_user users req_user_id = true
    /\ Task.title d = Task.js_trim (default ""%string (TaskController.b_title b))
    /\ (1 <= String.length (Task.title d) <= 100)%nat
    /\ Task.validate now users d = true
    /\ Task.valid_hours (Task.estimatedHours d) = true
    /\ Task.valid_hours (Task.actualHours d) = true
    /\ (forall due, Task.dueDate d = Some due -> now < due)
    /\ Task.isOverdue now d = false
    /\ Task.timeLogs d = TaskController.b_timeLogs b
    /\ Task.createdAt d = default now (TaskController.b_createdAt b)
    /\ Task.completion_consistent d
    /\ (Task.isArchived d = true -> is_Some (Task.archivedAt d)).
Proof.
  intros N HN M now users req_user_id new_id b tasks tasks' message d E.
  apply createTask_Success in E as (d0 & Hnew & -> & -> & _ & Htv & Hv & Hh).
  apply new_task_Some in Hnew as (Hid & Hid' & _ & Hcb & Hti & Htl & Hcr & _).
  destruct (pre_save_keeps now d0)
    as (Ki & Kt & _ & _ & Kd & _ & Kc & Ke & Ka & Kl & _ & _ & _ & Kr).
  pose proof (validate_pre_save now users d0 Hv) as Hv'.
  destruct (validate_true now users _ Hv') as (Hdue & Hact & _ & _ & _ & _ & Heh & Hah & _).
  destruct (pre_save_archival now d0) as (Hi & Hset & _).
  split; [reflexivity|]. split; [rewrite Ki; exact Hid|].
  split; [rewrite Ki; exact Hid'|].
  split.
  { rewrite Ki. apply Forall_forall. intros t Ht Eq.
    unfold TaskController.holds_id in Hh.
    assert (Hex : existsb (fun d => String.eqb (Task._id d) (Task._id d0)) tasks = true).
    { apply existsb_exists. exists t. split; [by apply list_elem_of_In|].
      by apply String.eqb_eq. }
    congruence. }
  split; [by rewrite Kc|]. split; [by rewrite Kc, Hcb in Hact|].
  split; [by rewrite Kt|].
  split.
  { rewrite Kt, Hti. unfold TaskController.taskValidation in Htv.
    do 4 (apply andb_true_iff in Htv as [Htv _]).
    apply andb_true_iff in Htv as [H1 H2].
    split; [by apply Nat.leb_le | by apply Nat.leb_le]. }
  split; [exact Hv'|]. split; [exact Heh|]. split; [exact Hah|].
  split; [exact Hdue|].
  split.
  { unfold Task.isOverdue.
    destruct (Task.dueDate (Task.pre_save now d0)) as [due|] eqn:Edue; [|reflexivity].
    specialize (Hdue due eq_refl). case_ifs; [reflexivity|]. apply Z.ltb_ge. lia. }
  split; [by rewrite Kl|]. split; [by rewrite Kr|].
  split; [apply pre_save_completion|].
  rewrite Hi. exact Hset.
Qed.

Lemma createTask_creates_witness :
  exists d : Task.t Q,
    TaskController.createTask (M := Sample.hex_cast) 5000 [Sample.alice] Sample.alice_id
      Sample.new_id Sample.body [Sample.half_done]
    = (TaskController.Success "Task created successfully" (Some d), [Sample.half_done; d])
    /\ Task.title d = "Write spec"%string
    /\ Task.tags d = ["docs"; "q3"]%string
    /\ Task.createdBy d = Sample.alice_id
    /\ Task.completion_consistent d
    /\ Task.isOverdue 5000 d = false.
Proof.
  eexists. split; [reflexivity|].
  pose proof (createTask_creates Q _ Sample.hex_cast 5000 [Sample.alice] Sample.alice_id
                Sample.new_id Sample.body [Sample.half_done] _ _ _ eq_refl)
    as (_ & _ & _ & _ & Hcb & _ & _ & _ & _ & _ & _ & _ & Hov & _ & _ & Hca & _).
  split; [reflexivity|]. split; [reflexivity|].
  split; [exact Hcb|]. split; [exact Hca | exact Hov].
Defined.

(** X16. A task createTask has just stored, unarchived and newer than
    every task of the collection (as it is when the body names no
    createdAt and every task was created before the call), heads the
    first page of the list its creator asks for next, under any status
    and priority filter it matches and any page size, and the total of
    that list is one more than it was. *)
Theorem created_task_heads_the_list :
  forall (N : Type) (HN : Number N) (M : Mongoose) (now : Z) (users : list User.t)
         (req_user_id new_id : ObjectId) (b : TaskController.NewTask N)
         (tasks tasks' : list (Task.t N)) (message : string) (d : Task.t N)
         (q : TaskController.ListQuery),
    TaskController.createTask now users req_user_id new_id b tasks
    = (TaskController.Success message (Some d), tasks') ->
    Task.isArchived d = false ->
    Forall (fun t => Task.createdAt t < Task.createdAt d) tasks ->
    default 1%nat (TaskController.q_page q) = 1%nat ->
    TaskController.narrowed (TaskController.q_status q) (Task.status_str (Task.status d)) = true ->
    TaskController.narrowed (TaskController.q_priority q)
      (Task.priority_str (Task.priority d)) = true ->
    (TaskController.b_createdAt b = None -> Task.createdAt d = now)
    /\ exists rest pagination,
         TaskController.getTasks req_user_id q tasks'
         = TaskController.ListOk (d :: rest) pagination
         /\ TaskController.totalTasks pagination
            = S (Task.countDocuments (TaskController.list_filter req_user_id q) tasks).
Proof.
  intros N HN M now users req_user_id new_id b tasks tasks' message d q E Ha Hold Hpage Hs Hp.
  apply createTask_Success in E as (d0 & Hnew & -> & -> & _).
  apply new_task_Some in Hnew as (_ & _ & _ & Hcb & _ & _ & Hcr & _).
  destruct (pre_save_keeps now d0)
    as (_ & _ & _ & _ & _ & _ & Kc & _ & _ & _ & _ & _ & _ & Kr).
  set (d := Task.pre_save now d0) in *.
  split; [intros Hnone; by rewrite Kr, Hcr, Hnone|].
  assert (Hf : TaskController.list_filter req_user_id q d = true).
  { unfold TaskController.list_filter, Task.involves.
    rewrite Kc, Hcb, String.eqb_refl, Hs, Hp. reflexivity. }
  unfold TaskController.getTasks. rewrite Hpage. cbn [Nat.eqb andb].
  rewrite (find_snoc _ tasks d Hf Ha), (countDocuments_snoc _ tasks d Hf).
  destruct (newest_is_first (Task.find (TaskController.list_filter req_user_id q) tasks) d)
    as [rest Hrest].
  { rewrite Forall_forall in Hold |- *. intros t Ht.
    apply list_elem_of_In in Ht. unfold Task.find in Ht. apply filter_In in Ht as [Ht _].
    apply Hold. by apply list_elem_of_In. }
  rewrite Hrest. unfold TaskController.page_of. cbn [Nat.sub Nat.mul drop].
  destruct (default 10%nat (TaskController.q_limit q)) as [|k]; cbn [Nat.eqb take];
    eexists _, _; split; reflexivity.
Qed.

Lemma created_task_heads_the_list_witness :
  exists (d : Task.t Q) (rest : list (Task.t Q)) pagination,
    TaskController.createTask (N := Q) (M := Sample.hex_cast) 5000 [Sample.alice]
      Sample.alice_id Sample.new_id Sample.body [Sample.half_done]
    = (TaskController.Success "Task created successfully" (Some d),
       [Sample.half_done; d])
    /\ Task.createdAt d = 5000
    /\ TaskController.getTasks Sample.alice_id Sample.plain_query [Sample.half_done; d]
       = TaskController.ListOk (d :: rest) pagination
    /\ TaskController.totalTasks pagination = 2%nat.
Proof.
  eexists.
  match goal with
  | |- exists rest pagination, ?c = (TaskController.Success _ (Some ?d), _) /\ _ =>
      assert (E : c = (TaskController.Success "Task created successfully" (Some d),
                       [Sample.half_done; d])) by reflexivity
  end.
  destruct (created_task_heads_the_list Q _ Sample.hex_cast 5000 [Sample.alice]
              Sample.alice_id Sample.new_id Sample.body [Sample.half_done]
              _ "Task created successfully" _ Sample.plain_query E)
    as (Hcr & rest & pagination & Hg & Ht);
    [reflexivity | repeat constructor | reflexivity | reflexivity | reflexivity |].
  exists rest, pagination. split; [exact E|]. split; [exact (Hcr eq_refl)|].
  split; [exact Hg | exact Ht].
Defined.

(** ** Comments *)

Lemma comment_by_id_id commentId comments c :
  Task.comment_by_id commentId comments = Some c -> Task.c_id c = commentId.
Proof.
  unfold Task.comment_by_id. intros E. apply find_some in E as [_ E].
  by apply String.eqb_eq.
Qed.

Lemma put_comment_length edited comments :
  length (Task.put_comment edited comments) = length comments.
Proof.
  induction comments as [|c comments IH]; [reflexivity|]. simpl.
  destruct (String.eqb (Task.c_id c) (Task.c_id edited)); simpl; congruence.
Qed.

Lemma put_comment_others edited comments (i : nat) c :
  comments !! i = Some c -> Task.c_id c <> Task.c_id edited ->
  Task.put_comment edited comments !! i = Some c.
Proof.
  revert i. induction comments as [|x comments IH]; intros i Hi Hne; [done|].
  simpl. destruct (String.eqb_spec (Task.c_id x) (Task.c_id edited)) as [Ex|Ex].
  - destruct i as [|i]; simpl in *; [|done]. congruence.
  - destruct i as [|i]; simpl in *; [done|]. by apply IH.
Qed.

Lemma put_comment_found edited comments c :
  Task.comment_by_id (Task.c_id edited) comments = Some c ->
  Task.comment_by_id (Task.c_id edited) (Task.put_comment edited comments) = Some edited.
Proof.
  unfold Task.comment_by_id.
  induction comments as [|x comments IH]; [done|]. simpl.
  destruct (String.eqb (Task.c_id x) (Task.c_id edited)) eqn:Ex; simpl.
  - intros _. by rewrite String.eqb_refl.
  - rewrite Ex. exact IH.
Qed.

Lemma comment_by_id_snoc commentId comments c :
  Task.comment_by_id commentId comments = None ->
  Task.c_id c = commentId ->
  Task.comment_by_id commentId (comments ++ [c]) = Some c.
Proof.
  unfold Task.comment_by_id. intros Hn Hc.
  induction comments as [|x comments IH]; simpl in *.
  - by rewrite Hc, String.eqb_refl.
  - destruct (String.eqb (Task.c_id x) commentId); [discriminate Hn | by apply IH].
Qed.

Section CommentFacts.
Context {N : Type} {HN : Number N} {M : Mongoose}.

Lemma put_comment_valid edited comments :
  Task.valid_comment edited = true ->
  forallb Task.valid_comment comments = true ->
  forallb Task.valid_comment (Task.put_comment edited comments) = true.
Proof.
  intros He. induction comments as [|c comments IH]; [done|]. simpl.
  intros Hc. apply andb_true_iff in Hc as [Hc Hcs].
  destruct (String.eqb (Task.c_id c) (Task.c_id edited)); simpl.
  - by rewrite He, Hcs.
  - by rewrite Hc, IH.
Qed.

(** Validation reads the comments through their validators only. *)
Lemma validate_set_comments now users (d : Task.t N) comments :
  Task.validate now users d = true ->
  forallb Task.valid_comment comments = true ->
  Task.validate now users (Task.set_comments comments d) = true.
Proof.
  unfold Task.validate. intros Hv Hc.
  cbn [Task.set_comments Task.title Task.description Task.dueDate Task.assignedTo
       Task.createdBy Task.tags Task.attachments Task.estimatedHours Task.actualHours
       Task.completedAt Task.timeLogs Task.comments Task.reminders].
  do 12 (apply andb_true_iff in Hv as [Hv ?]).
  rewrite Hc.
  repeat match goal with H : ?b = true |- context [?b] => rewrite H end.
  reflexivity.
Qed.

Lemma validate_comments now users (d : Task.t N) :
  Task.validate now users d = true ->
  forallb Task.valid_comment (Task.comments d) = true.
Proof.
  unfold Task.validate. intros Hv.
  do 12 (apply andb_true_iff in Hv as [Hv ?]). done.
Qed.

(** The save at the end of [updateComment] and of [addComment]. *)
Lemma try_save_cases now users (d : Task.t N) :
  Task.try_save now users d
  = if Task.validate now users d then (Task.save now d, true) else (d, false).
Proof. reflexivity. Qed.

End CommentFacts.

(** X17. updateComment throws [Comment not found] for an id that does
    not cast or that no comment has, and [Not authorized to update this
    comment] for a comment of another user; it changes nothing in either
    case.  For the author, the comment gets the trimmed text, the time
    of the call as updatedAt and the mark edited, and the task is saved:
    when the task so edited validates (as it does when the task
    validated and the trimmed text has 1 to 500 characters), the call
    returns the edited comment, the comments keep their number and their
    places, every comment with another id is untouched, and the id now
    finds the edited comment; when it does not validate, the call throws
    the validation error and nothing is stored. *)
Theorem updateComment_cases :
  forall (N : Type) (HN : Number N) (M : Mongoose) (now : Z) (users : list User.t)
         (commentId text userId : string) (d : Task.t N),
    let found :=
      castObjectId commentId ≫= (fun oid => Task.comment_by_id oid (Task.comments d)) in
    (found = None ->
     Task.updateComment now users commentId text userId d
     = (d, Task.CommentThrown "Comment not found"))
    /\ (forall c author, found = Some c -> Task.c_user c = Some author ->
          author <> userId ->
          Task.updateComment now users commentId text userId d
          = (d, Task.CommentThrown "Not authorized to update this comment"))
    /\ (forall c, found = Some c -> Task.c_user c = Some userId ->
          let edited :=
            {| Task.c_id := Task.c_id c; Task.c_user := Some userId;
               Task.content := Some (Task.js_trim text);
               Task.c_createdAt := Task.c_createdAt c;
               Task.c_updatedAt := now; Task.isEdited := true |} in
          let d1 := Task.set_comments (Task.put_comment edited (Task.comments d)) d in
          (Task.validate now users d = true ->
           Task.valid_content (Task.js_trim text) = true ->
           Task.validate now users d1 = true)
          /\ (Task.validate now users d1 = false ->
              Task.updateComment now users commentId text userId d
              = (d1, Task.CommentInvalid))
          /\ (Task.validate now users d1 = true ->
              exists d',
                Task.updateComment now users commentId text userId d
                = (d', Task.CommentReturned edited)
                /\ Task.comments d' = Task.put_comment edited (Task.comments d)
                /\ length (Task.comments d') = length (Task.comments d)
                /\ (forall (i : nat) other,
                      Task.comments d !! i = Some other ->
                      Task.c_id other <> Task.c_id c ->
                      Task.comments d' !! i = Some other)
                /\ Task.comment_by_id (Task.c_id c) (Task.comments d') = Some edited)).
Proof.
  intros N HN M now users commentId text userId d found.
  unfold Task.updateComment. fold found. split; [|split].
  - by intros ->.
  - intros c author -> -> Hne.
    by destruct (String.eqb_spec author userId).
  - intros c Hc Hu.
    assert (Hin : Task.comment_by_id (Task.c_id c) (Task.comments d) = Some c).
    { unfold found in Hc. destruct (castObjectId commentId) as [oid|]; [|discriminate Hc].
      cbn [mbind option_bind] in Hc.
      by rewrite (comment_by_id_id _ _ _ Hc). }
    rewrite Hc, Hu, String.eqb_refl. cbn [negb].
    set (edited := {| Task.c_id := Task.c_id c; Task.c_user := Some userId;
                      Task.content := Some (Task.js_trim text);
                      Task.c_createdAt := Task.c_createdAt c;
                      Task.c_updatedAt := now; Task.isEdited := true |}).
    set (d1 := Task.set_comments (Task.put_comment edited (Task.comments d)) d).
    rewrite try_save_cases.
    split; [|split].
    + intros Hv Ht. apply validate_set_comments; [exact Hv|].
      apply put_comment_valid; [|by apply validate_comments in Hv].
      unfold Task.valid_comment. cbn [Task.c_user Task.content edited].
      rewrite Ht. by rewrite bool_decide_eq_true_2 by eauto.
    + by intros ->.
    + intros ->. eexists. split; [reflexivity|].
      destruct (save_keeps now d1)
        as (_ & _ & _ & _ & _ & _ & _ & _ & _ & _ & Kc & _).
      rewrite Kc. cbn [d1 Task.comments Task.set_comments].
      split; [reflexivity|]. split; [apply put_comment_length|]. split.
      * intros i other Hi Hne. by apply put_comment_others.
      * by apply (put_comment_found edited _ c).
Qed.

(** X18. A comment of a user with a text, added to a task that
    validates (the trimmed text of 1 to 500 characters, the id drawn for
    it new among the comments), is returned as the last of the comments:
    unedited, created at the time of the call, with the trimmed text and
    its author.  Afterwards updateComment on its id throws [Not
    authorized to update this comment] for every other user; for the
    author, when the task still validates, it returns the comment with
    the new text (trimmed, of 1 to 500 characters) and the mark edited,
    the number of comments unchanged.  A comment handed over with more
    keys keeps them: an entry that comes marked edited stays so. *)
Theorem added_comment_is_its_authors :
  forall (N : Type) (HN : Number N) (M : Mongoose) (now later : Z)
         (users users' : list User.t) (new_id user : ObjectId)
         (text : string) (d : Task.t N),
    Task.comment_by_id new_id (Task.comments d) = None ->
    castObjectId new_id = Some new_id ->
    Task.validate now users d = true ->
    Task.valid_content (Task.js_trim text) = true ->
    let commentData :=
      {| Task.cd_id := None; Task.cd_user := Some user; Task.cd_content := Some text;
         Task.cd_createdAt := None; Task.cd_updatedAt := None;
         Task.cd_isEdited := None |} in
    exists c d1,
      Task.addComment now users new_id commentData d = (d1, Task.CommentReturned c)
      /\ Task.comments d1 = Task.comments d ++ [c]
      /\ Task.c_id c = new_id /\ Task.c_user c = Some user
      /\ Task.content c = Some (Task.js_trim text)
      /\ Task.isEdited c = false /\ Task.c_createdAt c = now
      /\ (forall other text', other <> user ->
            Task.updateComment later users' new_id text' other d1
            = (d1, Task.CommentThrown "Not authorized to update this comment"))
      /\ (forall text',
            Task.validate later users' d1 = true ->
            Task.valid_content (Task.js_trim text') = true ->
            exists edited d2,
              Task.updateComment later users' new_id text' user d1
              = (d2, Task.CommentReturned edited)
              /\ Task.content edited = Some (Task.js_trim text')
              /\ Task.c_user edited = Some user
              /\ Task.isEdited edited = true
              /\ length (Task.comments d2) = S (length (Task.comments d)))
      /\ (forall data : Task.CommentData,
            Task.cd_isEdited data = Some true ->
            Task.isEdited (Task.new_comment now new_id data) = true).
Proof.
  intros N HN M now later users users' new_id user text d Hnew Hcast Hv Ht commentData.
  set (c := Task.new_comment now new_id commentData).
  set (d0 := Task.set_comments (Task.comments d ++ [c]) d).
  assert (Hvc : Task.valid_comment c = true).
  { unfold Task.valid_comment. cbn. by rewrite Ht. }
  assert (Hv0 : Task.validate now users d0 = true).
  { apply validate_set_comments; [exact Hv|].
    rewrite forallb_app, (validate_comments now users d Hv). cbn [forallb].
    by rewrite Hvc. }
  exists c, (Task.save now d0).
  assert (Hcs : Task.comments (Task.save now d0) = Task.comments d ++ [c]).
  { destruct (save_keeps now d0) as (_ & _ & _ & _ & _ & _ & _ & _ & _ & _ & Kc & _).
    by rewrite Kc. }
  assert (Hfound : castObjectId new_id
                   ≫= (fun oid => Task.comment_by_id oid
                                    (Task.comments (Task.save now d0)))
                   = Some c).
  { rewrite Hcast, Hcs. cbn [mbind option_bind]. by apply comment_by_id_snoc. }
  split.
  { unfold Task.addComment. fold c. fold d0. rewrite try_save_cases, Hv0. reflexivity. }
  split; [exact Hcs|].
  split; [reflexivity|]. split; [reflexivity|]. split; [reflexivity|].
  split; [reflexivity|]. split; [reflexivity|].
  split; [|split].
  - intros other text' Hne. unfold Task.updateComment. rewrite Hfound.
    cbn [Task.c_user c Task.new_comment commentData Task.cd_user].
    by destruct (String.eqb_spec user other); [congruence|].
  - intros text' Hv1 Ht'. unfold Task.updateComment. rewrite Hfound.
    cbn [Task.c_user c Task.new_comment commentData Task.cd_user].
    rewrite String.eqb_refl. cbn [negb].
    match goal with
    | |- context [Task.try_save later users' ?x] =>
        set (d1 := x);
        assert (Hv2 : Task.validate later users' d1 = true)
    end.
    { apply validate_set_comments; [exact Hv1|].
      apply put_comment_valid; [|by apply validate_comments in Hv1].
      unfold Task.valid_comment. cbn. by rewrite Ht'. }
    rewrite try_save_cases, Hv2. eexists _, _. split; [reflexivity|].
    split; [reflexivity|]. split; [reflexivity|]. split; [reflexivity|].
    destruct (save_keeps later d1) as (_ & _ & _ & _ & _ & _ & _ & _ & _ & _ & Kc & _).
    rewrite Kc. cbn [d1 Task.comments Task.set_comments].
    rewrite put_comment_length, Hcs, length_app. simpl. lia.
  - intros data He. unfold Task.new_comment. cbn [Task.isEdited]. by rewrite He.
Qed.

Lemma added_comment_is_its_authors_witness :
  exists c d1,
    Task.addComment (N := Q) 5000 [Sample.alice] "64d000000000000000000002"
      (Sample.says Sample.alice_id "  Thanks  ") Sample.commented
    = (d1, Task.CommentReturned c)
    /\ Task.content c = Some "Thanks"%string
    /\ Task.updateComment (M := Sample.hex_cast) 6000 [Sample.alice]
         "64d000000000000000000002" "Mine" Sample.bob_id d1
       = (d1, Task.CommentThrown "Not authorized to update this comment").
Proof.
  assert (Hv : Task.validate (N := Q) 5000 [Sample.alice] Sample.commented = true)
    by reflexivity.
  destruct (added_comment_is_its_authors Q _ Sample.hex_cast 5000 6000 [Sample.alice]
              [Sample.alice] "64d000000000000000000002" Sample.alice_id "  Thanks  "
              Sample.commented eq_refl eq_refl Hv eq_refl)
    as (c & d1 & E & _ & _ & _ & Hcont & _ & _ & Hother & _).
  exists c, d1. split; [exact E|]. split; [exact Hcont|].
  apply Hother. discriminate.
Defined.

(** ** Listing tasks *)

Section ListFacts.
Context {N : Type} {HN : Number N}.

#[local] Existing Instance newest_first_trans.
#[local] Existing Instance newest_first_total.

Lemma page_of_sorted page limit (l : list (Task.t N)) :
  StronglySorted TaskController.newest_first
    (TaskController.page_of page limit (merge_sort TaskController.newest_first l)).
Proof.
  pose proof (StronglySorted_merge_sort TaskController.newest_first l) as Hs.
  unfold TaskController.page_of.
  set (sorted := merge_sort TaskController.newest_first l) in *.
  set (n := ((page - 1) * limit)%nat).
  assert (Hd : StronglySorted TaskController.newest_first (drop n sorted)).
  { rewrite <- (take_drop n sorted) in Hs. by apply StronglySorted_app_1_r in Hs. }
  destruct (limit =? 0)%nat; [done|].
  rewrite <- (take_drop limit (drop n sorted)) in Hd.
  by apply StronglySorted_app_1_l in Hd.
Qed.

Lemma page_of_bounded page limit (l : list (Task.t N)) :
  limit <> 0%nat -> (length (TaskController.page_of page limit l) <= limit)%nat.
Proof.
  intros Hl. unfold TaskController.page_of.
  destruct (Nat.eqb_spec limit 0); [done|]. rewrite length_take. lia.
Qed.

Lemma page_of_past_end page limit (l : list (Task.t N)) :
  (length l <= (page - 1) * limit)%nat -> TaskController.page_of page limit l = [].
Proof.
  intros Hl. unfold TaskController.page_of. rewrite drop_ge by done.
  destruct (limit =? 0)%nat; [done | apply take_nil].
Qed.

Lemma sorted_find_length (f : Task.t N -> bool) tasks :
  (length (merge_sort TaskController.newest_first (Task.find f tasks))
   <= Task.countDocuments f tasks)%nat.
Proof.
  rewrite (Permutation_length (merge_sort_Permutation _ _)).
  unfold Task.find, Task.countDocuments. apply filter_length_within.
  intros d. rewrite andb_true_iff. tauto.
Qed.

Lemma narrowed_all (value : option string) :
  value = None \/ value = Some "" \/ value = Some "all" ->
  forall actual, TaskController.narrowed value actual = true.
Proof. by intros [->|[->| ->]] actual. Qed.

Lemma narrowed_value (s actual : string) :
  s <> "" -> s <> "all" ->
  TaskController.narrowed (Some s) actual = true -> actual = s.
Proof.
  intros H1 H2. unfold TaskController.narrowed.
  destruct (String.eqb_spec s ""); [done|]. destruct (String.eqb_spec s "all"); [done|].
  simpl. by intros ?%String.eqb_eq.
Qed.

End ListFacts.

(** X19. getTasks answers 500 [Server error fetching tasks] for page 0
    with a positive limit.  Otherwise the tasks of the answer are in
    order of creation, newest first; with a positive limit there are at
    most [limit] of them, and none when the pages before hold
    [totalTasks] tasks or more; they are never more than [totalTasks];
    [currentPage] is the page asked for (1 by default).  A status other
    than the empty string and [all] is the status of every task
    returned, while [all] and the empty string give the answer of a
    query without a status. *)
Theorem getTasks_page :
  forall (N : Type) (HN : Number N) (req_user_id : ObjectId)
         (q : TaskController.ListQuery) (tasks : list (Task.t N)),
    let page := default 1%nat (TaskController.q_page q) in
    let limit := default 10%nat (TaskController.q_limit q) in
    (page = 0%nat -> limit <> 0%nat ->
     TaskController.getTasks req_user_id q tasks
     = TaskController.ListError 500 "Server error fetching tasks")
    /\ (forall found pagination,
          TaskController.getTasks req_user_id q tasks
          = TaskController.ListOk found pagination ->
          (forall (i j : nat) a b, (i < j)%nat ->
              found !! i = Some a -> found !! j = Some b ->
              Task.createdAt b <= Task.createdAt a)
          /\ (limit <> 0%nat -> (length found <= limit)%nat)
          /\ (limit <> 0%nat ->
              (TaskController.totalTasks pagination <= (page - 1) * limit)%nat ->
              found = [])
          /\ (length found <= TaskController.totalTasks pagination)%nat
          /\ TaskController.currentPage pagination = page
          /\ (forall s, TaskController.q_status q = Some s -> s <> "" -> s <> "all" ->
                forall d, d ∈ found -> Task.status_str (Task.status d) = s))
    /\ (TaskController.q_status q = Some "" \/ TaskController.q_status q = Some "all" ->
        TaskController.getTasks req_user_id q tasks
        = TaskController.getTasks req_user_id
            {| TaskController.q_status := None;
               TaskController.q_priority := TaskController.q_priority q;
               TaskController.q_page := TaskController.q_page q;
               TaskController.q_limit := TaskController.q_limit q |} tasks).
Proof.
  intros N HN req_user_id q tasks page limit. split; [|split].
  - intros Hp Hl. unfold TaskController.getTasks. fold page limit. rewrite Hp.
    by destruct (Nat.eqb_spec limit 0).
  - intros found pagination. unfold TaskController.getTasks. fold page limit.
    destruct ((page =? 0)%nat && negb (limit =? 0)%nat); [discriminate|].
    intros E. injection E as <- <-. cbn [TaskController.totalTasks TaskController.currentPage].
    set (filter := TaskController.list_filter req_user_id q).
    pose proof (sorted_find_length filter tasks) as Hlen.
    split; [|split; [|split; [|split; [|split]]]].
    + intros i j a b Hij Hi Hj.
      pose proof (page_of_sorted page limit (Task.find filter tasks)) as Hs.
      revert Hs i j Hij Hi Hj.
      generalize (TaskController.page_of page limit
                    (merge_sort TaskController.newest_first (Task.find filter tasks))).
      intros l Hs. induction Hs as [|x l Hs IH Hall]; intros i j Hij Hi Hj; [done|].
      destruct j as [|j]; [lia|]. destruct i as [|i]; simpl in *.
      * injection Hi as ->. rewrite Forall_forall in Hall.
        apply (Hall b). by eapply list_elem_of_lookup_2.
      * apply (IH i j); [lia|done..].
    + apply page_of_bounded.
    + intros _ Hpast. apply page_of_past_end. lia.
    + etrans; [apply page_of_length | exact Hlen].
    + reflexivity.
    + intros s Hs H1 H2 d Hd. apply page_of_subseteq in Hd.
      rewrite merge_sort_Permutation in Hd. apply find_spec in Hd as (_ & Hf & _).
      unfold filter, TaskController.list_filter in Hf. rewrite Hs in Hf.
      apply andb_true_iff in Hf as [Hf _]. apply andb_true_iff in Hf as [_ Hf].
      by apply narrowed_value in Hf.
  - intros Hq. unfold TaskController.getTasks.
    cbn [TaskController.q_page TaskController.q_limit].
    assert (Hext : forall d : Task.t N,
               TaskController.list_filter req_user_id q d
               = TaskController.list_filter req_user_id
                   {| TaskController.q_status := None;
                      TaskController.q_priority := TaskController.q_priority q;
                      TaskController.q_page := TaskController.q_page q;
                      TaskController.q_limit := TaskController.q_limit q |} d).
    { intros d. unfold TaskController.list_filter.
      cbn [TaskController.q_status TaskController.q_priority].
      rewrite (narrowed_all (TaskController.q_status q)) by tauto. done. }
    unfold Task.find, Task.countDocuments.
    rewrite (List.filter_ext _ _ Hext).
    rewrite (List.filter_ext
               (fun d : Task.t N =>
                  TaskController.list_filter req_user_id q d && negb (Task.isArchived d))
               (fun d => TaskController.list_filter req_user_id
                   {| TaskController.q_status := None;
                      TaskController.q_priority := TaskController.q_priority q;
                      TaskController.q_page := TaskController.q_page q;
                      TaskController.q_limit := TaskController.q_limit q |} d
                         && negb (Task.isArchived d))) by (intros d; by rewrite Hext).
    reflexivity.
Qed.
